(** * Save_Temp: the [directories] helper class of [load.py]

    A shallow embedding of the Python class [directories] and of the
    operating-system and library primitives it delegates to, followed by
    the properties stated about it.

    Definitions:
    - [PyStr]       : the [str] methods the class relies on;
    - [posixpath]   : [os.path.join], [os.path.split], [os.path.dirname];
    - [FS]          : a directory tree with ordered listings, path resolution;
    - [Py]          : the state-and-exception monad of a Python process;
    - [os], [io], [shutil] : the primitives called by the class;
    - [Serializers] : [json], [pickle] and [pandas], as an interface;
    - [directories] : the class itself, method by method;
    - [SpecDown]    : the downward search as the specification words it;
    - [Sample]      : a serializer and small file systems to run the class on.

    Properties: strings and paths, files, dictionaries, and then the class:
    inspection, navigation, moving a file, persistence.  A second part
    follows the methods further: construction, the changes of directory,
    the directories made, removal, the searches, moving and what the
    savers and loaders do at the edges. *)

From Stdlib Require Import String Ascii List Bool Arith ZArith NArith Lia.
Import ListNotations.
Local Open Scope list_scope.
Local Open Scope string_scope.

Set Warnings "-register-all".

(* ===================================================================== *)
(** ** Python strings *)
(* ===================================================================== *)

Module PyStr.

Definition sep : ascii := "/"%char.
Definition dot : ascii := "."%char.

(** [bool(s)] : a string is truthy when it is not empty. *)
Definition truthy (s : string) : bool :=
  match s with EmptyString => false | String _ _ => true end.

(** [s.startswith(p)] *)
Definition startswith (s p : string) : bool := String.prefix p s.

(** [s[n:]] for [0 <= n]. *)
Fixpoint drop (n : nat) (s : string) : string :=
  match n, s with
  | O, _ => s
  | S _, EmptyString => EmptyString
  | S m, String _ t => drop m t
  end.

(** [s[:n]] for [0 <= n]. *)
Fixpoint take (n : nat) (s : string) : string :=
  match n, s with
  | O, _ => EmptyString
  | S _, EmptyString => EmptyString
  | S m, String c t => String c (take m t)
  end.

(** [s.endswith(p)] *)
Definition endswith (s p : string) : bool :=
  (String.length p <=? String.length s)%nat
  && String.eqb (drop (String.length s - String.length p) s) p.

(** [needle in hay] *)
Fixpoint contains (needle hay : string) : bool :=
  String.prefix needle hay
  || match hay with
     | EmptyString => false
     | String _ t => contains needle t
     end.

(** [s.split(c)] for a one-character separator: never an empty list. *)
Fixpoint split (c : ascii) (s : string) : list string :=
  match s with
  | EmptyString => [EmptyString]
  | String a t =>
      if Ascii.eqb a c then EmptyString :: split c t
      else match split c t with
           | h :: r => String a h :: r
           | [] => [String a EmptyString]
           end
  end.

(** [s.split(c)[0]] *)
Definition split_first (c : ascii) (s : string) : string :=
  hd EmptyString (split c s).

(** [s.rfind(c)], with [-1] when [c] does not occur. *)
Fixpoint rfind_from (c : ascii) (s : string) (idx last : Z) : Z :=
  match s with
  | EmptyString => last
  | String a t => rfind_from c t (idx + 1) (if Ascii.eqb a c then idx else last)
  end.

Definition rfind (c : ascii) (s : string) : Z := rfind_from c s 0 (-1).

(** [s.lstrip(c)], [s.rstrip(c)], [s.strip(c)] for one character. *)
Fixpoint lstrip (c : ascii) (s : string) : string :=
  match s with
  | EmptyString => EmptyString
  | String a t => if Ascii.eqb a c then lstrip c t else s
  end.

Fixpoint rstrip (c : ascii) (s : string) : string :=
  match s with
  | EmptyString => EmptyString
  | String a t =>
      match rstrip c t with
      | EmptyString => if Ascii.eqb a c then EmptyString else String a EmptyString
      | t' => String a t'
      end
  end.

Definition strip (c : ascii) (s : string) : string := rstrip c (lstrip c s).

(** [c * n] *)
Fixpoint replicate (n : nat) (c : ascii) : string :=
  match n with O => EmptyString | S m => String c (replicate m c) end.

(** [c.join(l)] *)
Fixpoint join (c : string) (l : list string) : string :=
  match l with
  | [] => EmptyString
  | [x] => x
  | x :: r => x ++ c ++ join c r
  end.

(** Octal digits of a natural number, most significant first; [fuel]
    bounds the number of digits. *)
Definition octal_digit (n : N) : ascii :=
  ascii_of_N (48 + n).

Fixpoint octal_digits (fuel : nat) (n : N) (acc : string) : string :=
  match fuel with
  | O => acc
  | S f =>
      let acc' := String (octal_digit (N.modulo n 8)) acc in
      if N.ltb n 8 then acc' else octal_digits f (N.div n 8) acc'
  end.

(** [oct(n)] for [0 <= n]. *)
Definition oct (n : N) : string :=
  "0o" ++ octal_digits (S (N.to_nat (N.size n))) n EmptyString.

(** [s[-3:]] *)
Definition last3 (s : string) : string :=
  drop (String.length s - 3) s.

End PyStr.

(* ===================================================================== *)
(** ** [posixpath] *)
(* ===================================================================== *)

Module posixpath.
Import PyStr.

(** [os.path.join(a, b)]:
    [if b.startswith('/'): path = b
     elif not path or path.endswith('/'): path += b
     else: path += '/' + b] *)
Definition join (a b : string) : string :=
  if startswith b "/" then b
  else if negb (truthy a) || endswith a "/" then a ++ b
  else a ++ "/" ++ b.

(** [os.path.split(p)]:
    [i = p.rfind('/') + 1; head, tail = p[:i], p[i:]
     if head and head != '/'*len(head): head = head.rstrip('/')] *)
Definition split (p : string) : string * string :=
  let i := Z.to_nat (rfind sep p + 1) in
  let head := take i p in
  let tail := drop i p in
  let head :=
    if truthy head && negb (String.eqb head (replicate (String.length head) sep))
    then rstrip sep head else head in
  (head, tail).

(** [os.path.dirname(p)] and [os.path.basename(p)]. *)
Definition dirname (p : string) : string := fst (split p).
Definition basename (p : string) : string := drop (Z.to_nat (rfind sep p + 1)) p.

End posixpath.

(* ===================================================================== *)
(** ** The file system *)
(* ===================================================================== *)

(** A file system is a tree.  A directory keeps its entries as an
    association list: the order of the list is the order in which the
    operating system enumerates the directory ([os.listdir], [os.scandir]),
    which is not sorted in general.  Symbolic links, hard links and
    permissions checks are outside the model. *)
Module FS.

Record stat : Type := mkStat
  { st_mode : N;      (* file type and permission bits *)
    st_size : N;      (* size in bytes *)
    st_mtime : Z      (* last modification time, as a time stamp *) }.

Inductive node : Type :=
| File (st : stat) (data : string)
| Dir (st : stat) (entries : list (string * node)).

Definition is_dir (n : node) : bool :=
  match n with Dir _ _ => true | File _ _ => false end.

Definition is_file (n : node) : bool :=
  match n with File _ _ => true | Dir _ _ => false end.

Definition stat_of (n : node) : stat :=
  match n with File st _ => st | Dir st _ => st end.

(** The entry called [name], if any. *)
Fixpoint lookup (name : string) (es : list (string * node)) : option node :=
  match es with
  | [] => None
  | (k, n) :: r => if String.eqb k name then Some n else lookup name r
  end.

(** The node reached from [n] by following the components [cs]. *)
Fixpoint get_node (n : node) (cs : list string) : option node :=
  match cs with
  | [] => Some n
  | c :: r =>
      match n with
      | Dir _ es =>
          match lookup c es with
          | Some m => get_node m r
          | None => None
          end
      | File _ _ => None
      end
  end.

Inductive errno : Type :=
| ENOENT | ENOTDIR | EEXIST | EISDIR | ENOTEMPTY | EINVAL | EBUSY.

(** One step of path resolution: [cs] is the absolute position reached so
    far, [c] the next component of the path. *)
Definition step (root : node) (acc : errno + list string) (c : string)
  : errno + list string :=
  match acc with
  | inl e => inl e
  | inr cs =>
      match get_node root cs with
      | Some (Dir _ es) =>
          if String.eqb c "" || String.eqb c "." then inr cs
          else if String.eqb c ".." then inr (removelast cs)
          else match lookup c es with
               | Some _ => inr (cs ++ [c])%list
               | None => inl ENOENT
               end
      | Some (File _ _) => inl ENOTDIR
      | None => inl ENOENT
      end
  end.

Definition start (cwd : list string) (p : string) : list string :=
  if PyStr.startswith p "/" then [] else cwd.

(** The absolute position named by the path [p], for a process whose
    working directory is at [cwd]. *)
Definition resolve (root : node) (cwd : list string) (p : string)
  : errno + list string :=
  if negb (PyStr.truthy p) then inl ENOENT
  else fold_left (step root) (PyStr.split PyStr.sep p) (inr (start cwd p)).

(** The directory that holds (or would hold) the last component of [p],
    and that last component. *)
Definition resolve_parent (root : node) (cwd : list string) (p : string)
  : errno + (list string * string) :=
  if negb (PyStr.truthy p) then inl ENOENT
  else
    let cs := PyStr.split PyStr.sep p in
    match fold_left (step root) (removelast cs) (inr (start cwd p)) with
    | inl e => inl e
    | inr par =>
        match get_node root par with
        | Some (Dir _ _) => inr (par, last cs "")
        | Some (File _ _) => inl ENOTDIR
        | None => inl ENOENT
        end
    end.

(** The node named by [p]. *)
Definition node_at (root : node) (cwd : list string) (p : string)
  : errno + node :=
  match resolve root cwd p with
  | inl e => inl e
  | inr cs =>
      match get_node root cs with
      | Some n => inr n
      | None => inl ENOENT
      end
  end.

(** Replace the entry [name], keeping its position, or add it at the end.
    Where a new entry stands is a choice of this model: a directory has to
    list its entries in some order, and [os.listdir] promises none.  The
    properties proved for every tree therefore state a listing after an
    entry was made, moved or removed by membership; a position shows only
    where a sample tree is evaluated. *)
Fixpoint set_entry (name : string) (n : node) (es : list (string * node))
  : list (string * node) :=
  match es with
  | [] => [(name, n)]
  | (k, m) :: r =>
      if String.eqb k name then (k, n) :: r else (k, m) :: set_entry name n r
  end.

(** Take the entry [name] out; the order in which the others stay is, again,
    the model's. *)
Fixpoint remove_entry (name : string) (es : list (string * node))
  : list (string * node) :=
  match es with
  | [] => []
  | (k, m) :: r =>
      if String.eqb k name then r else (k, m) :: remove_entry name r
  end.

(** Apply [f] to the entries of the directory at position [cs]. *)
Fixpoint update_dir (n : node) (cs : list string)
    (f : list (string * node) -> list (string * node)) : node :=
  match n with
  | File _ _ => n
  | Dir st es =>
      match cs with
      | [] => Dir st (f es)
      | c :: r =>
          match lookup c es with
          | Some m => Dir st (set_entry c (update_dir m r f) es)
          | None => n
          end
      end
  end.

Definition names (es : list (string * node)) : list string := map fst es.

(** Names are single path components. *)
Definition valid_name (s : string) : bool :=
  PyStr.truthy s
  && negb (String.eqb s ".") && negb (String.eqb s "..")
  && negb (PyStr.contains "/" s).

(** Well-formed trees: entry names are valid and pairwise distinct within
    a directory. *)
Inductive wf : node -> Prop :=
| wf_file : forall st data, wf (File st data)
| wf_dir : forall st es,
    NoDup (names es) ->
    Forall (fun e => valid_name (fst e) = true /\ wf (snd e)) es ->
    wf (Dir st es).

(** Induction on a tree, with the property at hand for every entry of a
    directory. *)
Fixpoint node_ind' (P : node -> Prop)
    (Hfile : forall st data, P (File st data))
    (Hdir : forall st es, Forall (fun e => P (snd e)) es -> P (Dir st es))
    (n : node) : P n :=
  match n with
  | File st data => Hfile st data
  | Dir st es =>
      Hdir st es
        ((fix all (l : list (string * node)) : Forall (fun e => P (snd e)) l :=
            match l with
            | [] => Forall_nil _
            | e :: r => Forall_cons e (node_ind' P Hfile Hdir (snd e)) (all r)
            end) es)
  end.

(** [r'] keeps every directory of [r], with at least the names it had. *)
Definition extends (r r' : node) : Prop :=
  forall cs st es,
    get_node r cs = Some (Dir st es) ->
    exists es', get_node r' cs = Some (Dir st es')
                /\ forall c, lookup c es <> None -> lookup c es' <> None.

(** Whether the entry called [name] passes [test]. *)
Definition entry_is (test : node -> bool) (es : list (string * node))
    (name : string) : bool :=
  match lookup name es with Some n => test n | None => false end.

End FS.

(* ===================================================================== *)
(** ** The Python process: state and exceptions *)
(* ===================================================================== *)

Module Py.

(** The exceptions that reach the class.  [OSError e] stands for the
    subclass Python picks for [e]: [FileNotFoundError] for [ENOENT],
    [NotADirectoryError] for [ENOTDIR], [FileExistsError] for [EEXIST],
    [IsADirectoryError] for [EISDIR]. *)
Inductive exn : Type :=
| OSError (e : FS.errno)
| ValueError (msg : string)
| ShutilError (msg : string)
| CodecError (msg : string)
| UnboundLocalError (name : string)
| RecursionError.

Inductive outcome (A : Type) : Type :=
| Ok (a : A)
| Raise (e : exn).
Arguments Ok {A} a.
Arguments Raise {A} e.

(** What a call can observe and change: the file system, the working
    directory of the process, its environment, the clock and what was
    printed so far. *)
Record world : Type := mkWorld
  { root : FS.node;
    pcwd : list string;
    env_HOME : option string;
    umask : N;
    clock : Z;
    stdout : list string }.

Definition with_root (w : world) (r : FS.node) : world :=
  mkWorld r (pcwd w) (env_HOME w) (umask w) (clock w) (stdout w).

Definition with_pcwd (w : world) (c : list string) : world :=
  mkWorld (root w) c (env_HOME w) (umask w) (clock w) (stdout w).

Definition with_stdout (w : world) (o : list string) : world :=
  mkWorld (root w) (pcwd w) (env_HOME w) (umask w) (clock w) o.

(** A computation: from a world to an outcome and the world it leaves.  An
    exception keeps the changes made before it was raised. *)
Definition M (A : Type) : Type := world -> outcome A * world.

Definition ret {A} (a : A) : M A := fun w => (Ok a, w).

Definition bind {A B} (c : M A) (k : A -> M B) : M B :=
  fun w =>
    match c w with
    | (Ok a, w') => k a w'
    | (Raise e, w') => (Raise e, w')
    end.

Definition raise {A} (e : exn) : M A := fun w => (Raise e, w).

(** [try: c  except <handles>: h] *)
Definition try_except {A} (c : M A) (handles : exn -> bool) (h : exn -> M A) : M A :=
  fun w =>
    match c w with
    | (Ok a, w') => (Ok a, w')
    | (Raise e, w') => if handles e then h e w' else (Raise e, w')
    end.

(** Read the world without changing it. *)
Definition gets {A} (f : world -> A) : M A := fun w => (Ok (f w), w).

Definition of_errno {A} (r : FS.errno + A) : outcome A :=
  match r with inl e => Raise (OSError e) | inr a => Ok a end.

(** [print(line)] and [tqdm.tqdm.write(line)] *)
Definition print (line : string) : M unit :=
  fun w => (Ok tt, with_stdout w (stdout w ++ [line])%list).

Definition is_OSError (e : exn) : bool :=
  match e with OSError _ => true | _ => false end.

Definition is_FileExistsError (e : exn) : bool :=
  match e with OSError FS.EEXIST => true | _ => false end.

(** [except Exception] *)
Definition is_Exception (e : exn) : bool := true.

(** [str(e)] *)
Definition errno_str (e : FS.errno) : string :=
  match e with
  | FS.ENOENT => "[Errno 2] No such file or directory"
  | FS.ENOTDIR => "[Errno 20] Not a directory"
  | FS.EEXIST => "[Errno 17] File exists"
  | FS.EISDIR => "[Errno 21] Is a directory"
  | FS.ENOTEMPTY => "[Errno 39] Directory not empty"
  | FS.EINVAL => "[Errno 22] Invalid argument"
  | FS.EBUSY => "[Errno 16] Device or resource busy"
  end.

Definition str_of_exn (e : exn) : string :=
  match e with
  | OSError n => errno_str n
  | ValueError m => m
  | ShutilError m => m
  | CodecError m => m
  | UnboundLocalError n =>
      "cannot access local variable '" ++ n ++ "' where it is not associated with a value"
  | RecursionError => "maximum recursion depth exceeded"
  end.

End Py.

Declare Scope py_scope.
Delimit Scope py_scope with py.
Notation "x <- c ;; k" := (Py.bind c (fun x => k))
  (at level 61, c at next level, right associativity) : py_scope.
Notation "c ;;; k" := (Py.bind c (fun _ => k))
  (at level 61, right associativity) : py_scope.
Local Open Scope py_scope.

(* ===================================================================== *)
(** ** [os], [os.path], [shutil], files *)
(* ===================================================================== *)

Module os.
Import Py.

Fixpoint comps_eqb (a b : list string) : bool :=
  match a, b with
  | [], [] => true
  | x :: a', y :: b' => String.eqb x y && comps_eqb a' b'
  | _, _ => false
  end.

Fixpoint comps_prefix (a b : list string) : bool :=
  match a, b with
  | [], _ => true
  | x :: a', y :: b' => String.eqb x y && comps_prefix a' b'
  | _ :: _, [] => false
  end.

(** The node a path names in a world. *)
Definition node_of (w : world) (p : string) : FS.errno + FS.node :=
  FS.node_at (root w) (pcwd w) p.

(** [os.path.exists], [os.path.isdir], [os.path.isfile]: none raises. *)
Definition exists_in (w : world) (p : string) : bool :=
  match node_of w p with inr _ => true | inl _ => false end.

Definition isdir_in (w : world) (p : string) : bool :=
  match node_of w p with inr n => FS.is_dir n | inl _ => false end.

Definition isfile_in (w : world) (p : string) : bool :=
  match node_of w p with inr n => FS.is_file n | inl _ => false end.

Definition path_exists (p : string) : M bool := gets (fun w => exists_in w p).
Definition path_isdir (p : string) : M bool := gets (fun w => isdir_in w p).
Definition path_isfile (p : string) : M bool := gets (fun w => isfile_in w p).

(** [os.getcwd()]: the absolute path of the working directory; fails when
    that directory is gone. *)
Definition getcwd : M string :=
  fun w =>
    match FS.get_node (root w) (pcwd w) with
    | Some (FS.Dir _ _) => (Ok ("/" ++ PyStr.join "/" (pcwd w)), w)
    | Some (FS.File _ _) => (Raise (OSError FS.ENOTDIR), w)
    | None => (Raise (OSError FS.ENOENT), w)
    end.

(** [os.getenv('HOME')] *)
Definition getenv_HOME : M (option string) := gets env_HOME.

(** [os.listdir(p)]: the names of the entries of a directory, in the
    order the system enumerates them. *)
Definition listdir_in (w : world) (p : string) : outcome (list string) :=
  match node_of w p with
  | inr (FS.Dir _ es) => Ok (FS.names es)
  | inr (FS.File _ _) => Raise (OSError FS.ENOTDIR)
  | inl e => Raise (OSError e)
  end.

Definition listdir (p : string) : M (list string) :=
  fun w => (listdir_in w p, w).

(** [os.listdir()] is [os.listdir('.')]. *)
Definition listdir0 : M (list string) := listdir ".".

(** [os.chdir(p)] *)
Definition chdir (p : string) : M unit :=
  fun w =>
    match FS.resolve (root w) (pcwd w) p with
    | inl e => (Raise (OSError e), w)
    | inr cs =>
        match FS.get_node (root w) cs with
        | Some (FS.Dir _ _) => (Ok tt, with_pcwd w cs)
        | Some (FS.File _ _) => (Raise (OSError FS.ENOTDIR), w)
        | None => (Raise (OSError FS.ENOENT), w)
        end
    end.

(** [os.stat(p)] *)
Definition stat (p : string) : M FS.stat :=
  fun w => (of_errno (match node_of w p with
                      | inl e => inl e
                      | inr n => inr (FS.stat_of n)
                      end), w).

Definition special_name (s : string) : bool :=
  String.eqb s "" || String.eqb s "." || String.eqb s "..".

(** The status of a directory created now: type bits [0o40000], mode
    [0o777] masked by the umask. *)
Definition new_dir_stat (w : world) : FS.stat :=
  FS.mkStat (16384 + N.ldiff 511 (umask w)) 4096 (clock w).

(** The status of a regular file written now: type bits [0o100000], mode
    [0o666] masked by the umask. *)
Definition new_file_stat (w : world) (data : string) : FS.stat :=
  FS.mkStat (32768 + N.ldiff 438 (umask w)) (N.of_nat (String.length data)) (clock w).

(** [os.mkdir(p)]: one level; the parent must exist, the name must not. *)
Definition mkdir (p : string) : M unit :=
  fun w =>
    let p' := PyStr.rstrip PyStr.sep p in
    if negb (PyStr.truthy p) then (Raise (OSError FS.ENOENT), w)
    else if negb (PyStr.truthy p') then (Raise (OSError FS.EEXIST), w)
    else
      match FS.resolve_parent (root w) (pcwd w) p' with
      | inl e => (Raise (OSError e), w)
      | inr (par, name) =>
          if special_name name then (Raise (OSError FS.EEXIST), w)
          else
            match FS.get_node (root w) (par ++ [name])%list with
            | Some _ => (Raise (OSError FS.EEXIST), w)
            | None =>
                (Ok tt,
                 with_root w
                   (FS.update_dir (root w) par
                      (FS.set_entry name (FS.Dir (new_dir_stat w) []))))
            end
      end.

(** [os.makedirs(name)] with [exist_ok=False]:
    [head, tail = path.split(name)
     if not tail: head, tail = path.split(head)
     if head and tail and not path.exists(head):
         try: makedirs(head)
         except FileExistsError: pass
         if tail == curdir: return
     mkdir(name)]
    The recursion is on ever shorter heads; [fuel] bounds its depth. *)
Fixpoint makedirs_rec (fuel : nat) (name : string) : M unit :=
  match fuel with
  | O => raise RecursionError
  | S f =>
      let (head, tail) := posixpath.split name in
      let (head, tail) :=
        if negb (PyStr.truthy tail) then posixpath.split head else (head, tail) in
      ex <- path_exists head ;;
      if PyStr.truthy head && PyStr.truthy tail && negb ex then
        try_except (makedirs_rec f head) is_FileExistsError (fun _ => ret tt) ;;;
        if String.eqb tail "." then ret tt else mkdir name
      else mkdir name
  end.

Definition makedirs (name : string) : M unit :=
  makedirs_rec (S (String.length name)) name.

(** [os.remove(p)]: unlink a regular file. *)
Definition remove (p : string) : M unit :=
  fun w =>
    match FS.resolve_parent (root w) (pcwd w) p with
    | inl e => (Raise (OSError e), w)
    | inr (par, name) =>
        if special_name name then (Raise (OSError FS.EISDIR), w)
        else
          match FS.get_node (root w) (par ++ [name])%list with
          | Some (FS.File _ _) =>
              (Ok tt, with_root w (FS.update_dir (root w) par (FS.remove_entry name)))
          | Some (FS.Dir _ _) => (Raise (OSError FS.EISDIR), w)
          | None => (Raise (OSError FS.ENOENT), w)
          end
    end.

(** [os.rename(src, dst)] inside one file system.  A trailing [/] asks for
    a directory; the last component may be neither [.] nor [..]; a directory
    does not move below itself, nothing moves onto one of its ancestors; a
    regular file replaces a regular file, a directory an empty directory. *)
Definition rename (src dst : string) : M unit :=
  fun w =>
    match FS.resolve_parent (root w) (pcwd w) (PyStr.rstrip PyStr.sep src),
          FS.resolve_parent (root w) (pcwd w) (PyStr.rstrip PyStr.sep dst) with
    | inl e, _ => (Raise (OSError e), w)
    | _, inl e => (Raise (OSError e), w)
    | inr (sp, sn), inr (dp, dn) =>
        if special_name sn || special_name dn then (Raise (OSError FS.EBUSY), w)
        else
          let s := (sp ++ [sn])%list in
          let d := (dp ++ [dn])%list in
          match FS.get_node (root w) s with
          | None => (Raise (OSError FS.ENOENT), w)
          | Some n =>
              let moved :=
                with_root w
                  (FS.update_dir
                     (FS.update_dir (root w) sp (FS.remove_entry sn))
                     dp (FS.set_entry dn n)) in
              if FS.is_file n && (PyStr.endswith src "/" || PyStr.endswith dst "/")
              then (Raise (OSError FS.ENOTDIR), w)
              else if comps_eqb s d then (Ok tt, w)
              else if comps_prefix s dp then (Raise (OSError FS.EINVAL), w)
              else if comps_prefix d sp then (Raise (OSError FS.ENOTEMPTY), w)
              else
                match FS.get_node (root w) d, n with
                | None, _ => (Ok tt, moved)
                | Some (FS.File _ _), FS.File _ _ => (Ok tt, moved)
                | Some (FS.File _ _), FS.Dir _ _ => (Raise (OSError FS.ENOTDIR), w)
                | Some (FS.Dir _ _), FS.File _ _ => (Raise (OSError FS.EISDIR), w)
                | Some (FS.Dir _ []), FS.Dir _ _ => (Ok tt, moved)
                | Some (FS.Dir _ (_ :: _)), FS.Dir _ _ =>
                    (Raise (OSError FS.ENOTEMPTY), w)
                end
          end
    end.

(** [os.path.abspath(p)], as components: [normpath(join(getcwd(), p))]
    drops empty components and [.], and lets [..] take back the component
    before it. *)
Definition norm_step (acc : list string) (c : string) : list string :=
  if String.eqb c "" || String.eqb c "." then acc
  else if String.eqb c ".." then removelast acc
  else (acc ++ [c])%list.

Definition abspath_in (w : world) (p : string) : list string :=
  fold_left norm_step (PyStr.split PyStr.sep p) (FS.start (pcwd w) p).

(** [os.walk(top)], top-down: a directory is yielded with the names of its
    sub-directories and of its other entries, both in enumeration order,
    and then each sub-directory is walked in that same order.  A [top] that
    cannot be listed yields nothing. *)
Definition subdirs (es : list (string * FS.node)) : list string :=
  FS.names (filter (fun e => FS.is_dir (snd e)) es).

Definition nondirs (es : list (string * FS.node)) : list string :=
  FS.names (filter (fun e => negb (FS.is_dir (snd e))) es).

Fixpoint walk_node (top : string) (n : FS.node)
  : list (string * list string * list string) :=
  match n with
  | FS.File _ _ => []
  | FS.Dir _ es =>
      (top, subdirs es, nondirs es)
      :: (fix walk_entries (l : list (string * FS.node)) :=
            match l with
            | [] => []
            | (name, child) :: r =>
                ((if FS.is_dir child
                  then walk_node (posixpath.join top name) child
                  else []) ++ walk_entries r)%list
            end) es
  end.

Definition walk_in (w : world) (top : string)
  : list (string * list string * list string) :=
  match node_of w top with
  | inr n => walk_node top n
  | inl _ => []
  end.

Definition walk (top : string) : M (list (string * list string * list string)) :=
  gets (fun w => walk_in w top).

End os.

(** Reading and writing whole files: [open(p, 'w')] creates or truncates,
    the data is in place when the [with] block is left. *)
Module io.
Import Py.

(** The regular file that holds [data], written in the world [w]. *)
Definition written (w : world) (data : string) : FS.node :=
  FS.File (os.new_file_stat w data) data.

(** A path that ends in [/] (or is empty). *)
Definition trailing_slash (p : string) : bool :=
  String.eqb (last (PyStr.split PyStr.sep p) "") "".

(** [open(p, 'w')], the data written and the file closed.  A path that
    ends in [/] names no regular file. *)
Definition write_file (p data : string) : M unit :=
  fun w =>
    if trailing_slash p then
      let p' := PyStr.rstrip PyStr.sep p in
      if negb (PyStr.truthy p) then (Raise (OSError FS.ENOENT), w)
      else if negb (PyStr.truthy p') then (Raise (OSError FS.EISDIR), w)
      else
        match FS.resolve_parent (root w) (pcwd w) p' with
        | inl e => (Raise (OSError e), w)
        | inr _ => (Raise (OSError FS.EISDIR), w)
        end
    else
    match FS.resolve_parent (root w) (pcwd w) p with
    | inl e => (Raise (OSError e), w)
    | inr (par, name) =>
        if os.special_name name then (Raise (OSError FS.EISDIR), w)
        else
          match FS.get_node (root w) (par ++ [name])%list with
          | Some (FS.Dir _ _) => (Raise (OSError FS.EISDIR), w)
          | _ =>
              (Ok tt,
               with_root w
                 (FS.update_dir (root w) par (FS.set_entry name (written w data))))
          end
    end.

(** [open(p, 'w')] / [open(p, 'wb')] *)
Definition open_w (p : string) : M unit := write_file p "".

Definition read_file (p : string) : M string :=
  fun w =>
    match os.node_of w p with
    | inr (FS.File _ data) => (Ok data, w)
    | inr (FS.Dir _ _) => (Raise (OSError FS.EISDIR), w)
    | inl e => (Raise (OSError e), w)
    end.

(** [with open(p, 'w') as f: dump(data, f)] for a serializer that yields
    [text] or raises: the file is created before the serializer runs. *)
Definition dump_to (p : string) (text : outcome string) : M unit :=
  open_w p ;;;
  match text with
  | Ok s => write_file p s
  | Raise e => raise e
  end.

(** [with open(p, 'r') as f: return load(f)] *)
Definition load_from {A} (p : string) (parse : string -> outcome A) : M A :=
  s <- read_file p ;;
  fun w => (parse s, w).

End io.

Module shutil.
Import Py.

(** [shutil._basename]: [os.path.basename(path.rstrip('/'))] *)
Definition _basename (path : string) : string :=
  posixpath.basename (PyStr.rstrip PyStr.sep path).

Definition samefile_in (w : world) (a b : string) : bool :=
  match FS.resolve (root w) (pcwd w) a, FS.resolve (root w) (pcwd w) b with
  | inr x, inr y => os.comps_eqb x y
  | _, _ => false
  end.

(** [shutil._destinsrc(src, dst)]: [abspath(dst)] lies at or below
    [abspath(src)]. *)
Definition destinsrc_in (w : world) (src dst : string) : bool :=
  os.comps_prefix (os.abspath_in w src) (os.abspath_in w dst).

(** [shutil.copytree(src, dst)] followed by [shutil.rmtree(src)]:
    [os.makedirs(dst)] makes the new directory, which must not exist, and
    the tree of [src] ends up there (for a source and a destination whose
    last component is a name, not [.] or [..]). *)
Definition copytree_rmtree (src dst : string) : M unit :=
  os.makedirs dst ;;;
  os.rename src dst.

(** [shutil.copy2(src, dst)] followed by [os.unlink(src)]. *)
Definition copy2_unlink (src dst : string) : M unit :=
  data <- io.read_file src ;;
  try_except (io.write_file dst data)
    (fun e => match e with OSError FS.EISDIR => true | _ => false end)
    (fun e =>
       ex <- os.path_exists dst ;;
       if negb ex then raise (OSError FS.ENOENT) else raise e) ;;;
  os.remove src.

(** [shutil.move(src, dst)]:
    [real_dst = dst
     if os.path.isdir(dst):
         if _samefile(src, dst): os.rename(src, dst); return
         real_dst = os.path.join(dst, _basename(src))
         if os.path.exists(real_dst): raise Error(...)
     try:
         os.rename(src, real_dst)
     except OSError:
         if os.path.isdir(src):
             if _destinsrc(src, dst): raise Error(...)
             copytree(src, real_dst); rmtree(src)
         else:
             copy2(src, real_dst); os.unlink(src)
     return real_dst] *)
Definition move_to (src dst real_dst : string) : M (option string) :=
  try_except (os.rename src real_dst) is_OSError
    (fun _ =>
       d <- os.path_isdir src ;;
       if d then
         inside <- gets (fun w => destinsrc_in w src dst) ;;
         if inside then
           raise (ShutilError ("Cannot move a directory '" ++ src
                               ++ "' into itself '" ++ dst ++ "'."))
         else copytree_rmtree src real_dst
       else copy2_unlink src real_dst) ;;;
  ret (Some real_dst).

Definition move (src dst : string) : M (option string) :=
  d <- os.path_isdir dst ;;
  if d then
    same <- gets (fun w => samefile_in w src dst) ;;
    if same then os.rename src dst ;;; ret None
    else
      let real_dst := posixpath.join dst (_basename src) in
      ex <- os.path_exists real_dst ;;
      if ex then
        raise (ShutilError ("Destination path '" ++ real_dst ++ "' already exists"))
      else move_to src dst real_dst
  else move_to src dst dst.

End shutil.

(* ===================================================================== *)
(** ** Serializers *)
(* ===================================================================== *)

(** [json], [pickle] and [pandas] are used as black boxes: a value goes in,
    bytes come out, and back.  Each may raise. *)
Class Serializers : Type := mkSerializers
  { PyObj : Type;
    DataFrame : Type;
    HDFStore : Type;
    json_dumps : PyObj -> Py.outcome string;
    json_loads : string -> Py.outcome PyObj;
    pickle_dumps : PyObj -> Py.outcome string;
    pickle_loads : string -> Py.outcome PyObj;
    pickle_dumps_dfs : list (string * DataFrame) -> Py.outcome string;
    pickle_loads_dfs : string -> Py.outcome (list (string * DataFrame));
    (* an HDF5 store: [store[key] = df], [store.keys()], [store[key]] *)
    hdf_new : HDFStore;
    hdf_put : HDFStore -> string -> DataFrame -> Py.outcome HDFStore;
    hdf_keys : HDFStore -> list string;
    hdf_get : HDFStore -> string -> Py.outcome DataFrame;
    hdf_bytes : HDFStore -> string;
    hdf_parse : string -> Py.outcome HDFStore;
    (* [df.to_csv(index=False)] and [pd.read_csv] *)
    to_csv : DataFrame -> string;
    read_csv : string -> Py.outcome DataFrame }.

(** A Python [dict] with string keys: insertion-ordered, one entry per key. *)
Module PyDict.

Definition dict (V : Type) : Type := list (string * V).

Fixpoint get {V} (k : string) (d : dict V) : option V :=
  match d with
  | [] => None
  | (k', v) :: r => if String.eqb k' k then Some v else get k r
  end.

(** [d[k] = v] *)
Fixpoint set {V} (k : string) (v : V) (d : dict V) : dict V :=
  match d with
  | [] => [(k, v)]
  | (k', v') :: r =>
      if String.eqb k' k then (k', v) :: r else (k', v') :: set k v r
  end.

Definition keys {V} (d : dict V) : list string := map fst d.

(** A list of pairs is a dict when no key is repeated. *)
Definition is_dict {V} (d : dict V) : Prop := NoDup (keys d).

(** [d1 == d2]: the same keys with the same values, in any order. *)
Definition equal {V} (d1 d2 : dict V) : Prop :=
  forall k, get k d1 = get k d2.

End PyDict.

(* ===================================================================== *)
(** ** The class [directories] *)
(* ===================================================================== *)

Module directories.
Import Py.

(** The attributes of an instance. *)
Record t : Type := mk
  { cwd : string;
    parent_dir : string;
    files : list string;
    home_dir : option string }.

Definition set_files (self : t) (fs : list string) : t :=
  mk (cwd self) (parent_dir self) fs (home_dir self).

(** The dictionary returned by [give_file_info]. *)
Record file_info : Type := mkInfo
  { filename : string;
    size : N;
    last_modified : Z;
    permissions : string }.

(** [__init__] *)
Definition __init__ : M t :=
  c <- os.getcwd ;;
  let p := posixpath.dirname c in
  fs <- os.listdir0 ;;
  h <- os.getenv_HOME ;;
  ret (mk c p fs h).

(** [list_files] *)
Definition list_files (self : t) (folder_path : string) : M (list string) :=
  os.listdir folder_path.

(** [sum(test(item) for item in items)] *)
Fixpoint sum_bools (test : string -> M bool) (items : list string) : M Z :=
  match items with
  | [] => ret 0%Z
  | item :: rest =>
      b <- test item ;;
      s <- sum_bools test rest ;;
      ret ((if b then 1 else 0) + s)%Z
  end.

(** [count_items] *)
Definition count_items (self : t) (folder_path item_type : string) : M Z :=
  if negb (String.eqb item_type "files" || String.eqb item_type "directories")
  then raise (ValueError "item_type must be either 'files' or 'directories'")
  else
    items <- os.listdir folder_path ;;
    if String.eqb item_type "files" then
      sum_bools (fun item => os.path_isfile (posixpath.join folder_path item)) items
    else if String.eqb item_type "directories" then
      sum_bools (fun item => os.path_isdir (posixpath.join folder_path item)) items
    else raise (UnboundLocalError "count").

(** [construct_dir] *)
Definition construct_dir (self : t) (new_dir_name : string) : M unit :=
  os.makedirs new_dir_name.

(** The loop of [join_path_with_keyword]. *)
Fixpoint join_path_loop (self : t) (current_path : string) (keywords : list string)
  : M string :=
  match keywords with
  | [] => ret current_path
  | keyword :: rest =>
      let current_path := posixpath.join current_path keyword in
      ex <- os.path_exists current_path ;;
      (if negb ex then construct_dir self keyword else ret tt) ;;;
      join_path_loop self current_path rest
  end.

(** [join_path_with_keyword] *)
Definition join_path_with_keyword (self : t) (keywords : list string) : M string :=
  join_path_loop self (cwd self) keywords.

(** A loop that may run for ever is run for at most [fuel] turns: [None]
    says that it was still running when the fuel ran out. *)
Definition running (A : Type) : Type := world -> option (A * world).

(** [find_closest_data_folder]:
    [while current_path != self.parent_dir: ...] *)
Fixpoint find_closest_data_folder_loop (fuel : nat) (self : t) (current_path : string)
  : running (option string) :=
  fun w =>
    match fuel with
    | O => None
    | S f =>
        if negb (String.eqb current_path (parent_dir self)) then
          let data_path := posixpath.join current_path "data" in
          if os.exists_in w data_path then Some (Some data_path, w)
          else find_closest_data_folder_loop f self (posixpath.dirname current_path) w
        else Some (None, w)
    end.

Definition find_closest_data_folder (fuel : nat) (self : t) : running (option string) :=
  find_closest_data_folder_loop fuel self (cwd self).

(** The double quote character, and the progress line
    [f'Searching for "{kw}" folder upwards...']. *)
Definition dquote : string := String (ascii_of_nat 34) EmptyString.

Definition searching_up (kw : string) : string :=
  "Searching for " ++ dquote ++ kw ++ dquote ++ " folder upwards...".

(** [find_closest_kw_folder_up]: the body of [while True]. *)
Fixpoint find_closest_kw_folder_up_loop (fuel : nat) (self : t) (kw current_path : string)
  : running (option string) :=
  fun w =>
    match fuel with
    | O => None
    | S f =>
        let kw_path := posixpath.join current_path kw in
        if os.exists_in w kw_path && os.isdir_in w kw_path then Some (Some kw_path, w)
        else if String.eqb current_path (parent_dir self) then Some (None, w)
        else
          let current_path := posixpath.dirname current_path in
          match print (searching_up kw) w with
          | (_, w') => find_closest_kw_folder_up_loop f self kw current_path w'
          end
    end.

Definition find_closest_kw_folder_up (fuel : nat) (self : t) (kw : string)
  : running (option string) :=
  find_closest_kw_folder_up_loop fuel self kw (cwd self).

Definition searching_down (kw : string) : string :=
  "Searching for " ++ dquote ++ kw ++ dquote ++ " folder downwards...".

(** [for dir_name in dirs: if kw in dir_name: return ...; tqdm.write(...)] *)
Fixpoint scan_dirs (kw root : string) (dirs : list string) : M (option string) :=
  match dirs with
  | [] => ret None
  | dir_name :: rest =>
      if PyStr.contains kw dir_name then ret (Some (posixpath.join root dir_name))
      else print (searching_down kw) ;;; scan_dirs kw root rest
  end.

(** [for root, dirs, files in os.walk(self.cwd): ...] *)
Fixpoint scan_walk (kw : string) (ws : list (string * list string * list string))
  : M (option string) :=
  match ws with
  | [] => ret None
  | (root, dirs, _) :: rest =>
      r <- scan_dirs kw root dirs ;;
      match r with
      | Some p => ret (Some p)
      | None => scan_walk kw rest
      end
  end.

(** [find_closest_kw_folder_down] *)
Definition find_closest_kw_folder_down (self : t) (kw : string) : M (option string) :=
  ws <- os.walk (cwd self) ;;
  scan_walk kw ws.

(** [shift_dir] *)
Definition shift_dir (self : t) (new_dir : string) : M t :=
  os.chdir new_dir ;;;
  c <- os.getcwd ;;
  fs <- os.listdir0 ;;
  ret (mk c (parent_dir self) fs (home_dir self)).

(** The dictionary built from a status:
    [{'filename': filename, 'size': st_size, 'last_modified': st_mtime,
      'permissions': oct(st_mode)[-3:]}] *)
Definition info_of (filename : string) (file_stat : FS.stat) : file_info :=
  mkInfo filename
    (FS.st_size file_stat)
    (FS.st_mtime file_stat)
    (PyStr.last3 (PyStr.oct (FS.st_mode file_stat))).

(** [give_file_info] *)
Definition give_file_info (self : t) (filename : string) : M (option file_info) :=
  let file_path := posixpath.join (cwd self) filename in
  ex <- os.path_exists file_path ;;
  if ex then
    file_stat <- os.stat file_path ;;
    ret (Some (info_of filename file_stat))
  else ret None.

(** [search_files] *)
Definition matches_in (pattern root : string) (files : list string) : list string :=
  map (posixpath.join root) (filter (PyStr.contains pattern) files).

Definition search_files (self : t) (pattern : string) : M (list string) :=
  ws <- os.walk (cwd self) ;;
  ret (flat_map (fun '(root, _, files) => matches_in pattern root files) ws).

(** [move_file]: the instance after the call; the method returns nothing. *)
Definition move_file (self : t) (filename dest : string) : M t :=
  let file_path := posixpath.join (cwd self) filename in
  ex <- os.path_exists file_path ;;
  if negb ex then
    print ("Error: File " ++ filename ++ " does not exist.") ;;;
    ret self
  else
    dex <- os.path_exists dest ;;
    (if negb dex then os.makedirs dest else ret tt) ;;;
    try_except
      (shutil.move file_path dest ;;;
       fs <- os.listdir0 ;;
       print ("File " ++ filename ++ " moved to " ++ dest ++ " successfully.") ;;;
       ret (set_files self fs))
      is_Exception
      (fun e =>
         print ("Error moving file " ++ filename ++ " to " ++ dest ++ ": "
                ++ str_of_exn e) ;;;
         ret self).

(** [del_file] *)
Definition del_file (self : t) (filename : string) : M t :=
  let file_path := posixpath.join (cwd self) filename in
  ex <- os.path_exists file_path ;;
  if ex then
    os.remove file_path ;;;
    fs <- os.listdir0 ;;
    ret (set_files self fs)
  else ret self.

(** *** Persistence *)

Section Persistence.
Context {codecs : Serializers}.

(** [save_json] *)
Definition save_json (self : t) (data : PyObj) (filename : string) : M unit :=
  let file_path := posixpath.join (cwd self) filename in
  io.dump_to file_path (json_dumps data).

(** [load_json] *)
Definition load_json (self : t) (filename : string) : M (option PyObj) :=
  let file_path := posixpath.join (cwd self) filename in
  ex <- os.path_exists file_path ;;
  if ex then
    v <- io.load_from file_path json_loads ;;
    ret (Some v)
  else ret None.

(** [save_pickle] *)
Definition save_pickle (self : t) (data : PyObj) (filename : string) : M unit :=
  let file_path := posixpath.join (cwd self) filename in
  io.dump_to file_path (pickle_dumps data).

(** [load_pickle] *)
Definition load_pickle (self : t) (filename : string) : M (option PyObj) :=
  let file_path := posixpath.join (cwd self) filename in
  ex <- os.path_exists file_path ;;
  if ex then
    v <- io.load_from file_path pickle_loads ;;
    ret (Some v)
  else ret None.

(** [save_dict_of_dfs_pickle] *)
Definition save_dict_of_dfs_pickle (self : t) (dfs : PyDict.dict DataFrame)
    (filename : string) : M unit :=
  let file_path := posixpath.join (cwd self) filename in
  io.dump_to file_path (pickle_dumps_dfs dfs) ;;;
  print ("DataFrames saved as pickle object to " ++ filename ++ " successfully.").

(** [load_dict_of_dfs_pickle] *)
Definition load_dict_of_dfs_pickle (self : t) (filename : string)
  : M (option (PyDict.dict DataFrame)) :=
  let file_path := posixpath.join (cwd self) filename in
  ex <- os.path_exists file_path ;;
  if ex then
    dfs <- io.load_from file_path pickle_loads_dfs ;;
    print ("DataFrames loaded from pickle object " ++ filename ++ " successfully.") ;;;
    ret (Some dfs)
  else ret None.

(** [for key, df in dfs.items(): store[key] = df]: the store reached, and
    the exception that stopped the loop if one did. *)
Fixpoint hdf_put_all (store : HDFStore) (items : list (string * DataFrame))
  : HDFStore * option exn :=
  match items with
  | [] => (store, None)
  | (key, df) :: rest =>
      match hdf_put store key df with
      | Ok store' => hdf_put_all store' rest
      | Raise e => (store, Some e)
      end
  end.

(** [save_dict_of_dfs_hdf5]: the store is opened with [mode='w'], filled,
    and closed when the [with] block is left, also by an exception. *)
Definition save_dict_of_dfs_hdf5 (self : t) (dfs : PyDict.dict DataFrame)
    (filename : string) : M unit :=
  let file_path := posixpath.join (cwd self) filename in
  io.open_w file_path ;;;
  let (store, stopped) := hdf_put_all hdf_new dfs in
  io.write_file file_path (hdf_bytes store) ;;;
  match stopped with
  | Some e => raise e
  | None =>
      print ("DataFrames saved to HDF5 file " ++ filename ++ " successfully.")
  end.

(** [for key in store.keys(): dfs[key.strip('/')] = store[key]] *)
Fixpoint hdf_read_all (store : HDFStore) (keys : list string)
    (dfs : PyDict.dict DataFrame) : outcome (PyDict.dict DataFrame) :=
  match keys with
  | [] => Ok dfs
  | key :: rest =>
      match hdf_get store key with
      | Ok df => hdf_read_all store rest (PyDict.set (PyStr.strip PyStr.sep key) df dfs)
      | Raise e => Raise e
      end
  end.

(** [load_dict_of_dfs_hdf5]: the store is opened with [mode='r'], with no
    test that the file exists. *)
Definition load_dict_of_dfs_hdf5 (self : t) (filename : string)
  : M (PyDict.dict DataFrame) :=
  let file_path := posixpath.join (cwd self) filename in
  store <- io.load_from file_path hdf_parse ;;
  dfs <- (fun w => (hdf_read_all store (hdf_keys store) [], w)) ;;
  print ("DataFrames loaded from HDF5 file " ++ filename ++ " successfully.") ;;;
  ret dfs.

(** [f'{folder}/{name}'] *)
Definition in_folder (folder name : string) : string := folder ++ "/" ++ name.

(** [for key, df in dfs.items(): df.to_csv(f'{folder}/{key}.csv', index=False)] *)
Fixpoint save_csv_loop (folder : string) (items : list (string * DataFrame)) : M unit :=
  match items with
  | [] => ret tt
  | (key, df) :: rest =>
      io.write_file (in_folder folder (key ++ ".csv")) (to_csv df) ;;;
      save_csv_loop folder rest
  end.

(** [save_dict_of_dfs_csv] *)
Definition save_dict_of_dfs_csv (self : t) (dfs : PyDict.dict DataFrame)
    (folder : string) : M unit :=
  save_csv_loop folder dfs ;;;
  print ("DataFrames saved as CSV files to " ++ folder ++ " successfully.").

(** [for filename in os.listdir(folder):
       if filename.endswith('.csv'):
           key = filename.split('.')[0]
           dfs[key] = pd.read_csv(f'{folder}/{filename}')] *)
Fixpoint load_csv_loop (folder : string) (filenames : list string)
    (dfs : PyDict.dict DataFrame) : M (PyDict.dict DataFrame) :=
  match filenames with
  | [] => ret dfs
  | filename :: rest =>
      if PyStr.endswith filename ".csv" then
        let key := PyStr.split_first PyStr.dot filename in
        df <- io.load_from (in_folder folder filename) read_csv ;;
        load_csv_loop folder rest (PyDict.set key df dfs)
      else load_csv_loop folder rest dfs
  end.

(** [load_dict_of_dfs_csv] *)
Definition load_dict_of_dfs_csv (self : t) (folder : string)
  : M (PyDict.dict DataFrame) :=
  filenames <- os.listdir folder ;;
  dfs <- load_csv_loop folder filenames [] ;;
  print ("DataFrames loaded from CSV files in " ++ folder ++ " successfully.") ;;;
  ret dfs.

End Persistence.

End directories.

(* ===================================================================== *)
(** ** The folder of CSV files, entry by entry *)
(* ===================================================================== *)

Section CsvFolder.
Context {codecs : Serializers}.

(** The entries of a folder after [save_dict_of_dfs_csv] wrote [items]
    into it, in the world [w]. *)
Definition csv_entries (w : Py.world) (items : PyDict.dict DataFrame)
    (es : list (string * FS.node)) : list (string * FS.node) :=
  fold_left
    (fun es kv => FS.set_entry (fst kv ++ ".csv") (io.written w (to_csv (snd kv))) es)
    items es.

(** The table [pd.read_csv] finds in the entry called [name]. *)
Definition csv_table (es : list (string * FS.node)) (name : string)
  : option DataFrame :=
  match FS.lookup name es with
  | Some (FS.File _ data) =>
      match read_csv data with Py.Ok df => Some df | Py.Raise _ => None end
  | _ => None
  end.

(** One turn of the loop of [load_dict_of_dfs_csv] over a folder whose
    entries are [es]. *)
Definition load_step (es : list (string * FS.node)) (dfs : PyDict.dict DataFrame)
    (filename : string) : PyDict.dict DataFrame :=
  if PyStr.endswith filename ".csv" then
    match csv_table es filename with
    | Some df => PyDict.set (PyStr.split_first PyStr.dot filename) df dfs
    | None => dfs
    end
  else dfs.

End CsvFolder.

(* ===================================================================== *)
(** ** The downward search as the specification words it *)
(* ===================================================================== *)

(** The specification describes [findKeywordFolderDownward] as a pre-order
    traversal with siblings in lexicographic order.  [SpecDown] writes that
    traversal down, to be compared with [directories.find_closest_kw_folder_down]. *)
Module SpecDown.

Fixpoint insert_entry (e : string * FS.node) (l : list (string * FS.node))
  : list (string * FS.node) :=
  match l with
  | [] => [e]
  | x :: r => if String.leb (fst e) (fst x) then e :: l else x :: insert_entry e r
  end.

Definition sort_entries (l : list (string * FS.node)) : list (string * FS.node) :=
  fold_right insert_entry [] l.

(** Every directory of the tree with its entries in lexicographic order. *)
Fixpoint sort_tree (n : FS.node) : FS.node :=
  match n with
  | FS.File _ _ => n
  | FS.Dir st es =>
      FS.Dir st
        (sort_entries
           ((fix sort_all (l : list (string * FS.node)) :=
               match l with
               | [] => []
               | (name, child) :: r => (name, sort_tree child) :: sort_all r
               end) es))
  end.

(** Pre-order: a sub-directory comes before everything below it, and all of
    that before its next sibling.  Each is listed with its path and name. *)
Fixpoint preorder_dirs (top : string) (n : FS.node) : list (string * string) :=
  match n with
  | FS.File _ _ => []
  | FS.Dir _ es =>
      (fix visit (l : list (string * FS.node)) :=
         match l with
         | [] => []
         | (name, child) :: r =>
             ((if FS.is_dir child
               then (posixpath.join top name, name)
                      :: preorder_dirs (posixpath.join top name) child
               else []) ++ visit r)%list
         end) es
  end.

(** The first sub-directory, in that order, whose name contains [kw]. *)
Definition first_match (kw : string) (l : list (string * string)) : option string :=
  option_map fst (find (fun c => PyStr.contains kw (snd c)) l).

Definition find_down (w : Py.world) (self : directories.t) (kw : string)
  : option string :=
  match os.node_of w (directories.cwd self) with
  | inr n => first_match kw (preorder_dirs (directories.cwd self) (sort_tree n))
  | inl _ => None
  end.

End SpecDown.

(* ===================================================================== *)
(** ** The order of [os.walk], flattened *)
(* ===================================================================== *)

Definition dir_candidates (root : string) (dirs : list string)
  : list (string * string) :=
  map (fun d => (posixpath.join root d, d)) dirs.

(** The sub-directories [find_closest_kw_folder_down] tests, in the order
    it tests them: for each triple of the walk, its [dirs], each with the
    path the method would return for it. *)
Definition candidates (ws : list (string * list string * list string))
  : list (string * string) :=
  flat_map (fun '(root, dirs, _) => dir_candidates root dirs) ws.

(** [dirname] applied [k] times. *)
Fixpoint ancestor (k : nat) (p : string) : string :=
  match k with
  | O => p
  | S j => ancestor j (posixpath.dirname p)
  end.

(** The world after [k] progress lines of the upward search. *)
Fixpoint printed_up (k : nat) (kw : string) (w : Py.world) : Py.world :=
  match k with
  | O => w
  | S j => printed_up j kw (Py.with_stdout w (Py.stdout w ++ [directories.searching_up kw])%list)
  end.

(** No directory called [kw] at the [j]-th ancestor of [cur]. *)
Definition no_match (w : Py.world) (kw cur : string) (j : nat) : Prop :=
  os.isdir_in w (posixpath.join (ancestor j cur) kw) = false.

(* ===================================================================== *)
(** ** What the updates leave behind *)
(* ===================================================================== *)

(** The three octal digits of the permission bits of a mode. *)
Definition permission_digits (mode : N) : string :=
  String (PyStr.octal_digit (N.modulo (N.div mode 64) 8))
    (String (PyStr.octal_digit (N.modulo (N.div mode 8) 8))
       (String (PyStr.octal_digit (N.modulo mode 8)) EmptyString)).

(** The [try] statement of [move_file], entered once the source was found
    and the destination is there. *)
Definition move_attempt (self : directories.t) (filename dest : string)
  : Py.M directories.t :=
  Py.try_except
    (shutil.move (posixpath.join (directories.cwd self) filename) dest ;;;
     fs <- os.listdir0 ;;
     Py.print ("File " ++ filename ++ " moved to " ++ dest ++ " successfully.") ;;;
     Py.ret (directories.set_files self fs))
    Py.is_Exception
    (fun e =>
       Py.print ("Error moving file " ++ filename ++ " to " ++ dest ++ ": "
                 ++ Py.str_of_exn e) ;;;
       Py.ret self).

Section CsvStems.
Context {codecs : Serializers}.

(** The table the key [k] ends up with when the CSV files called [names]
    are loaded in that order from a folder whose entries are [es]: that of
    the last file whose name gives [k]. *)
Definition last_table (es : list (string * FS.node)) (k : string)
    (names : list string) : option DataFrame :=
  fold_left
    (fun acc name =>
       if PyStr.endswith name ".csv"
          && String.eqb (PyStr.split_first PyStr.dot name) k
       then match csv_table es name with Some df => Some df | None => acc end
       else acc)
    names None.

End CsvStems.

(** The empty directory [os.mkdir] makes in the world [w]. *)
Definition made (w : Py.world) : FS.node := FS.Dir (os.new_dir_stat w) [].

(* ===================================================================== *)
(** ** Sample serializers and file systems *)
(* ===================================================================== *)

Module Sample.
Import Py.

(** A serializer for the examples: values and tables are text, stored as
    they are; a collection is stored as [name=table;] records. *)
Definition record (e : string * string) : string := fst e ++ "=" ++ snd e ++ ";".

Definition dump_records (d : list (string * string)) : string :=
  String.concat "" (map record d).

Definition parse_record (s : string) : string * string :=
  match PyStr.split "="%char s with
  | k :: v :: _ => (k, v)
  | _ => (s, "")
  end.

Definition parse_records (s : string) : list (string * string) :=
  map parse_record (removelast (PyStr.split ";"%char s)).

(** The group path a store files a table under: the non-empty components
    of the key after a leading [/]. *)
Definition group_path (key : string) : string :=
  "/" ++ PyStr.join "/" (filter PyStr.truthy (PyStr.split PyStr.sep key)).

Definition key_error {A} (k : string) : outcome A :=
  Raise (CodecError ("No object named " ++ k ++ " in the file")).

#[local] Instance text_codecs : Serializers :=
  {| PyObj := string;
     DataFrame := string;
     HDFStore := list (string * string);
     json_dumps := fun x => Ok x;
     json_loads := fun s => Ok s;
     pickle_dumps := fun x => Ok x;
     pickle_loads := fun s => Ok s;
     pickle_dumps_dfs := fun d => Ok (dump_records d);
     pickle_loads_dfs := fun s => Ok (parse_records s);
     hdf_new := [];
     hdf_put := fun st k df => Ok (PyDict.set (group_path k) df st);
     hdf_keys := fun st => PyDict.keys st;
     hdf_get := fun st k =>
       match PyDict.get k st with Some df => Ok df | None => key_error k end;
     hdf_bytes := dump_records;
     hdf_parse := fun s => Ok (parse_records s);
     to_csv := fun df => df;
     read_csv := fun s => Ok s |}.

Definition dstat : FS.stat := FS.mkStat 16877 4096 0.
Definition fstat (data : string) : FS.stat :=
  FS.mkStat 33188 (N.of_nat (String.length data)) 0.
Definition dir (es : list (string * FS.node)) : FS.node := FS.Dir dstat es.
Definition file (data : string) : FS.node := FS.File (fstat data) data.

Definition world_of (r : FS.node) (cwd : list string) : world :=
  mkWorld r cwd (Some "/home/u") 18 1000 [].

(** The instance built by [__init__] in a world. *)
Definition fresh (w : world) : directories.t :=
  match directories.__init__ w with
  | (Ok self, _) => self
  | (Raise _, _) => directories.mk "" "" [] None
  end.

(** [/g/data] and [/g/p/c], the process in [/g/p/c]. *)
Definition up_root : FS.node :=
  dir [("g", dir [("data", dir []); ("p", dir [("c", dir [])])])].
Definition up_world : world := world_of up_root ["g"; "p"; "c"].

(** The same tree, the process in [/g/p]. *)
Definition up_world_p : world := world_of up_root ["g"; "p"].

(** The instance built in [/g/p] and taken to [/g/p/c] by [shift_dir], with
    the world it is then in. *)
Definition shifted : directories.t * world :=
  match directories.shift_dir (fresh up_world_p) "c" up_world_p with
  | (Ok self, w) => (self, w)
  | (Raise _, w) => (fresh up_world_p, w)
  end.

(** The instance built in [/g/p/c] and taken to [/g/data] by [shift_dir]:
    its cached parent, [/g/p], is no ancestor of where it is. *)
Definition strayed : directories.t * world :=
  match directories.shift_dir (fresh up_world) "/g/data" up_world with
  | (Ok self, w) => (self, w)
  | (Raise _, w) => (fresh up_world, w)
  end.

(** An empty project directory [/home/u/proj]. *)
Definition empty_root : FS.node :=
  dir [("home", dir [("u", dir [("proj", dir [])])])].
Definition empty_world : world := world_of empty_root ["home"; "u"; "proj"].

(** [/home/u/proj] and [/srv/data]. *)
Definition two_root : FS.node :=
  dir [("home", dir [("u", dir [("proj", dir [("notes.txt", file "n")])])]);
       ("srv", dir [("data", dir [("t.csv", file "1,2")])])].
Definition two_world : world := world_of two_root ["home"; "u"; "proj"].

(** [/proj] with sub-directories [a] (holding [data]) and [zdata]. *)
Definition down_root : FS.node :=
  dir [("proj", dir [("a", dir [("data", dir [])]);
                     ("n.txt", file "hi");
                     ("zdata", dir [])])].
Definition down_world : world := world_of down_root ["proj"].

(** [/proj] with sub-directories [x] and [y/data]. *)
Definition xy_root : FS.node :=
  dir [("proj", dir [("x", dir []); ("y", dir [("data", dir [])])])].
Definition xy_world : world := world_of xy_root ["proj"].

(** [/proj] with an empty folder [out] and a file [notes.txt]. *)
Definition out_root : FS.node :=
  dir [("proj", dir [("out", dir [("README", file "tables")]);
                     ("notes.txt", file "n")])].
Definition out_world : world := world_of out_root ["proj"].

(** Two collections of tables for [text_codecs]. *)
Definition sample_tables : PyDict.dict string :=
  [("sales.q1", "a,b"); ("stock", "c")].

Definition plain_tables : PyDict.dict string :=
  [("sales", "a,b"); ("stock", "c")].

(** [/proj/out] already holds [old.csv]. *)
Definition old_root : FS.node :=
  dir [("proj", dir [("out", dir [("old.csv", file "0")])])].
Definition old_world : world := world_of old_root ["proj"].

(** [/proj] with a regular file called [data] and a folder [sub]. *)
Definition datafile_root : FS.node :=
  dir [("proj", dir [("data", file "x"); ("sub", dir [])])].
Definition datafile_world : world := world_of datafile_root ["proj"].

(** [/proj] with text files at two levels. *)
Definition nested_root : FS.node :=
  dir [("proj", dir [("a.txt", file "1");
                     ("sub", dir [("b.txt", file "22"); ("c.md", file "3")])])].
Definition nested_world : world := world_of nested_root ["proj"].

(** An instance whose folder is not there: built by hand, as after the
    removal of [/proj/gone] by another process. *)
Definition gone : directories.t := directories.mk "/proj/gone" "/proj" [] None.

(** [/proj/out] as an earlier save of [stock] left it. *)
Definition resave_root : FS.node :=
  dir [("proj", dir [("out", dir [("stock.csv", file "earlier");
                                  ("README", file "tables")])])].
Definition resave_world : world := world_of resave_root ["proj"].

(** [/proj/out] with a folder [sub] inside, and a table named with a [/]. *)
Definition subdir_root : FS.node :=
  dir [("proj", dir [("out", dir [("sub", dir [])])])].
Definition subdir_world : world := world_of subdir_root ["proj"].

Definition slash_tables : PyDict.dict string := [("sub/x", "1")].

(** [/proj/out] with two CSV files that give the same key. *)
Definition stems_root : FS.node :=
  dir [("proj", dir [("out", dir [("a.csv", file "1"); ("notes.txt", file "n");
                                  ("a.b.csv", file "2")])])].
Definition stems_world : world := world_of stems_root ["proj"].

End Sample.


(* ===================================================================== *)
(** * Properties *)
(* ===================================================================== *)

(** ** Strings *)

Section StringFacts.
Import PyStr.

Lemma split_not_nil (c : ascii) (s : string) : split c s <> [].
Proof.
  destruct s as [|a t]; simpl; [discriminate|].
  destruct (Ascii.eqb a c); [discriminate|].
  destruct (split c t); discriminate.
Qed.

Lemma split_app_sep (c : ascii) (s t : string) :
  split c (s ++ String c t) = (split c s ++ split c t)%list.
Proof.
  induction s as [|a s IH]; simpl.
  - now rewrite Ascii.eqb_refl.
  - destruct (Ascii.eqb a c); [now rewrite IH|].
    rewrite IH. destruct (split c s) eqn:E; [now apply split_not_nil in E|].
    reflexivity.
Qed.

Lemma prefix_single (c a : ascii) (t : string) :
  String.prefix (String c "") (String a t) = Ascii.eqb a c.
Proof.
  simpl. destruct (ascii_dec c a) as [->|n].
  - rewrite Ascii.eqb_refl. now destruct t.
  - symmetry. apply Ascii.eqb_neq. congruence.
Qed.

Lemma contains_single_cons (c a : ascii) (t : string) :
  contains (String c "") (String a t) = Ascii.eqb a c || contains (String c "") t.
Proof.
  change (contains (String c "") (String a t))
    with (String.prefix (String c "") (String a t) || contains (String c "") t).
  now rewrite prefix_single.
Qed.

Lemma split_without (c : ascii) (s : string) :
  contains (String c "") s = false -> split c s = [s].
Proof.
  induction s as [|a t IH]; [reflexivity|].
  rewrite contains_single_cons. intros H.
  apply orb_false_iff in H as [Ha Ht].
  simpl. rewrite Ha, (IH Ht). reflexivity.
Qed.

Lemma startswith_app (a b : string) (p : ascii) :
  truthy a = true -> startswith (a ++ b) (String p "") = startswith a (String p "").
Proof.
  destruct a as [|x a]; [discriminate|]. intros _.
  unfold startswith. simpl (String x a ++ b). now rewrite !prefix_single.
Qed.

Lemma truthy_app (a b : string) : truthy a = true -> truthy (a ++ b) = true.
Proof. now destruct a. Qed.

Lemma append_assoc' (a b c : string) : (a ++ b) ++ c = a ++ b ++ c.
Proof. induction a; simpl; congruence. Qed.

Lemma startswith_app_cons (a x y : string) (c p : ascii) :
  PyStr.startswith (a ++ String c x) (String p "")
  = PyStr.startswith (a ++ String c y) (String p "").
Proof.
  unfold PyStr.startswith. destruct a; simpl append; now rewrite !prefix_single.
Qed.

Lemma truthy_app_cons (a x : string) (c : ascii) :
  PyStr.truthy (a ++ String c x) = true.
Proof. now destruct a. Qed.

Lemma drop_last_sep (c : ascii) (a : string) :
  drop (String.length a - 1) a = String c "" -> exists a', a = a' ++ String c "".
Proof.
  induction a as [|x t IH]; simpl; [discriminate|].
  rewrite Nat.sub_0_r. destruct t as [|y t'].
  - simpl. intros [= ->]. now exists "".
  - change (String.length (String y t')) with (S (String.length t')).
    change (drop (S (String.length t')) (String x (String y t')))
      with (drop (String.length t') (String y t')).
    intros H. destruct IH as [a' Ha'].
    + simpl. now rewrite Nat.sub_0_r.
    + exists (String x a'). simpl. now rewrite Ha'.
Qed.

Lemma endswith_sep (a : string) :
  endswith a "/" = true -> exists a', a = a' ++ "/".
Proof.
  unfold endswith. intros H. apply andb_true_iff in H as [_ H].
  apply String.eqb_eq in H. now apply drop_last_sep.
Qed.

Lemma length_app (a b : string) :
  String.length (a ++ b) = String.length a + String.length b.
Proof. induction a; simpl; congruence. Qed.

Lemma drop_length_app (a s : string) : drop (String.length a) (a ++ s) = s.
Proof. induction a as [|x a IH]; simpl; [now destruct s|exact IH]. Qed.

Lemma endswith_app (a s : string) : endswith (a ++ s) s = true.
Proof.
  unfold endswith. rewrite length_app.
  replace (String.length a + String.length s - String.length s)
    with (String.length a) by lia.
  rewrite drop_length_app, String.eqb_refl.
  apply andb_true_iff. split; [|reflexivity]. apply Nat.leb_le. lia.
Qed.

Lemma contains_single_app (c : ascii) (a b : string) :
  contains (String c "") (a ++ b)
  = contains (String c "") a || contains (String c "") b.
Proof.
  induction a as [|x a IH].
  - simpl append. now destruct b.
  - simpl append. rewrite !contains_single_cons, IH. now rewrite orb_assoc.
Qed.

(** [name.split('.')[0]] of [key + '.csv'] is [key.split('.')[0]]. *)
Lemma split_first_csv (k : string) :
  split_first dot (k ++ ".csv") = split_first dot k.
Proof.
  unfold split_first. change ".csv" with (String dot "csv").
  rewrite split_app_sep.
  destruct (split dot k) eqn:E; [now apply split_not_nil in E|reflexivity].
Qed.

Lemma split_first_plain (k : string) :
  contains "." k = false -> split_first dot k = k.
Proof.
  intros H. unfold split_first. change "." with (String dot "") in H.
  now rewrite (split_without dot k H).
Qed.

(** [s.split(c)[0]] is the part of [s] before the first [c]. *)
Lemma split_first_before (c : ascii) (s : string) :
  exists rest,
    s = split_first c s ++ rest
    /\ contains (String c "") (split_first c s) = false
    /\ (rest = "" \/ exists t, rest = String c t).
Proof.
  unfold split_first. induction s as [|a s (rest & E & N & R)].
  - exists "". repeat split; auto.
  - cbn [split]. destruct (Ascii.eqb_spec a c) as [->|Hne].
    + exists (String c s). repeat split; eauto.
    + destruct (split c s) as [|h r] eqn:S; [now apply split_not_nil in S|].
      cbn [hd] in *. exists rest. split; [|split; [|exact R]].
      * cbn [append]. now rewrite <- E.
      * rewrite contains_single_cons, N.
        apply Ascii.eqb_neq in Hne. now rewrite Hne.
Qed.

Lemma length_take (n : nat) (s : string) :
  String.length (take n s) = Nat.min n (String.length s).
Proof.
  revert s. induction n as [|n IH]; intros [|c s]; simpl; auto.
Qed.

Lemma truthy_drop (n : nat) (s : string) :
  truthy (drop n s) = true -> n < String.length s.
Proof.
  revert s. induction n as [|n IH]; intros [|c s]; simpl; try discriminate.
  - lia.
  - intros H. apply IH in H. lia.
Qed.

Lemma length_rstrip (c : ascii) (s : string) :
  String.length (rstrip c s) <= String.length s.
Proof.
  induction s as [|a s IH]; simpl; [lia|].
  destruct (rstrip c s); [destruct (Ascii.eqb a c)|]; simpl in *; lia.
Qed.

(** The head of a path is no longer than the path, and shorter when
    there is a tail. *)
Lemma split_head_length (p h t : string) :
  posixpath.split p = (h, t) ->
  String.length h <= String.length p
  /\ (truthy t = true -> String.length h < String.length p).
Proof.
  unfold posixpath.split.
  set (i := Z.to_nat (rfind sep p + 1)).
  intros [= <- <-].
  assert (L : String.length (take i p) <= String.length p)
    by (rewrite length_take; lia).
  assert (R : forall s, String.length s <= String.length (take i p) ->
                        String.length s <= String.length p
                        /\ (truthy (drop i p) = true ->
                            String.length s < String.length p)).
  { intros s Hs. split; [lia|]. intros T. apply truthy_drop in T.
    rewrite length_take in Hs. lia. }
  destruct (truthy (take i p)
            && negb (String.eqb (take i p) (replicate (String.length (take i p)) sep))).
  - apply R, length_rstrip.
  - apply R. lia.
Qed.

End StringFacts.

Section OctalDigits.
Import PyStr.

Lemma octal_digits_acc (fuel : nat) : forall (n : N) (acc : string),
  octal_digits fuel n acc = octal_digits fuel n "" ++ acc.
Proof.
  induction fuel as [|f IH]; intros n acc; [reflexivity|].
  cbn [octal_digits]. destruct (N.ltb n 8); [reflexivity|].
  rewrite (IH (N.div n 8) (String _ acc)), (IH (N.div n 8) (String _ "")).
  now rewrite append_assoc'.
Qed.

Lemma octal_digits_step (f : nat) (n : N) :
  (8 <= n)%N ->
  octal_digits (S f) n ""
  = octal_digits f (N.div n 8) "" ++ String (octal_digit (N.modulo n 8)) "".
Proof.
  intros H. cbn [octal_digits].
  assert (E : N.ltb n 8 = false) by (apply N.ltb_ge; exact H).
  rewrite E. apply octal_digits_acc.
Qed.

Lemma octal_digits_last (f : nat) (n : N) :
  exists pre,
    octal_digits (S f) n "" = pre ++ String (octal_digit (N.modulo n 8)) "".
Proof.
  cbn [octal_digits]. destruct (N.ltb n 8).
  - now exists "".
  - exists (octal_digits f (N.div n 8) ""). apply octal_digits_acc.
Qed.

Lemma size_of_mode (mode : N) : (64 <= mode)%N -> 2 <= N.to_nat (N.size mode).
Proof.
  intros H. assert (Hp : (0 < mode)%N) by lia.
  rewrite (N.size_log2 mode) by lia.
  pose proof (N.log2_le_mono 64 mode H) as L.
  change (N.log2 64) with 6%N in L. lia.
Qed.

(** [oct(mode)[-3:]] is the three octal digits of the permission bits. *)
Lemma last3_oct (mode : N) :
  (64 <= mode)%N -> last3 (oct mode) = permission_digits mode.
Proof.
  intros H. unfold oct.
  pose proof (size_of_mode mode H) as Hs.
  destruct (N.to_nat (N.size mode)) as [|[|f]]; try lia.
  rewrite (octal_digits_step (S (S f)) mode) by lia.
  assert (H8 : (8 <= N.div mode 8)%N).
  { exact (N.Div0.div_le_mono 64 mode 8 H). }
  rewrite (octal_digits_step (S f) (N.div mode 8)) by exact H8.
  destruct (octal_digits_last f (N.div (N.div mode 8) 8)) as [pre Hp].
  rewrite Hp.
  replace (N.div (N.div mode 8) 8) with (N.div mode 64)
    by (now rewrite N.Div0.div_div).
  unfold last3.
  replace ("0o" ++ ((pre ++ String (octal_digit (N.modulo (N.div mode 64) 8)) "")
                    ++ String (octal_digit (N.modulo (N.div mode 8) 8)) "")
                ++ String (octal_digit (N.modulo mode 8)) "")
    with (("0o" ++ pre) ++ permission_digits mode).
  - rewrite length_app. unfold permission_digits at 1. cbn [String.length].
    replace (String.length ("0o" ++ pre) + 3 - 3) with (String.length ("0o" ++ pre))
      by lia.
    apply drop_length_app.
  - unfold permission_digits. now rewrite !append_assoc'.
Qed.

End OctalDigits.

(** ** Paths in a tree *)

Section TreeFacts.
Import FS.

Lemma lookup_set_entry (c k : string) (n : node) (es : list (string * node)) :
  lookup c (set_entry k n es) = if String.eqb k c then Some n else lookup c es.
Proof.
  induction es as [|[k' m] r IH]; simpl.
  - reflexivity.
  - destruct (String.eqb_spec k' k) as [->|Hk]; simpl.
    + now destruct (String.eqb k c).
    + destruct (String.eqb_spec k' c) as [->|Hc]; [|exact IH].
      destruct (String.eqb_spec k c); congruence.
Qed.

Lemma lookup_In (c : string) (es : list (string * node)) :
  lookup c es <> None <-> In c (names es).
Proof.
  induction es as [|[k m] r IH]; simpl.
  - tauto.
  - destruct (String.eqb k c) eqn:E.
    + apply String.eqb_eq in E. split; [auto|discriminate].
    + apply String.eqb_neq in E. rewrite IH. tauto.
Qed.

Lemma lookup_NoDup (k : string) (n : node) (es : list (string * node)) :
  NoDup (names es) -> In (k, n) es -> lookup k es = Some n.
Proof.
  induction es as [|[k' m] r IH]; simpl; [tauto|].
  intros ND [E|I].
  - injection E as -> ->. now rewrite String.eqb_refl.
  - inversion ND as [|? ? Hn ND']; subst.
    destruct (String.eqb k' k) eqn:E; [|now apply IH].
    apply String.eqb_eq in E. subst k'. exfalso. apply Hn.
    change k with (fst (k, n)). now apply in_map.
Qed.

Lemma get_node_app (n : node) (cs l : list string) :
  get_node n (cs ++ l)%list =
  match get_node n cs with Some m => get_node m l | None => None end.
Proof.
  revert n. induction cs as [|c r IH]; intros n; simpl; [reflexivity|].
  destruct n as [|st es]; [reflexivity|].
  destruct (lookup c es); [apply IH|reflexivity].
Qed.

Lemma get_node_child (root : node) (cs : list string) (st : stat)
    (es : list (string * node)) (c : string) :
  get_node root cs = Some (Dir st es) ->
  get_node root (cs ++ [c])%list = lookup c es.
Proof.
  intros H. rewrite get_node_app, H. simpl. now destruct (lookup c es).
Qed.

Lemma wf_lookup (c : string) (es : list (string * node)) (m : node) :
  Forall (fun e => valid_name (fst e) = true /\ wf (snd e)) es ->
  lookup c es = Some m -> valid_name c = true /\ wf m.
Proof.
  induction es as [|[k x] r IH]; simpl; [discriminate|].
  intros F. inversion F as [|? ? [Hv Hw] F']; subst. simpl in *.
  destruct (String.eqb k c) eqn:E.
  - apply String.eqb_eq in E. subst. now intros [= <-].
  - now apply IH.
Qed.

Lemma wf_get_node (root : node) (cs : list string) (m : node) :
  wf root -> get_node root cs = Some m -> wf m.
Proof.
  revert root. induction cs as [|c r IH]; intros root W; simpl.
  - now intros [= <-].
  - destruct root as [|st es]; [discriminate|].
    destruct (lookup c es) as [x|] eqn:L; [|discriminate].
    inversion W; subst. apply IH. eapply wf_lookup; eauto.
Qed.

Lemma fold_step_inl (root : node) (l : list string) (e : errno) :
  fold_left (step root) l (inl e) = inl e.
Proof. induction l; simpl; auto. Qed.

Lemma step_empty_inv (root : node) (x : errno + list string) (cs : list string) :
  step root x "" = inr cs -> x = inr cs.
Proof.
  destruct x as [e|cs']; simpl; [discriminate|].
  destruct (get_node root cs') as [[|st es]|]; try discriminate.
  now intros [= ->].
Qed.

Lemma valid_name_facts (s : string) :
  valid_name s = true ->
  PyStr.truthy s = true /\ s <> "." /\ s <> ".." /\ PyStr.contains "/" s = false.
Proof.
  unfold valid_name. intros H.
  repeat (apply andb_true_iff in H as [H ?]).
  repeat split; auto.
  - intros ->. discriminate.
  - intros ->. discriminate.
  - now apply negb_true_iff.
Qed.

Lemma valid_name_not_abs (s : string) :
  valid_name s = true -> PyStr.startswith s "/" = false.
Proof.
  intros H. apply valid_name_facts in H as (T & _ & _ & C).
  destruct s as [|a t]; [discriminate|].
  rewrite contains_single_cons in C. apply orb_false_iff in C as [C _].
  unfold PyStr.startswith. now rewrite prefix_single.
Qed.

Lemma step_child (root : node) (cs : list string) (st : stat)
    (es : list (string * node)) (c : string) :
  get_node root cs = Some (Dir st es) ->
  valid_name c = true ->
  step root (inr cs) c =
  match lookup c es with Some _ => inr (cs ++ [c])%list | None => inl ENOENT end.
Proof.
  intros G V. apply valid_name_facts in V as (T & N1 & N2 & _).
  unfold step. rewrite G.
  destruct c as [|a t]; [discriminate|].
  replace (String.eqb (String a t) "") with false by reflexivity.
  apply String.eqb_neq in N1, N2. now rewrite N1, N2.
Qed.

(** The path [folder/name] names the entry [name] of the directory [folder]. *)
Lemma resolve_slash (root : node) (cwd cs : list string) (folder name : string) :
  resolve root cwd folder = inr cs ->
  valid_name name = true ->
  resolve root cwd (folder ++ "/" ++ name) = step root (inr cs) name.
Proof.
  unfold resolve. intros R V.
  destruct (PyStr.truthy folder) eqn:T; [|discriminate]. simpl in R.
  rewrite truthy_app by assumption. simpl negb. cbv iota.
  change (folder ++ "/" ++ name) with (folder ++ String PyStr.sep name).
  rewrite split_app_sep.
  rewrite (split_without PyStr.sep name)
    by (now apply valid_name_facts in V).
  rewrite fold_left_app. unfold start in *.
  change "/" with (String PyStr.sep "") in *.
  rewrite startswith_app by assumption. rewrite R. reflexivity.
Qed.

(** The same for [os.path.join(folder, name)]. *)
Lemma resolve_join (root : node) (cwd cs : list string) (folder name : string) :
  resolve root cwd folder = inr cs ->
  valid_name name = true ->
  resolve root cwd (posixpath.join folder name) = step root (inr cs) name.
Proof.
  intros R V. unfold posixpath.join.
  rewrite (valid_name_not_abs name V).
  assert (T : PyStr.truthy folder = true).
  { unfold resolve in R. now destruct (PyStr.truthy folder). }
  rewrite T. simpl negb. simpl orb.
  destruct (PyStr.endswith folder "/") eqn:E.
  - apply endswith_sep in E as [a' ->].
    rewrite append_assoc'.
    change ("/" ++ name) with (String PyStr.sep name).
    change (a' ++ "/") with (a' ++ String PyStr.sep "") in R.
    unfold resolve in *.
    rewrite truthy_app_cons in *. simpl negb in *. cbv iota in *.
    rewrite split_app_sep in *.
    rewrite (split_without PyStr.sep name)
      by (now apply valid_name_facts in V).
    rewrite fold_left_app in *. unfold start in *.
    change "/" with (String PyStr.sep "") in *.
    rewrite (startswith_app_cons a' name "").
    simpl fold_left in *.
    apply step_empty_inv in R. now rewrite R.
  - now apply resolve_slash.
Qed.

Lemma node_at_step (root : node) (cwd cs : list string) (st : stat)
    (es : list (string * node)) (q c : string) :
  get_node root cs = Some (Dir st es) ->
  valid_name c = true ->
  resolve root cwd q = step root (inr cs) c ->
  node_at root cwd q =
  match lookup c es with Some n => inr n | None => inl ENOENT end.
Proof.
  intros G V E. unfold node_at. rewrite E, (step_child _ _ _ _ _ G V).
  destruct (lookup c es) eqn:L; [|reflexivity].
  now rewrite (get_node_child _ _ _ _ _ G), L.
Qed.

Lemma node_at_inv (root : node) (cwd : list string) (p : string) (n : node) :
  node_at root cwd p = inr n ->
  exists cs, resolve root cwd p = inr cs /\ get_node root cs = Some n.
Proof.
  unfold node_at. destruct (resolve root cwd p) as [e|cs]; [discriminate|].
  destruct (get_node root cs) eqn:G; [|discriminate].
  intros [= ->]. now exists cs.
Qed.

(** An entry of a directory, named through [os.path.join]. *)
Lemma node_at_join (root : node) (cwd : list string) (folder c : string)
    (st : stat) (es : list (string * node)) :
  node_at root cwd folder = inr (Dir st es) ->
  valid_name c = true ->
  node_at root cwd (posixpath.join folder c) =
  match lookup c es with Some n => inr n | None => inl ENOENT end.
Proof.
  intros H V. apply node_at_inv in H as (cs & R & G).
  eapply node_at_step; eauto. now apply resolve_join.
Qed.

(** An entry of a directory, named as [folder/c]. *)
Lemma node_at_slash (root : node) (cwd : list string) (folder c : string)
    (st : stat) (es : list (string * node)) :
  node_at root cwd folder = inr (Dir st es) ->
  valid_name c = true ->
  node_at root cwd (folder ++ "/" ++ c) =
  match lookup c es with Some n => inr n | None => inl ENOENT end.
Proof.
  intros H V. apply node_at_inv in H as (cs & R & G).
  eapply node_at_step; eauto. now apply resolve_slash.
Qed.

Lemma wf_node_at (root : node) (cwd : list string) (p : string) (n : node) :
  wf root -> node_at root cwd p = inr n -> wf n.
Proof.
  intros W H. apply node_at_inv in H as (cs & _ & G).
  eapply wf_get_node; eauto.
Qed.

Lemma wf_entries_valid (st : stat) (es : list (string * node)) (c : string) :
  wf (Dir st es) -> In c (names es) -> valid_name c = true.
Proof.
  intros W I. inversion W as [|? ? _ F]; subst.
  apply in_map_iff in I as ([k n] & <- & I).
  rewrite Forall_forall in F. now apply (F _ I).
Qed.

End TreeFacts.

Section FileNames.
Import PyStr.

Lemma valid_csv_name (k : string) :
  contains "/" k = false -> FS.valid_name (k ++ ".csv") = true.
Proof.
  intros H. unfold FS.valid_name.
  change ".csv" with (String "."%char "csv").
  rewrite truthy_app_cons.
  change "/" with (String sep "") in *.
  rewrite contains_single_app, H. simpl.
  assert (L : forall t, String.length t < 4 -> String.eqb (k ++ String "." "csv") t = false).
  { intros t Ht. apply String.eqb_neq. intros E.
    apply (f_equal String.length) in E. rewrite length_app in E.
    simpl in E. lia. }
  rewrite !L by (simpl; lia). reflexivity.
Qed.

End FileNames.

Section TreeUpdates.
Import FS.

Lemma get_node_file (st : stat) (data : string) (cs : list string)
    (st' : stat) (es' : list (string * node)) :
  get_node (File st data) cs <> Some (Dir st' es').
Proof. destruct cs; simpl; congruence. Qed.

Lemma step_plain (root : node) (cs : list string) (st : stat)
    (es : list (string * node)) (c : string) :
  get_node root cs = Some (Dir st es) ->
  os.special_name c = false ->
  step root (inr cs) c =
  match lookup c es with Some _ => inr (cs ++ [c])%list | None => inl ENOENT end.
Proof.
  intros G S. unfold os.special_name in S.
  apply orb_false_iff in S as [S S3]. apply orb_false_iff in S as [S1 S2].
  unfold step. now rewrite G, S1, S2, S3.
Qed.

Lemma step_extends (r r' : node) (cs cs' : list string) (c : string) :
  extends r r' ->
  step r (inr cs) c = inr cs' -> step r' (inr cs) c = inr cs'.
Proof.
  intros X. unfold step.
  destruct (get_node r cs) as [[|st es]|] eqn:G; try discriminate.
  destruct (X cs st es G) as (es' & -> & K).
  destruct (String.eqb c "" || String.eqb c "."); [auto|].
  destruct (String.eqb c ".."); [auto|].
  destruct (lookup c es) eqn:L; [|discriminate].
  intros E. destruct (lookup c es') eqn:L'; [exact E|].
  exfalso. apply (K c); [congruence|exact L'].
Qed.

Lemma fold_extends (r r' : node) (l : list string) : forall cs cs',
  extends r r' ->
  fold_left (step r) l (inr cs) = inr cs' ->
  fold_left (step r') l (inr cs) = inr cs'.
Proof.
  induction l as [|c l IH]; intros cs cs' X; cbn [fold_left]; [auto|].
  destruct (step r (inr cs) c) as [e|cs1] eqn:S.
  - intros H. rewrite fold_step_inl in H. discriminate.
  - rewrite (step_extends r r' cs cs1 c X S). now apply IH.
Qed.

Lemma resolve_extends (r r' : node) (cwd cs : list string) (p : string) :
  extends r r' -> resolve r cwd p = inr cs -> resolve r' cwd p = inr cs.
Proof.
  intros X. unfold resolve. destruct (negb (PyStr.truthy p)); [auto|].
  now apply fold_extends.
Qed.

Lemma extends_refl (r : node) : extends r r.
Proof. intros cs st es G. now exists es. Qed.

Lemma extends_trans (a b c : node) : extends a b -> extends b c -> extends a c.
Proof.
  intros X Y cs st es G.
  destruct (X cs st es G) as (es1 & G1 & K1).
  destruct (Y cs st es1 G1) as (es2 & G2 & K2).
  exists es2. split; [exact G2|]. intros k Hk. apply K2, K1, Hk.
Qed.

(** Changing the entries of one directory, keeping its sub-directories and
    the names it has, extends the tree. *)
Lemma update_dir_extends (f : list (string * node) -> list (string * node))
    (par : list string) : forall (r : node) (st : stat) (es : list (string * node)),
  get_node r par = Some (Dir st es) ->
  (forall c, lookup c es <> None -> lookup c (f es) <> None) ->
  (forall c st' es', lookup c es = Some (Dir st' es') ->
                     lookup c (f es) = Some (Dir st' es')) ->
  extends r (update_dir r par f).
Proof.
  induction par as [|c0 r0 IH]; intros r st es G K D.
  - simpl in G. injection G as ->. simpl.
    intros [|c rest] st1 es1 G1; simpl in *.
    + injection G1 as <- <-. exists (f es). auto.
    + destruct (lookup c es) as [m|] eqn:L; [|discriminate].
      destruct m as [fst' fdata|st' es'].
      * exfalso. exact (get_node_file _ _ _ _ _ G1).
      * rewrite (D c st' es' L). now exists es1.
  - simpl in G. destruct r as [|st0 es0]; [discriminate|].
    destruct (lookup c0 es0) as [m0|] eqn:L0; [|discriminate].
    simpl. rewrite L0.
    intros [|c rest] st1 es1 G1; simpl in *.
    + injection G1 as <- <-. eexists. split; [reflexivity|].
      intros c Hc. rewrite lookup_set_entry.
      destruct (String.eqb c0 c); [discriminate|exact Hc].
    + rewrite lookup_set_entry.
      destruct (String.eqb_spec c0 c) as [<-|Hne].
      * rewrite L0 in G1. exact (IH m0 st es G K D rest st1 es1 G1).
      * destruct (lookup c es0); [|discriminate]. now exists es1.
Qed.

Lemma get_node_update_dir (f : list (string * node) -> list (string * node))
    (par : list string) : forall (r : node) (st : stat) (es : list (string * node)),
  get_node r par = Some (Dir st es) ->
  get_node (update_dir r par f) par = Some (Dir st (f es)).
Proof.
  induction par as [|c0 r0 IH]; intros r st es G.
  - simpl in G. injection G as ->. reflexivity.
  - simpl in G. destruct r as [|st0 es0]; [discriminate|].
    destruct (lookup c0 es0) as [m0|] eqn:L0; [|discriminate].
    simpl. rewrite L0, lookup_set_entry, String.eqb_refl. now apply IH.
Qed.

(** Writing a file entry into a directory in which that name is not a
    directory. *)
Lemma set_file_extends (r : node) (par : list string) (st : stat)
    (es : list (string * node)) (name : string) (fst' : stat) (data : string) :
  get_node r par = Some (Dir st es) ->
  (forall st' es', lookup name es <> Some (Dir st' es')) ->
  extends r (update_dir r par (set_entry name (File fst' data))).
Proof.
  intros G N. eapply update_dir_extends; eauto.
  - intros c Hc. rewrite lookup_set_entry.
    destruct (String.eqb name c); [discriminate|exact Hc].
  - intros c st' es' L. rewrite lookup_set_entry.
    destruct (String.eqb_spec name c) as [->|]; [|exact L].
    exfalso. exact (N _ _ L).
Qed.

Lemma resolve_parent_inv (root : node) (cwd par : list string) (p name : string) :
  resolve_parent root cwd p = inr (par, name) ->
  PyStr.truthy p = true
  /\ fold_left (step root) (removelast (PyStr.split PyStr.sep p)) (inr (start cwd p))
     = inr par
  /\ name = last (PyStr.split PyStr.sep p) ""
  /\ exists st es, get_node root par = Some (Dir st es).
Proof.
  unfold resolve_parent. destruct (PyStr.truthy p); [|discriminate]. simpl.
  destruct (fold_left _ _ _) as [e|par'] eqn:F; [discriminate|].
  destruct (get_node root par') as [[|st es]|] eqn:G; try discriminate.
  intros [= <- <-]. repeat split; eauto.
Qed.

Lemma resolve_via_parent (root : node) (cwd par : list string) (p name : string) :
  PyStr.truthy p = true ->
  fold_left (step root) (removelast (PyStr.split PyStr.sep p)) (inr (start cwd p))
  = inr par ->
  name = last (PyStr.split PyStr.sep p) "" ->
  resolve root cwd p = step root (inr par) name.
Proof.
  intros T F ->. unfold resolve. rewrite T. simpl.
  rewrite (app_removelast_last "" (split_not_nil PyStr.sep p)) at 1.
  now rewrite fold_left_app, F.
Qed.

End TreeUpdates.

Section FolderPaths.
Import Py FS.

Lemma resolve_truthy (root : node) (cwd cs : list string) (p : string) :
  resolve root cwd p = inr cs ->
  PyStr.truthy p = true
  /\ fold_left (step root) (PyStr.split PyStr.sep p) (inr (start cwd p)) = inr cs.
Proof. unfold resolve. destruct (PyStr.truthy p); [auto|discriminate]. Qed.

Lemma resolve_parent_slash (root : node) (cwd fc : list string) (folder name : string)
    (st : stat) (es : list (string * node)) :
  resolve root cwd folder = inr fc ->
  get_node root fc = Some (Dir st es) ->
  valid_name name = true ->
  resolve_parent root cwd (folder ++ "/" ++ name) = inr (fc, name).
Proof.
  intros R G V. apply resolve_truthy in R as [T F].
  unfold resolve_parent. rewrite truthy_app by assumption. simpl negb. cbv iota.
  change (folder ++ "/" ++ name) with (folder ++ String PyStr.sep name).
  rewrite split_app_sep.
  rewrite (split_without PyStr.sep name) by (now apply valid_name_facts in V).
  rewrite removelast_last, last_last. unfold start in *.
  change "/" with (String PyStr.sep "") in *.
  rewrite startswith_app by assumption. now rewrite F, G.
Qed.

Lemma valid_not_special (name : string) :
  valid_name name = true -> os.special_name name = false.
Proof.
  intros V. apply valid_name_facts in V as (T & N1 & N2 & _).
  unfold os.special_name. destruct name; [discriminate|].
  apply String.eqb_neq in N1, N2. now rewrite N1, N2.
Qed.

End FolderPaths.

(** ** Files *)

Section Files.
Import Py.

Lemma write_file_ok (p data : string) (w w1 : world) :
  io.write_file p data w = (Ok tt, w1) ->
  exists par name st es,
    FS.resolve_parent (root w) (pcwd w) p = inr (par, name)
    /\ os.special_name name = false
    /\ FS.get_node (root w) par = Some (FS.Dir st es)
    /\ (forall st' es', FS.lookup name es <> Some (FS.Dir st' es'))
    /\ w1 = with_root w
              (FS.update_dir (root w) par (FS.set_entry name (io.written w data))).
Proof.
  unfold io.write_file.
  destruct (io.trailing_slash p).
  { destruct (negb (PyStr.truthy p)); [discriminate|].
    destruct (negb (PyStr.truthy (PyStr.rstrip PyStr.sep p))); [discriminate|].
    destruct (FS.resolve_parent _ _ (PyStr.rstrip PyStr.sep p)); discriminate. }
  destruct (FS.resolve_parent (root w) (pcwd w) p) as [e|[par name]] eqn:R;
    [discriminate|].
  destruct (os.special_name name) eqn:S; [discriminate|].
  destruct (resolve_parent_inv _ _ _ _ _ R) as (_ & _ & _ & st & es & G).
  rewrite (get_node_child _ _ _ _ _ G).
  intros H. exists par, name, st, es. repeat split; auto.
  - intros st' es' L. rewrite L in H. discriminate.
  - destruct (FS.lookup name es) as [[|]|]; now inversion H.
Qed.

(** What was io.written is what is there. *)
Lemma write_then_node (p data : string) (w w1 : world) :
  io.write_file p data w = (Ok tt, w1) ->
  os.node_of w1 p = inr (io.written w data)
  /\ FS.extends (root w) (root w1).
Proof.
  intros H. apply write_file_ok in H
    as (par & name & st & es & R & S & G & N & ->).
  destruct (resolve_parent_inv _ _ _ _ _ R) as (T & F & Hn & _).
  pose proof (set_file_extends (root w) par st es name
                (os.new_file_stat w data) data G N) as X.
  unfold io.written in *.
  split; [|exact X].
  unfold os.node_of, FS.node_at. simpl root. simpl pcwd.
  rewrite (resolve_via_parent _ (pcwd w) par p name T
             (fold_extends _ _ _ _ _ X F) Hn).
  pose proof (get_node_update_dir
                (FS.set_entry name (FS.File (os.new_file_stat w data) data))
                par (root w) st es G) as G'.
  rewrite (step_plain _ _ _ _ _ G' S), lookup_set_entry, String.eqb_refl.
  now rewrite (get_node_child _ _ _ _ _ G'), lookup_set_entry, String.eqb_refl.
Qed.

Lemma dump_to_ok (p : string) (text : outcome string) (w w1 : world) :
  io.dump_to p text w = (Ok tt, w1) ->
  exists s w0, text = Ok s /\ io.write_file p s w0 = (Ok tt, w1)
               /\ os.new_file_stat w0 s = os.new_file_stat w s.
Proof.
  unfold io.dump_to, bind, io.open_w.
  destruct (io.write_file p "" w) as [[[]|e] w0] eqn:W0; [|discriminate].
  destruct text as [s|e]; [|discriminate].
  intros H. exists s, w0. repeat split; auto.
  apply write_file_ok in W0 as (? & ? & ? & ? & _ & _ & _ & _ & ->). reflexivity.
Qed.

Lemma load_from_file {A} (p : string) (parse : string -> outcome A)
    (st : FS.stat) (data : string) (w : world) :
  os.node_of w p = inr (FS.File st data) ->
  io.load_from p parse w = (parse data, w).
Proof.
  intros H. unfold io.load_from, bind, io.read_file. rewrite H.
  now destruct (parse data).
Qed.

(** Saving with a serializer, then reading with its parser. *)
Lemma dump_then_load {A} (p : string) (text : outcome string)
    (parse : string -> outcome A) (w w1 : world) :
  io.dump_to p text w = (Ok tt, w1) ->
  exists s, text = Ok s
            /\ os.exists_in w1 p = true
            /\ io.load_from p parse w1 = (parse s, w1).
Proof.
  intros H. apply dump_to_ok in H as (s & w0 & -> & W & _).
  apply write_then_node in W as [N _].
  exists s. split; [reflexivity|]. split.
  - unfold os.exists_in. now rewrite N.
  - eapply load_from_file. exact N.
Qed.

End Files.

Section FolderWrites.
Import Py FS.

Lemma not_trailing_slash (folder name : string) :
  valid_name name = true ->
  io.trailing_slash (directories.in_folder folder name) = false.
Proof.
  intros V. unfold io.trailing_slash, directories.in_folder.
  change (folder ++ "/" ++ name) with (folder ++ String PyStr.sep name).
  rewrite split_app_sep.
  rewrite (split_without PyStr.sep name) by (now apply valid_name_facts in V).
  rewrite last_last. apply valid_name_facts in V as (T & _).
  now destruct name.
Qed.

(** Writing [folder/name]: the entry [name] of the folder is set. *)
Lemma write_in_folder (w : world) (folder name data : string) (fc : list string)
    (st : stat) (es : list (string * node)) :
  resolve (root w) (pcwd w) folder = inr fc ->
  get_node (root w) fc = Some (Dir st es) ->
  valid_name name = true ->
  (forall st' es', lookup name es <> Some (Dir st' es')) ->
  let r1 := update_dir (root w) fc (set_entry name (io.written w data)) in
  io.write_file (directories.in_folder folder name) data w = (Ok tt, with_root w r1)
  /\ resolve r1 (pcwd w) folder = inr fc
  /\ get_node r1 fc = Some (Dir st (set_entry name (io.written w data) es))
  /\ extends (root w) r1.
Proof.
  intros R G V N r1.
  assert (X : extends (root w) r1) by (eapply set_file_extends; eauto).
  split; [|split; [|split]].
  - unfold io.write_file. rewrite (not_trailing_slash folder name V).
    unfold directories.in_folder.
    rewrite (resolve_parent_slash _ _ _ _ _ _ _ R G V), (valid_not_special _ V).
    rewrite (get_node_child _ _ _ _ _ G).
    destruct (lookup name es) as [[|st' es']|] eqn:L; try reflexivity.
    exfalso. exact (N _ _ eq_refl).
  - eapply resolve_extends; eauto.
  - now apply get_node_update_dir.
  - exact X.
Qed.

End FolderWrites.

(** ** The models of [os.makedirs] and [os.walk] *)

Section Makedirs.
Import Py PyStr.

Lemma mkdir_raises_OSError (p : string) (w : world) (e : exn) :
  fst (os.mkdir p w) = Raise e -> is_OSError e = true.
Proof.
  unfold os.mkdir.
  repeat match goal with
         | |- context [if ?b then _ else _] => destruct b
         | |- context [match ?x with _ => _ end] => destruct x
         end; simpl; intros H; inversion H; reflexivity.
Qed.

(** [makedirs] never runs out of fuel: what it raises is what [mkdir]
    raises. *)
Lemma makedirs_rec_raises_OSError (fuel : nat) : forall (name : string) (w : world) (e : exn),
  String.length name < fuel ->
  fst (os.makedirs_rec fuel name w) = Raise e -> is_OSError e = true.
Proof.
  induction fuel as [|f IH]; intros name w e Hf; [lia|].
  cbn [os.makedirs_rec].
  destruct (posixpath.split name) as [h t] eqn:S1.
  destruct (split_head_length _ _ _ S1) as [Hle Hlt].
  assert (S2 : exists h' t',
             (if negb (truthy t) then posixpath.split h else (h, t)) = (h', t')
             /\ (truthy t' = true -> String.length h' < String.length name)).
  { destruct (truthy t) eqn:T; simpl.
    - exists h, t. auto.
    - destruct (posixpath.split h) as [h' t'] eqn:S'.
      destruct (split_head_length _ _ _ S') as [_ Hlt'].
      exists h', t'. split; [reflexivity|]. intros T'. specialize (Hlt' T'). lia. }
  destruct S2 as (h' & t' & -> & Hlt2).
  unfold bind, os.path_exists, gets.
  destruct (truthy h' && truthy t' && negb (os.exists_in w h')) eqn:C.
  - apply andb_true_iff in C as [C _]. apply andb_true_iff in C as [_ T'].
    specialize (Hlt2 T').
    unfold try_except.
    destruct (os.makedirs_rec f h' w) as [[[]|e1] w1] eqn:M.
    + destruct (String.eqb t' "."); [discriminate|]. apply mkdir_raises_OSError.
    + pose proof (IH h' w e1 ltac:(lia)) as O. rewrite M in O.
      specialize (O eq_refl).
      destruct e1 as [[]| | | | |]; try discriminate; simpl.
      all: try (intros [= <-]; reflexivity).
      destruct (String.eqb t' "."); [discriminate|]. apply mkdir_raises_OSError.
  - apply mkdir_raises_OSError.
Qed.

Lemma makedirs_total (name : string) (w : world) :
  fst (os.makedirs name w) <> Raise RecursionError.
Proof.
  intros H. apply makedirs_rec_raises_OSError in H; [discriminate|lia].
Qed.

End Makedirs.

Section WalkNodes.
Import Py.

(** [os.walk] enters a sub-directory through the joined path: in a
    well-formed tree that path names the entry itself. *)
Lemma walk_enters_entry (w : world) (top name : string) (st : FS.stat)
    (es : list (string * FS.node)) (child : FS.node) :
  FS.wf (root w) ->
  os.node_of w top = inr (FS.Dir st es) ->
  In (name, child) es ->
  os.node_of w (posixpath.join top name) = inr child.
Proof.
  intros W N I. unfold os.node_of in *.
  assert (Wd : FS.wf (FS.Dir st es)) by (eapply wf_node_at; eauto).
  assert (V : FS.valid_name name = true).
  { eapply wf_entries_valid; eauto. change name with (fst (name, child)).
    now apply in_map. }
  rewrite (node_at_join _ _ _ _ _ _ N V).
  inversion Wd; subst. now rewrite (lookup_NoDup name child es).
Qed.

Lemma walk_in_child (w : world) (top name : string) (st : FS.stat)
    (es : list (string * FS.node)) (child : FS.node) :
  FS.wf (root w) ->
  os.node_of w top = inr (FS.Dir st es) ->
  In (name, child) es ->
  os.walk_in w (posixpath.join top name)
  = os.walk_node (posixpath.join top name) child.
Proof.
  intros W N I. unfold os.walk_in.
  now rewrite (walk_enters_entry w top name st es child W N I).
Qed.

End WalkNodes.

(** ** Dictionaries *)

Section Dicts.
Import PyDict.
Context {V : Type}.

Lemma get_set (c k : string) (v : V) (d : dict V) :
  get c (set k v d) = if String.eqb k c then Some v else get c d.
Proof.
  induction d as [|[k' v'] r IH]; simpl.
  - reflexivity.
  - destruct (String.eqb_spec k' k) as [->|Hk]; simpl.
    + now destruct (String.eqb k c).
    + destruct (String.eqb_spec k' c) as [->|Hc]; [|exact IH].
      destruct (String.eqb_spec k c); congruence.
Qed.

Lemma get_keys (c : string) (d : dict V) : get c d <> None <-> In c (keys d).
Proof.
  induction d as [|[k v] r IH]; simpl.
  - tauto.
  - destruct (String.eqb_spec k c) as [->|E].
    + split; [auto|discriminate].
    + rewrite IH. tauto.
Qed.

Lemma keys_set (c k : string) (v : V) (d : dict V) :
  In c (keys (set k v d)) <-> c = k \/ In c (keys d).
Proof.
  rewrite <- !get_keys, get_set.
  destruct (String.eqb_spec k c) as [->|E].
  - split; [auto|discriminate].
  - split; [auto|]. intros [->|H]; [congruence|exact H].
Qed.

Lemma get_In (k : string) (v : V) (d : dict V) :
  is_dict d -> In (k, v) d -> get k d = Some v.
Proof.
  unfold is_dict. induction d as [|[k' v'] r IH]; simpl; [tauto|].
  intros ND [E|I].
  - injection E as -> ->. now rewrite String.eqb_refl.
  - inversion ND as [|? ? Hn ND']; subst.
    destruct (String.eqb_spec k' k) as [->|]; [|now apply IH].
    exfalso. apply Hn. change k with (fst (k, v)). now apply in_map.
Qed.

(** A dictionary whose entries all are entries of [d2], and that has every
    key of [d2], equals [d2]. *)
Lemma sub_cover_equal (d1 d2 : dict V) :
  (forall k v, get k d1 = Some v -> get k d2 = Some v) ->
  (forall k, In k (keys d2) -> In k (keys d1)) ->
  equal d1 d2.
Proof.
  intros Sub Cov k.
  destruct (get k d1) as [v|] eqn:G1.
  - symmetry. now apply Sub.
  - destruct (get k d2) as [v|] eqn:G2; [|reflexivity].
    exfalso. assert (I : In k (keys d1)) by (apply Cov, get_keys; congruence).
    apply get_keys in I. congruence.
Qed.

End Dicts.

(** ** The sample trees are well formed *)

(** * The sample worlds *)
Ltac wf_tree :=
  repeat first
    [ apply FS.wf_file
    | apply FS.wf_dir
    | apply NoDup_nil
    | apply NoDup_cons; [simpl; intuition discriminate|]
    | apply Forall_nil
    | apply Forall_cons; [split; [reflexivity|]|] ].

Lemma down_root_wf : FS.wf Sample.down_root.
Proof. unfold Sample.down_root, Sample.dir, Sample.file. wf_tree. Qed.

(** ** Inspection: [count_items], [give_file_info] *)

Section Counting.
Import Py directories.

Lemma sum_bools_count (test : string -> M bool) (f : string -> bool)
    (items : list string) (w : world) :
  (forall item, In item items -> test item w = (Ok (f item), w)) ->
  sum_bools test items w = (Ok (Z.of_nat (length (filter f items))), w).
Proof.
  induction items as [|item rest IH]; intros H; simpl.
  - reflexivity.
  - unfold bind. rewrite (H item) by now left.
    rewrite IH by (intros; apply H; now right).
    unfold ret. destruct (f item); simpl length; f_equal; f_equal; lia.
Qed.

Lemma filter_entries_names (t : FS.node -> bool) (es : list (string * FS.node)) :
  NoDup (FS.names es) ->
  filter (FS.entry_is t es) (FS.names es)
  = FS.names (filter (fun e => t (snd e)) es).
Proof.
  intros ND.
  assert (H : forall l, incl l es ->
            filter (FS.entry_is t es) (FS.names l)
            = FS.names (filter (fun e => t (snd e)) l)).
  { induction l as [|[k n] r IH]; intros I; simpl; [reflexivity|].
    unfold FS.entry_is at 1.
    rewrite (lookup_NoDup k n es ND) by (apply I; now left).
    rewrite IH by (intros x Hx; apply I; now right).
    now destruct (t n). }
  apply H, incl_refl.
Qed.

(** C5.  For a directory that can be listed, [count_items] with the kind
    [files] (resp. [directories]) returns the number of names in the listing
    [list_files] gives whose entry is a regular file (resp. a directory),
    which is the number of such entries of the directory. *)
Theorem count_items_counts_listing (w : world) (self : t) (folder_path : string)
    (st : FS.stat) (es : list (string * FS.node)) :
  FS.wf (root w) ->
  os.node_of w folder_path = inr (FS.Dir st es) ->
  list_files self folder_path w = (Ok (FS.names es), w)
  /\ count_items self folder_path "files" w
     = (Ok (Z.of_nat (length (filter (FS.entry_is FS.is_file es) (FS.names es)))), w)
  /\ count_items self folder_path "directories" w
     = (Ok (Z.of_nat (length (filter (FS.entry_is FS.is_dir es) (FS.names es)))), w)
  /\ length (filter (FS.entry_is FS.is_file es) (FS.names es))
     = length (filter (fun e => FS.is_file (snd e)) es)
  /\ length (filter (FS.entry_is FS.is_dir es) (FS.names es))
     = length (filter (fun e => FS.is_dir (snd e)) es).
Proof.
  intros W H.
  assert (Wd : FS.wf (FS.Dir st es)) by (eapply wf_node_at; eauto).
  assert (L : os.listdir folder_path w = (Ok (FS.names es), w)).
  { unfold os.listdir, os.listdir_in. now rewrite H. }
  assert (K : forall item, In item (FS.names es) ->
             os.node_of w (posixpath.join folder_path item)
             = match FS.lookup item es with
               | Some n => inr n | None => inl FS.ENOENT end).
  { intros item I. unfold os.node_of in *.
    eapply node_at_join; eauto. eapply wf_entries_valid; eauto. }
  split; [exact L|].
  split; [|split; [|split]].
  - change (count_items self folder_path "files")
      with (bind (os.listdir folder_path) (fun items =>
              sum_bools (fun item =>
                os.path_isfile (posixpath.join folder_path item)) items)).
    unfold bind. rewrite L.
    apply sum_bools_count. intros item I.
    unfold os.path_isfile, gets, os.isfile_in, FS.entry_is.
    rewrite (K item I). now destruct (FS.lookup item es).
  - change (count_items self folder_path "directories")
      with (bind (os.listdir folder_path) (fun items =>
              sum_bools (fun item =>
                os.path_isdir (posixpath.join folder_path item)) items)).
    unfold bind. rewrite L.
    apply sum_bools_count. intros item I.
    unfold os.path_isdir, gets, os.isdir_in, FS.entry_is.
    rewrite (K item I). now destruct (FS.lookup item es).
  - inversion Wd; subst. rewrite filter_entries_names by assumption.
    unfold FS.names. now rewrite length_map.
  - inversion Wd; subst. rewrite filter_entries_names by assumption.
    unfold FS.names. now rewrite length_map.
Qed.

Lemma count_items_counts_listing_witness :
  list_files (Sample.fresh Sample.down_world) "/proj" Sample.down_world
  = (Ok ["a"; "n.txt"; "zdata"], Sample.down_world)
  /\ count_items (Sample.fresh Sample.down_world) "/proj" "files" Sample.down_world
     = (Ok 1%Z, Sample.down_world)
  /\ count_items (Sample.fresh Sample.down_world) "/proj" "directories"
       Sample.down_world
     = (Ok 2%Z, Sample.down_world).
Proof.
  destruct (count_items_counts_listing Sample.down_world
              (Sample.fresh Sample.down_world) "/proj" Sample.dstat
              [("a", Sample.dir [("data", Sample.dir [])]);
               ("n.txt", Sample.file "hi");
               ("zdata", Sample.dir [])]
              down_root_wf eq_refl)
    as (L & F & D & _).
  split; [exact L|]. split; [exact F|exact D].
Defined.

Lemma count_items_invalid_kind (self : t) (folder_path item_type : string) (w : world) :
  item_type <> "files" -> item_type <> "directories" ->
  count_items self folder_path item_type w
  = (Raise (ValueError "item_type must be either 'files' or 'directories'"), w).
Proof.
  intros F D. unfold count_items.
  apply String.eqb_neq in F, D. now rewrite F, D.
Qed.

End Counting.

Section FileInfo.
Import Py directories.

Lemma give_file_info_eq (self : t) (filename : string) (w : world) :
  give_file_info self filename w =
  match os.node_of w (posixpath.join (cwd self) filename) with
  | inr n => (Ok (Some (info_of filename (FS.stat_of n))), w)
  | inl _ => (Ok None, w)
  end.
Proof.
  unfold give_file_info, bind, os.path_exists, gets, os.exists_in.
  destruct (os.node_of w (posixpath.join (cwd self) filename)) eqn:E;
    [reflexivity|].
  unfold os.stat. now rewrite E.
Qed.

(** C9.  [give_file_info] never raises; it returns [None] exactly when
    nothing exists at the name joined to the current path, which for a
    plain name is when the current directory has no entry of that name; for
    a directory it returns the dictionary, holding the name as passed, the
    size and the modification time of the directory, and as permissions
    the last three characters of [oct(st_mode)], which are the three octal
    digits of the permission bits of the directory. *)
Theorem give_file_info_none_iff_absent (self : t) (filename : string) (w : world) :
  (exists r, give_file_info self filename w = (Ok r, w))
  /\ (give_file_info self filename w = (Ok None, w)
      <-> os.exists_in w (posixpath.join (cwd self) filename) = false)
  /\ (forall st es,
        os.node_of w (posixpath.join (cwd self) filename) = inr (FS.Dir st es) ->
        exists info,
          give_file_info self filename w = (Ok (Some info), w)
          /\ directories.filename info = filename
          /\ size info = FS.st_size st
          /\ last_modified info = FS.st_mtime st
          /\ permissions info = PyStr.last3 (PyStr.oct (FS.st_mode st))
          /\ ((64 <= FS.st_mode st)%N ->
              permissions info = permission_digits (FS.st_mode st)))
  /\ (forall st es,
        os.node_of w (cwd self) = inr (FS.Dir st es) ->
        FS.valid_name filename = true ->
        (give_file_info self filename w = (Ok None, w)
         <-> FS.lookup filename es = None)).
Proof.
  rewrite give_file_info_eq. unfold os.exists_in.
  split; [|split; [|split]].
  - destruct (os.node_of w (posixpath.join (cwd self) filename)); eauto.
  - destruct (os.node_of w (posixpath.join (cwd self) filename));
      split; intros H; try reflexivity; discriminate.
  - intros st es ->. eexists. split; [reflexivity|].
    unfold info_of. cbn [directories.filename size last_modified permissions FS.stat_of].
    repeat (split; [reflexivity|]). intros H. now apply last3_oct.
  - intros st es Hc V. unfold os.node_of in *.
    rewrite (node_at_join _ _ _ _ _ _ Hc V).
    destruct (FS.lookup filename es); split; intros H; try reflexivity; discriminate.
Qed.

Lemma give_file_info_none_iff_absent_witness :
  (exists info,
     give_file_info (Sample.fresh Sample.down_world) "a" Sample.down_world
     = (Ok (Some info), Sample.down_world)
     /\ directories.filename info = "a"
     /\ size info = 4096%N
     /\ last_modified info = 0%Z
     /\ permissions info = "755"
     /\ ((64 <= 16877)%N -> permissions info = "755"))
  /\ (give_file_info (Sample.fresh Sample.down_world) "b" Sample.down_world
      = (Ok None, Sample.down_world)).
Proof.
  split.
  - exact (proj1 (proj2 (proj2
             (give_file_info_none_iff_absent
                (Sample.fresh Sample.down_world) "a" Sample.down_world)))
             Sample.dstat [("data", Sample.dir [])] eq_refl).
  - apply (proj1 (proj2
             (give_file_info_none_iff_absent
                (Sample.fresh Sample.down_world) "b" Sample.down_world))).
    reflexivity.
Defined.

End FileInfo.

(** ** Navigation: the upward search *)

Section UpwardSearch.
Import Py directories.

Lemma isdir_exists (w : world) (p : string) :
  os.isdir_in w p = true -> os.exists_in w p = true.
Proof.
  unfold os.isdir_in, os.exists_in. now destruct (os.node_of w p).
Qed.

Lemma exists_and_isdir (w : world) (p : string) :
  os.exists_in w p && os.isdir_in w p = os.isdir_in w p.
Proof.
  destruct (os.isdir_in w p) eqn:E.
  - now rewrite (isdir_exists w p E).
  - apply andb_false_r.
Qed.

Lemma isdir_printed (k : nat) (kw : string) (w : world) (p : string) :
  os.isdir_in (printed_up k kw w) p = os.isdir_in w p.
Proof.
  revert w. induction k as [|k IH]; intros w; simpl; [reflexivity|].
  now rewrite IH.
Qed.

(** One turn of the loop. *)
Lemma up_loop_S (f : nat) (self : t) (kw cur : string) (w : world) :
  find_closest_kw_folder_up_loop (S f) self kw cur w =
  if os.isdir_in w (posixpath.join cur kw)
  then Some (Some (posixpath.join cur kw), w)
  else if String.eqb cur (parent_dir self) then Some (None, w)
  else find_closest_kw_folder_up_loop f self kw (posixpath.dirname cur)
         (printed_up 1 kw w).
Proof.
  simpl find_closest_kw_folder_up_loop. now rewrite exists_and_isdir.
Qed.

(** What a result of the loop tells. *)
Lemma up_loop_sound (fuel : nat) (self : t) (kw cur : string) (w : world)
    (r : option string) (w' : world) :
  find_closest_kw_folder_up_loop fuel self kw cur w = Some (r, w') ->
  exists k, k < fuel /\ w' = printed_up k kw w
    /\ (forall j, j < k -> no_match w kw cur j /\ ancestor j cur <> parent_dir self)
    /\ match r with
       | Some p => p = posixpath.join (ancestor k cur) kw /\ os.isdir_in w p = true
       | None => no_match w kw cur k /\ ancestor k cur = parent_dir self
       end.
Proof.
  revert cur w. induction fuel as [|f IH]; intros cur w; [discriminate|].
  rewrite up_loop_S.
  destruct (os.isdir_in w (posixpath.join cur kw)) eqn:D.
  - intros [= <- <-]. exists 0. repeat split; auto; try lia.
  - destruct (String.eqb_spec cur (parent_dir self)) as [E|NE].
    + intros [= <- <-]. exists 0. repeat split; auto; try lia.
    + intros H. apply IH in H as (k & Hk & Hw & Hj & Hr).
      exists (S k). split; [lia|]. split; [exact Hw|]. split.
      * intros [|j] Hlt.
        -- split; [exact D|exact NE].
        -- destruct (Hj j ltac:(lia)) as [A B]. split; [|exact B].
           unfold no_match in *. simpl ancestor.
           now rewrite isdir_printed in A.
      * destruct r as [p|].
        -- destruct Hr as [-> Hd]. split; [reflexivity|].
           now rewrite isdir_printed in Hd.
        -- destruct Hr as [A B]. split; [|exact B].
           unfold no_match in *. simpl ancestor. now rewrite isdir_printed in A.
Qed.

(** The loop finds a match that lies below the cached parent. *)
Lemma up_loop_finds (k : nat) : forall (fuel : nat) (self : t) (kw cur : string) (w : world),
  k < fuel ->
  (forall j, j < k -> no_match w kw cur j /\ ancestor j cur <> parent_dir self) ->
  os.isdir_in w (posixpath.join (ancestor k cur) kw) = true ->
  find_closest_kw_folder_up_loop fuel self kw cur w
  = Some (Some (posixpath.join (ancestor k cur) kw), printed_up k kw w).
Proof.
  induction k as [|k IH]; intros fuel self kw cur w Hf Hj Hd;
    (destruct fuel as [|f]; [lia|]); rewrite up_loop_S.
  - simpl in Hd. now rewrite Hd.
  - destruct (Hj 0 ltac:(lia)) as [A B]. unfold no_match in A. simpl in A, B.
    rewrite A. apply String.eqb_neq in B. rewrite B.
    rewrite (IH f self kw (posixpath.dirname cur) (printed_up 1 kw w)); try lia.
    + reflexivity.
    + intros j Hlt. destruct (Hj (S j) ltac:(lia)) as [A' B'].
      split; [|exact B']. unfold no_match in *. now rewrite isdir_printed.
    + now rewrite isdir_printed.
Qed.

(** The loop stops without a result at the cached parent. *)
Lemma up_loop_stops (k : nat) : forall (self : t) (kw cur : string) (w : world),
  ancestor k cur = parent_dir self ->
  (forall j, j <= k -> no_match w kw cur j) ->
  exists k0, k0 <= k
    /\ find_closest_kw_folder_up_loop (S k) self kw cur w
       = Some (None, printed_up k0 kw w).
Proof.
  induction k as [|k IH]; intros self kw cur w Ha Hn; rewrite up_loop_S.
  - pose proof (Hn 0 (le_n 0)) as A. unfold no_match in A. simpl in A, Ha.
    rewrite A. apply String.eqb_eq in Ha. rewrite Ha. now exists 0.
  - pose proof (Hn 0 ltac:(lia)) as A. unfold no_match in A. simpl in A.
    rewrite A. destruct (String.eqb cur (parent_dir self)).
    + exists 0. split; [lia|reflexivity].
    + destruct (IH self kw (posixpath.dirname cur) (printed_up 1 kw w)) as (k0 & Hk0 & E).
      * exact Ha.
      * intros j Hj. unfold no_match. rewrite isdir_printed. apply (Hn (S j)). lia.
      * exists (S k0). split; [lia|]. exact E.
Qed.

(** With the cached parent two levels up or more, the search reaches the
    grandparent. *)
Lemma up_reaches_grandparent (self : t) (kw : string) (w : world) (fuel : nat) :
  cwd self <> parent_dir self ->
  posixpath.dirname (cwd self) <> parent_dir self ->
  no_match w kw (cwd self) 0 ->
  no_match w kw (cwd self) 1 ->
  os.isdir_in w (posixpath.join (ancestor 2 (cwd self)) kw) = true ->
  3 <= fuel ->
  find_closest_kw_folder_up fuel self kw w
  = Some (Some (posixpath.join (ancestor 2 (cwd self)) kw), printed_up 2 kw w).
Proof.
  intros N0 N1 M0 M1 D F. unfold find_closest_kw_folder_up.
  apply up_loop_finds; [lia| |exact D].
  intros [|[|j]] Hj; try lia; split; auto.
Qed.

(** With the cached parent one level up, as [__init__] leaves it, the search
    ends at the parent. *)
Lemma up_stops_at_parent (self : t) (kw : string) (w : world) (fuel : nat) :
  parent_dir self = posixpath.dirname (cwd self) ->
  cwd self <> posixpath.dirname (cwd self) ->
  no_match w kw (cwd self) 0 ->
  no_match w kw (cwd self) 1 ->
  2 <= fuel ->
  find_closest_kw_folder_up fuel self kw w = Some (None, printed_up 1 kw w).
Proof.
  intros P N M0 M1 F. unfold find_closest_kw_folder_up.
  destruct fuel as [|[|f]]; try lia.
  unfold no_match in *. simpl ancestor in *.
  rewrite up_loop_S, M0.
  rewrite P. apply String.eqb_neq in N. rewrite N.
  rewrite up_loop_S, isdir_printed, M1, P, String.eqb_refl. reflexivity.
Qed.

(** When no level above the current path is the cached parent and none
    holds a match, the loop has no result, however long it runs. *)
Lemma up_loop_runs_on (self : t) (kw : string) (w : world) :
  (forall k, ancestor k (cwd self) <> parent_dir self) ->
  (forall k, no_match w kw (cwd self) k) ->
  forall fuel, find_closest_kw_folder_up fuel self kw w = None.
Proof.
  intros Hp Hn fuel.
  destruct (find_closest_kw_folder_up fuel self kw w) as [[r w']|] eqn:E;
    [|reflexivity].
  exfalso. apply up_loop_sound in E as (k & _ & _ & _ & Hr).
  destruct r as [p|].
  - destruct Hr as [-> Hd]. specialize (Hn k). unfold no_match in Hn. congruence.
  - destruct Hr as [_ Ha]. exact (Hp k Ha).
Qed.

Lemma ancestor_root (k : nat) : ancestor k "/" = "/".
Proof. induction k as [|k IH]; [reflexivity|exact IH]. Qed.

(** An instance that strayed from where it was built searches for ever:
    built in [/g/p/c], taken to [/g/data], it looks for [none] in
    [/g/data], [/g], [/], [/], ... and never meets [/g/p]. *)
Lemma up_search_of_strayed_runs_on :
  cwd (fst Sample.strayed) = "/g/data"
  /\ parent_dir (fst Sample.strayed) = "/g/p"
  /\ forall fuel,
       find_closest_kw_folder_up fuel (fst Sample.strayed) "none" (snd Sample.strayed)
       = None.
Proof.
  split; [reflexivity|]. split; [reflexivity|].
  assert (A : forall k, ancestor k (cwd (fst Sample.strayed))
                        = match k with 0 => "/g/data" | 1 => "/g" | _ => "/" end).
  { intros [|[|k]]; try reflexivity.
    change (ancestor (S (S k)) (cwd (fst Sample.strayed))) with (ancestor k "/").
    apply ancestor_root. }
  apply up_loop_runs_on.
  - intros k. rewrite A. destruct k as [|[|k]]; vm_compute; discriminate.
  - intros k. unfold no_match. rewrite A. now destruct k as [|[|k]].
Qed.

(** C1 (as amended).  [find_closest_kw_folder_up] starts at the current
    path and at each level tests for a directory of the exact name [kw];
    it returns the first such directory on the way up: a result [Some p]
    is that directory, found before the level of the cached parent path
    was left, and whenever there is such a directory the search does
    return it, after as many upward steps as it lies above the current
    path, none when the current path itself holds it.  The result [None]
    is returned exactly when the level equal to the cached parent path
    ([parent_dir], set once by [__init__]) is reached with no match up to
    and including it.  The directory in the grandparent of the current
    path is returned, after two upward steps, when neither the current
    path nor its parent holds a match and the cached parent path is neither
    of the two. *)
Theorem find_closest_kw_folder_up_bounded (self : t) (kw : string) (w : world) :
  (forall fuel p w',
      find_closest_kw_folder_up fuel self kw w = Some (Some p, w') ->
      exists k,
        k < fuel
        /\ p = posixpath.join (ancestor k (cwd self)) kw
        /\ os.isdir_in w p = true
        /\ w' = printed_up k kw w
        /\ forall j, j < k ->
             no_match w kw (cwd self) j /\ ancestor j (cwd self) <> parent_dir self)
  /\ (forall k fuel,
        k < fuel ->
        (forall j, j < k ->
           no_match w kw (cwd self) j /\ ancestor j (cwd self) <> parent_dir self) ->
        os.isdir_in w (posixpath.join (ancestor k (cwd self)) kw) = true ->
        find_closest_kw_folder_up fuel self kw w
        = Some (Some (posixpath.join (ancestor k (cwd self)) kw), printed_up k kw w))
  /\ ((exists fuel w', find_closest_kw_folder_up fuel self kw w = Some (None, w'))
      <-> (exists k, ancestor k (cwd self) = parent_dir self
                     /\ forall j, j <= k -> no_match w kw (cwd self) j))
  /\ (cwd self <> parent_dir self ->
      posixpath.dirname (cwd self) <> parent_dir self ->
      no_match w kw (cwd self) 0 ->
      no_match w kw (cwd self) 1 ->
      os.isdir_in w (posixpath.join (ancestor 2 (cwd self)) kw) = true ->
      forall fuel, 3 <= fuel ->
        find_closest_kw_folder_up fuel self kw w
        = Some (Some (posixpath.join (ancestor 2 (cwd self)) kw), printed_up 2 kw w)).
Proof.
  split; [|split; [|split]].
  - intros fuel p w' H. apply up_loop_sound in H as (k & Hk & Hw & Hj & -> & Hd).
    exists k. auto.
  - intros k fuel Hk Hj Hd. unfold find_closest_kw_folder_up.
    now apply up_loop_finds.
  - split.
    + intros (fuel & w' & H). apply up_loop_sound in H as (k & _ & _ & Hj & Hn & Ha).
      exists k. split; [exact Ha|]. intros j Hle.
      destruct (Nat.eq_dec j k) as [->|Hne]; [exact Hn|].
      apply Hj. lia.
    + intros (k & Ha & Hn).
      destruct (up_loop_stops k self kw (cwd self) w Ha Hn) as (k0 & _ & E).
      now exists (S k), (printed_up k0 kw w).
  - intros; now apply up_reaches_grandparent.
Qed.

Lemma find_closest_kw_folder_up_bounded_witness :
  find_closest_kw_folder_up 3 (fst Sample.shifted) "data" (snd Sample.shifted)
  = Some (Some "/g/data", printed_up 2 "data" (snd Sample.shifted))
  /\ find_closest_kw_folder_up 1 (Sample.fresh Sample.down_world) "a"
       Sample.down_world
     = Some (Some "/proj/a", Sample.down_world).
Proof.
  split.
  - apply (proj2 (proj2 (proj2
             (find_closest_kw_folder_up_bounded (fst Sample.shifted) "data"
                (snd Sample.shifted))))).
    + vm_compute. discriminate.
    + vm_compute. discriminate.
    + reflexivity.
    + reflexivity.
    + reflexivity.
    + lia.
  - apply (proj1 (proj2
             (find_closest_kw_folder_up_bounded (Sample.fresh Sample.down_world) "a"
                Sample.down_world)) 0 1).
    + lia.
    + intros j Hj. lia.
    + reflexivity.
Defined.

(** C1 as stated fails: on a new instance in [/g/p/c], with [/g/data] the
    only directory called [data], the grandparent holds a match, the current
    path and its parent hold none, and yet the search answers [None]. *)
Lemma find_closest_kw_folder_up_misses_grandparent :
  let self := Sample.fresh Sample.up_world in
  let w := Sample.up_world in
  cwd self = "/g/p/c"
  /\ os.isdir_in w (posixpath.join (posixpath.dirname (posixpath.dirname (cwd self))) "data") = true
  /\ os.isdir_in w (posixpath.join (cwd self) "data") = false
  /\ os.isdir_in w (posixpath.join (posixpath.dirname (cwd self)) "data") = false
  /\ (forall fuel, 2 <= fuel ->
        find_closest_kw_folder_up fuel self "data" w = Some (None, printed_up 1 "data" w))
  /\ (forall fuel p w', find_closest_kw_folder_up fuel self "data" w <> Some (Some p, w')).
Proof.
  cbv zeta.
  assert (S2 : forall fuel, 2 <= fuel ->
             find_closest_kw_folder_up fuel (Sample.fresh Sample.up_world) "data"
               Sample.up_world
             = Some (None, printed_up 1 "data" Sample.up_world)).
  { intros fuel Hf. apply up_stops_at_parent; try reflexivity; try exact Hf.
    vm_compute. discriminate. }
  repeat split; try reflexivity; try exact S2.
  intros [|[|f]] p w'.
  - discriminate.
  - vm_compute. discriminate.
  - rewrite S2 by lia. discriminate.
Qed.

End UpwardSearch.

(** ** Navigation: the downward search *)

Section DownwardSearch.
Import Py directories.

Lemma with_stdout_nil (w : world) : with_stdout w (stdout w ++ []) = w.
Proof. destruct w. unfold with_stdout. simpl. now rewrite app_nil_r. Qed.

Lemma with_stdout_app (w : world) (a b : list string) :
  with_stdout (with_stdout w (stdout w ++ a))
    (stdout (with_stdout w (stdout w ++ a)) ++ b)
  = with_stdout w (stdout w ++ (a ++ b)).
Proof. unfold with_stdout. simpl. now rewrite app_assoc. Qed.

Lemma first_match_app (kw : string) (a b : list (string * string)) :
  SpecDown.first_match kw (a ++ b) =
  match SpecDown.first_match kw a with
  | Some p => Some p
  | None => SpecDown.first_match kw b
  end.
Proof.
  unfold SpecDown.first_match. induction a as [|c a IH]; simpl; [reflexivity|].
  destruct (PyStr.contains kw (snd c)); [reflexivity|exact IH].
Qed.

Lemma scan_dirs_ok (kw root : string) (dirs : list string) (w : world) :
  exists out,
    scan_dirs kw root dirs w
    = (Ok (SpecDown.first_match kw (dir_candidates root dirs)),
       with_stdout w (stdout w ++ out)).
Proof.
  revert w. induction dirs as [|d r IH]; intros w; simpl.
  - exists []. unfold ret. now rewrite with_stdout_nil.
  - unfold SpecDown.first_match. simpl.
    destruct (PyStr.contains kw d) eqn:C.
    + exists []. unfold ret. now rewrite with_stdout_nil.
    + unfold bind, print.
      destruct (IH (with_stdout w (stdout w ++ [searching_down kw]))) as [out E].
      rewrite E. exists (searching_down kw :: out).
      now rewrite with_stdout_app.
Qed.

Lemma scan_walk_ok (kw : string) (ws : list (string * list string * list string))
    (w : world) :
  exists out,
    scan_walk kw ws w
    = (Ok (SpecDown.first_match kw (candidates ws)), with_stdout w (stdout w ++ out)).
Proof.
  revert w. induction ws as [|[[root dirs] fs] r IH]; intros w; simpl.
  - exists []. unfold ret. now rewrite with_stdout_nil.
  - unfold bind. destruct (scan_dirs_ok kw root dirs w) as [o1 E1]. rewrite E1.
    fold (dir_candidates root dirs). rewrite first_match_app.
    destruct (SpecDown.first_match kw (dir_candidates root dirs)) as [p|].
    + now exists o1.
    + destruct (IH (with_stdout w (stdout w ++ o1))) as [o2 E2]. rewrite E2.
      exists (o1 ++ o2)%list. now rewrite with_stdout_app.
Qed.

(** The walk of a directory: the directory itself, then the walks of its
    sub-directories, in listing order. *)
Lemma walk_node_dir (top : string) (st : FS.stat) (es : list (string * FS.node)) :
  os.walk_node top (FS.Dir st es)
  = (top, os.subdirs es, os.nondirs es)
    :: flat_map (fun e => os.walk_node (posixpath.join top (fst e)) (snd e))
         (filter (fun e => FS.is_dir (snd e)) es).
Proof.
  simpl. f_equal.
  induction es as [|[name child] r IH]; simpl; [reflexivity|].
  rewrite IH. now destruct (FS.is_dir child).
Qed.

Lemma candidates_app (a b : list (string * list string * list string)) :
  candidates (a ++ b) = (candidates a ++ candidates b)%list.
Proof. unfold candidates. apply flat_map_app. Qed.

Lemma candidates_flat_map {A} (f : A -> list (string * list string * list string))
    (l : list A) :
  candidates (flat_map f l) = flat_map (fun x => candidates (f x)) l.
Proof.
  induction l as [|x l IH]; simpl; [reflexivity|].
  now rewrite candidates_app, IH.
Qed.

Lemma candidates_dir (top : string) (st : FS.stat) (es : list (string * FS.node)) :
  candidates (os.walk_node top (FS.Dir st es))
  = (dir_candidates top (os.subdirs es)
     ++ flat_map (fun e => candidates
                    (os.walk_node (posixpath.join top (fst e)) (snd e)))
          (filter (fun e => FS.is_dir (snd e)) es))%list.
Proof.
  rewrite walk_node_dir.
  change (candidates ((top, os.subdirs es, os.nondirs es) :: ?l))
    with (dir_candidates top (os.subdirs es) ++ candidates l)%list.
  now rewrite candidates_flat_map.
Qed.

Lemma first_match_unique (kw p : string) (l : list (string * string)) :
  (exists c, In c l /\ PyStr.contains kw (snd c) = true) ->
  (forall c, In c l -> PyStr.contains kw (snd c) = true -> fst c = p) ->
  SpecDown.first_match kw l = Some p.
Proof.
  intros (c & I & C) U. unfold SpecDown.first_match.
  destruct (find (fun c => PyStr.contains kw (snd c)) l) as [x|] eqn:F.
  - apply find_some in F as [Ix Cx]. simpl. f_equal. now apply U.
  - exfalso. pose proof (find_none _ _ F c I) as N. simpl in N. congruence.
Qed.

Lemma first_match_none (kw : string) (l : list (string * string)) :
  SpecDown.first_match kw l = None <->
  forall c, In c l -> PyStr.contains kw (snd c) = false.
Proof.
  unfold SpecDown.first_match. split.
  - destruct (find (fun c => PyStr.contains kw (snd c)) l) eqn:F; [discriminate|].
    intros _ c I. exact (find_none _ _ F c I).
  - intros H. destruct (find (fun c => PyStr.contains kw (snd c)) l) as [x|] eqn:F;
      [|reflexivity].
    apply find_some in F as [Ix Cx]. rewrite (H x Ix) in Cx. discriminate.
Qed.

Lemma first_match_some (kw p : string) (l : list (string * string)) :
  SpecDown.first_match kw l = Some p ->
  exists name, In (p, name) l /\ PyStr.contains kw name = true.
Proof.
  unfold SpecDown.first_match.
  destruct (find (fun c => PyStr.contains kw (snd c)) l) as [[p' name]|] eqn:F;
    [|discriminate].
  intros [= <-]. apply find_some in F as [I C]. now exists name.
Qed.

Lemma lookup_entry (k : string) (es : list (string * FS.node)) (m : FS.node) :
  FS.lookup k es = Some m -> In (k, m) es.
Proof.
  induction es as [|[k' x] r IH]; simpl; [discriminate|].
  destruct (String.eqb_spec k' k) as [->|].
  - intros [= ->]. now left.
  - intros H. right. now apply IH.
Qed.

Lemma subdirs_In (name : string) (child : FS.node) (es : list (string * FS.node)) :
  In (name, child) es -> FS.is_dir child = true -> In name (os.subdirs es).
Proof.
  intros I D. unfold os.subdirs, FS.names.
  change name with (fst (name, child)). apply in_map, filter_In. auto.
Qed.

(** Every sub-directory below a directory is tested by the search. *)
Lemma candidates_complete (cs : list string) :
  forall (n : FS.node) (top name : string) (st : FS.stat)
         (es : list (string * FS.node)),
  FS.get_node n (cs ++ [name]) = Some (FS.Dir st es) ->
  exists p, In (p, name) (candidates (os.walk_node top n)).
Proof.
  induction cs as [|c r IH]; intros n top name st es G.
  - simpl in G. destruct n as [|st0 es0]; [discriminate|].
    destruct (FS.lookup name es0) as [m|] eqn:L; [|discriminate].
    injection G as ->. apply lookup_entry in L.
    exists (posixpath.join top name). rewrite candidates_dir.
    apply in_or_app. left. unfold dir_candidates.
    apply in_map_iff. exists name. split; [reflexivity|].
    eapply subdirs_In; eauto.
  - simpl in G. destruct n as [|st0 es0]; [discriminate|].
    destruct (FS.lookup c es0) as [m|] eqn:L; [|discriminate].
    destruct m as [fst' data|st1 es1].
    { exfalso. exact (get_node_file _ _ _ _ _ G). }
    destruct (IH (FS.Dir st1 es1) (posixpath.join top c) name st es G) as [p I].
    exists p. rewrite candidates_dir. apply in_or_app. right.
    apply in_flat_map. exists (c, FS.Dir st1 es1). split; [|exact I].
    apply filter_In. split; [now apply lookup_entry|reflexivity].
Qed.

(** What the search tests is a sub-directory, and its path names it. *)
Lemma candidates_sound (n : FS.node) :
  forall (w : world) (top : string),
  FS.wf (root w) ->
  os.node_of w top = inr n ->
  forall p name, In (p, name) (candidates (os.walk_node top n)) ->
  exists cs st es,
    FS.get_node n (cs ++ [name]) = Some (FS.Dir st es)
    /\ os.node_of w p = inr (FS.Dir st es).
Proof.
  induction n as [st0 data|st0 es0 IH] using FS.node_ind';
    intros w top W N p name I.
  - destruct I.
  - assert (Wd : FS.wf (FS.Dir st0 es0)) by (eapply wf_node_at; eauto).
    assert (ND : NoDup (FS.names es0)) by now inversion Wd.
    rewrite candidates_dir in I. apply in_app_or in I as [I|I].
    + unfold dir_candidates in I. apply in_map_iff in I as (d & E & I).
      injection E as <- <-.
      unfold os.subdirs, FS.names in I.
      apply in_map_iff in I as ([k child] & <- & I). simpl.
      apply filter_In in I as [I D]. simpl in D.
      destruct child as [|st es]; [discriminate|].
      exists [], st, es. split.
      * simpl. now rewrite (lookup_NoDup k (FS.Dir st es) es0 ND I).
      * eapply walk_enters_entry; eauto.
    + apply in_flat_map in I as ([c m] & Ic & I). simpl in I.
      apply filter_In in Ic as [Ic _].
      rewrite Forall_forall in IH.
      destruct (IH (c, m) Ic w (posixpath.join top c) W
                  (walk_enters_entry w top c st0 es0 m W N Ic) p name I)
        as (cs & st & es & G & Np).
      exists (c :: cs), st, es. split; [|exact Np].
      simpl. now rewrite (lookup_NoDup c m es0 ND Ic).
Qed.

(** C6 (as amended).  [find_closest_kw_folder_down] never raises and leaves
    the file system as it was; its result is the first sub-directory whose
    name contains [kw] in the order of [os.walk]: the sub-directories of a
    directory are all tested, in the order the directory lists them, before
    any of them is entered, and then each is walked in that same order.  A
    path it returns names a sub-directory below the current path whose
    name contains [kw]; [None] is returned exactly when no sub-directory
    below the current path has such a name; when all matching
    sub-directories have one path, that path is returned, as in the tree
    with [x] and [y/data]. *)
Theorem find_closest_kw_folder_down_walk_order (self : t) (kw : string) (w : world) :
  (exists out,
      find_closest_kw_folder_down self kw w
      = (Ok (SpecDown.first_match kw (candidates (os.walk_in w (cwd self)))),
         with_stdout w (stdout w ++ out)))
  /\ (forall top st es,
        candidates (os.walk_node top (FS.Dir st es))
        = (dir_candidates top (os.subdirs es)
           ++ flat_map (fun e => candidates
                          (os.walk_node (posixpath.join top (fst e)) (snd e)))
                (filter (fun e => FS.is_dir (snd e)) es))%list)
  /\ (forall n p,
        FS.wf (root w) ->
        os.node_of w (cwd self) = inr n ->
        fst (find_closest_kw_folder_down self kw w) = Ok (Some p) ->
        exists cs name st es,
          FS.get_node n (cs ++ [name]) = Some (FS.Dir st es)
          /\ os.node_of w p = inr (FS.Dir st es)
          /\ PyStr.contains kw name = true)
  /\ (forall n,
        FS.wf (root w) ->
        os.node_of w (cwd self) = inr n ->
        (fst (find_closest_kw_folder_down self kw w) = Ok None
         <-> forall cs name st es,
               FS.get_node n (cs ++ [name]) = Some (FS.Dir st es) ->
               PyStr.contains kw name = false))
  /\ (forall p,
        (exists c, In c (candidates (os.walk_in w (cwd self)))
                   /\ PyStr.contains kw (snd c) = true) ->
        (forall c, In c (candidates (os.walk_in w (cwd self))) ->
                   PyStr.contains kw (snd c) = true -> fst c = p) ->
        fst (find_closest_kw_folder_down self kw w) = Ok (Some p)).
Proof.
  assert (R : exists out,
      find_closest_kw_folder_down self kw w
      = (Ok (SpecDown.first_match kw (candidates (os.walk_in w (cwd self)))),
         with_stdout w (stdout w ++ out))).
  { unfold find_closest_kw_folder_down, bind, os.walk, gets. apply scan_walk_ok. }
  split; [exact R|]. split; [|split; [|split]].
  - apply candidates_dir.
  - intros n p W N. destruct R as [out ->]. simpl. intros [= F].
    apply first_match_some in F as (name & I & C).
    unfold os.walk_in in I. rewrite N in I.
    destruct (candidates_sound n w (cwd self) W N p name I) as (cs & st & es & G & Np).
    exists cs, name, st, es. auto.
  - intros n W N. destruct R as [out ->]. simpl.
    unfold os.walk_in. rewrite N. split.
    + intros [= F] cs name st es G.
      destruct (candidates_complete cs n (cwd self) name st es G) as [p I].
      exact (proj1 (first_match_none kw _) F (p, name) I).
    + intros H. f_equal. apply first_match_none. intros [p name] I.
      destruct (candidates_sound n w (cwd self) W N p name I) as (cs & st & es & G & _).
      exact (H cs name st es G).
  - intros p Hex Hu. destruct R as [out ->]. simpl.
    f_equal. now apply first_match_unique.
Qed.

Lemma find_closest_kw_folder_down_walk_order_witness :
  fst (find_closest_kw_folder_down (Sample.fresh Sample.xy_world) "data"
         Sample.xy_world)
  = Ok (Some "/proj/y/data").
Proof.
  apply (proj2 (proj2 (proj2 (proj2
           (find_closest_kw_folder_down_walk_order
              (Sample.fresh Sample.xy_world) "data" Sample.xy_world)))) "/proj/y/data").
  - exists ("/proj/y/data", "data"). split; [|reflexivity].
    vm_compute. right. right. now left.
  - vm_compute. intros c [<-|[<-|[<-|[]]]]; intros; try reflexivity; discriminate.
Defined.

(** C6 as stated fails: in [/proj] with the sub-directories [a] (holding
    [data]) and [zdata], listed in lexicographic order, the pre-order
    traversal meets [a/data] first, and the method returns [zdata]. *)
Lemma find_closest_kw_folder_down_not_preorder :
  let self := Sample.fresh Sample.down_world in
  let w := Sample.down_world in
  os.listdir_in w (cwd self) = Ok ["a"; "n.txt"; "zdata"]
  /\ SpecDown.find_down w self "data" = Some "/proj/a/data"
  /\ fst (find_closest_kw_folder_down self "data" w) = Ok (Some "/proj/zdata").
Proof. cbv zeta. repeat split; reflexivity. Qed.

End DownwardSearch.

(** ** Navigation: [shift_dir], [join_path_with_keyword] *)

Section ChangingDirectory.
Import Py directories.

(** [shift_dir] refreshes the current path and the listing, and leaves the
    parent path as it was. *)
Lemma shift_dir_fields (self self' : t) (new_dir : string) (w w' : world) :
  shift_dir self new_dir w = (Ok self', w') ->
  parent_dir self' = parent_dir self
  /\ home_dir self' = home_dir self
  /\ os.getcwd w' = (Ok (cwd self'), w')
  /\ os.listdir0 w' = (Ok (files self'), w').
Proof.
  unfold shift_dir, bind.
  destruct (os.chdir new_dir w) as [[[]|e] w1] eqn:C; [|discriminate].
  destruct (os.getcwd w1) as [[c|e] w2] eqn:G; [|discriminate].
  assert (w2 = w1) as ->.
  { unfold os.getcwd in G.
    destruct (FS.get_node (root w1) (pcwd w1)) as [[|]|]; now inversion G. }
  destruct (os.listdir0 w1) as [[fs|e] w3] eqn:L; [|discriminate].
  assert (w3 = w1) as -> by (unfold os.listdir0, os.listdir in L; now inversion L).
  unfold ret. intros [= <- <-]. simpl. auto.
Qed.

(** C4, at its failing input: an instance built in [/home/u/proj] and moved
    to [/srv/data].  The listing and the current path follow the move; the
    parent path still is [/home/u], not the parent [/srv] of the current
    path. *)
Theorem shift_dir_keeps_stale_parent :
  exists self' w',
    shift_dir (Sample.fresh Sample.two_world) "/srv/data" Sample.two_world
    = (Ok self', w')
    /\ cwd self' = "/srv/data"
    /\ os.listdir_in w' (cwd self') = Ok (files self')
    /\ posixpath.dirname (cwd self') = "/srv"
    /\ parent_dir self' = "/home/u"
    /\ parent_dir self' <> posixpath.dirname (cwd self').
Proof.
  eexists. eexists. split; [vm_compute; reflexivity|].
  repeat split; try reflexivity. vm_compute. discriminate.
Qed.

(** C3, at its failing input: in the empty directory [/home/u/proj] the
    call with [a], [b] creates [a] and, beside it, [b]; the path it
    returns, [a/b], does not exist; the same call again raises
    [FileExistsError]. *)
Theorem join_path_with_keyword_creates_siblings :
  let self := Sample.fresh Sample.empty_world in
  exists w1,
    join_path_with_keyword self ["a"; "b"] Sample.empty_world
    = (Ok "/home/u/proj/a/b", w1)
    /\ os.listdir_in w1 "/home/u/proj" = Ok ["a"; "b"]
    /\ os.isdir_in w1 "/home/u/proj/a" = true
    /\ os.exists_in w1 "/home/u/proj/a/b" = false
    /\ fst (join_path_with_keyword self ["a"; "b"] w1) = Raise (OSError FS.EEXIST).
Proof.
  cbv zeta. eexists. split; [vm_compute; reflexivity|].
  repeat split; reflexivity.
Qed.

End ChangingDirectory.

(** ** Moving a file *)

Section Moving.
Import Py directories.

(** C7.  [move_file] with a name under which nothing exists raises nothing,
    prints its error line, and changes neither the file system nor the
    instance: the destination exists afterwards if and only if it existed
    before, with the same entries. *)
Theorem move_file_missing_source (self : t) (filename dest : string) (w : world) :
  os.exists_in w (posixpath.join (cwd self) filename) = false ->
  let w' := snd (move_file self filename dest w) in
  move_file self filename dest w
  = (Ok self,
     with_stdout w (stdout w ++ ["Error: File " ++ filename ++ " does not exist."]))
  /\ root w' = root w
  /\ pcwd w' = pcwd w
  /\ os.exists_in w' dest = os.exists_in w dest
  /\ os.node_of w' dest = os.node_of w dest
  /\ os.listdir_in w' dest = os.listdir_in w dest.
Proof.
  intros H.
  assert (E : move_file self filename dest w
              = (Ok self,
                 with_stdout w
                   (stdout w ++ ["Error: File " ++ filename ++ " does not exist."]))).
  { unfold move_file, bind, os.path_exists, gets. rewrite H. reflexivity. }
  cbv zeta. rewrite E. repeat split; reflexivity.
Qed.

Lemma move_file_missing_source_witness :
  move_file (Sample.fresh Sample.down_world) "nope.txt" "dest" Sample.down_world
  = (Ok (Sample.fresh Sample.down_world),
     with_stdout Sample.down_world ["Error: File nope.txt does not exist."])
  /\ os.exists_in
       (snd (move_file (Sample.fresh Sample.down_world) "nope.txt" "dest"
               Sample.down_world)) "dest" = false.
Proof.
  destruct (move_file_missing_source (Sample.fresh Sample.down_world)
              "nope.txt" "dest" Sample.down_world eq_refl)
    as (E & _ & _ & X & _).
  split; [exact E|exact X].
Defined.

End Moving.

(** ** Persistence: loading what is not there *)

Section Loading.
Import Py directories.
Context {codecs : Serializers}.

Lemma node_of_absent (w : world) (p : string) :
  os.exists_in w p = false -> exists e, os.node_of w p = inl e.
Proof.
  unfold os.exists_in. destruct (os.node_of w p) as [e|n]; [eauto|discriminate].
Qed.

(** C2, on the code: with nothing at the target, the JSON and pickle loaders
    return [None]; the HDF5 loader and the CSV loader raise an [OSError]
    ([FileNotFoundError] or [NotADirectoryError]). *)
Theorem load_absent_target (self : t) (target : string) (w : world) :
  os.exists_in w (posixpath.join (cwd self) target) = false ->
  os.exists_in w target = false ->
  load_json self target w = (Ok None, w)
  /\ load_pickle self target w = (Ok None, w)
  /\ load_dict_of_dfs_pickle self target w = (Ok None, w)
  /\ (exists e, load_dict_of_dfs_hdf5 self target w = (Raise (OSError e), w))
  /\ (exists e, load_dict_of_dfs_csv self target w = (Raise (OSError e), w)).
Proof.
  intros H1 H2.
  unfold load_json, load_pickle, load_dict_of_dfs_pickle, bind,
    os.path_exists, gets.
  rewrite H1. repeat split; try reflexivity.
  - apply node_of_absent in H1 as [e E]. exists e.
    unfold load_dict_of_dfs_hdf5, bind, io.load_from, bind, io.read_file.
    now rewrite E.
  - apply node_of_absent in H2 as [e E]. exists e.
    unfold load_dict_of_dfs_csv, bind, os.listdir, os.listdir_in.
    now rewrite E.
Qed.

End Loading.

Lemma load_absent_target_witness :
  fst (directories.load_dict_of_dfs_hdf5 (codecs:=Sample.text_codecs)
         (Sample.fresh Sample.down_world) "tables.h5" Sample.down_world)
  = Py.Raise (Py.OSError FS.ENOENT)
  /\ fst (directories.load_dict_of_dfs_csv (codecs:=Sample.text_codecs)
            (Sample.fresh Sample.down_world) "tables.h5" Sample.down_world)
     = Py.Raise (Py.OSError FS.ENOENT).
Proof.
  destruct (load_absent_target (codecs:=Sample.text_codecs)
              (Sample.fresh Sample.down_world) "tables.h5" Sample.down_world
              eq_refl eq_refl)
    as (_ & _ & _ & [e1 E1] & [e2 E2]).
  split.
  - rewrite E1. simpl. f_equal. f_equal.
    assert (X := E1). vm_compute in X. now inversion X.
  - rewrite E2. simpl. f_equal. f_equal.
    assert (X := E2). vm_compute in X. now inversion X.
Defined.

(** ** Persistence: one file *)

Section OneFile.
Import Py directories.
Context {codecs : Serializers}.

Lemma save_json_load_json (self : t) (x : PyObj) (filename : string) (w w1 : world) :
  save_json self x filename w = (Ok tt, w1) ->
  exists s, json_dumps x = Ok s
    /\ load_json self filename w1
       = (match json_loads s with Ok v => Ok (Some v) | Raise e => Raise e end, w1).
Proof.
  unfold save_json. intros H.
  apply (dump_then_load _ _ json_loads) in H as (s & E & X & L).
  exists s. split; [exact E|].
  unfold load_json, bind, os.path_exists, gets. rewrite X, L.
  now destruct (json_loads s).
Qed.

Lemma save_pickle_load_pickle (self : t) (x : PyObj) (filename : string)
    (w w1 : world) :
  save_pickle self x filename w = (Ok tt, w1) ->
  exists s, pickle_dumps x = Ok s
    /\ load_pickle self filename w1
       = (match pickle_loads s with Ok v => Ok (Some v) | Raise e => Raise e end, w1).
Proof.
  unfold save_pickle. intros H.
  apply (dump_then_load _ _ pickle_loads) in H as (s & E & X & L).
  exists s. split; [exact E|].
  unfold load_pickle, bind, os.path_exists, gets. rewrite X, L.
  now destruct (pickle_loads s).
Qed.

Lemma load_from_printed {A} (p : string) (parse : string -> outcome A)
    (w : world) (o : list string) (r : outcome A) :
  io.load_from p parse w = (r, w) ->
  io.load_from p parse (with_stdout w o) = (r, with_stdout w o).
Proof.
  unfold io.load_from, bind, io.read_file.
  change (os.node_of (with_stdout w o) p) with (os.node_of w p).
  destruct (os.node_of w p) as [e|[st data|st es]]; now intros [= <-].
Qed.

Lemma save_dfs_pickle_load (self : t) (dfs : PyDict.dict DataFrame)
    (filename : string) (w w1 : world) :
  save_dict_of_dfs_pickle self dfs filename w = (Ok tt, w1) ->
  exists s, pickle_dumps_dfs dfs = Ok s
    /\ forall d, pickle_loads_dfs s = Ok d ->
         exists out, load_dict_of_dfs_pickle self filename w1
                     = (Ok (Some d), with_stdout w1 (stdout w1 ++ out)).
Proof.
  unfold save_dict_of_dfs_pickle, bind.
  destruct (io.dump_to _ _ w) as [[[]|e] w0] eqn:D; [|discriminate].
  unfold print. intros [= <-].
  apply (dump_then_load _ _ pickle_loads_dfs) in D as (s & E & X & L).
  exists s. split; [exact E|]. intros d Hd.
  unfold load_dict_of_dfs_pickle, bind, os.path_exists, gets.
  change (os.exists_in (with_stdout w0 ?o) ?p) with (os.exists_in w0 p).
  rewrite X. rewrite (load_from_printed _ _ _ _ _ L), Hd.
  unfold print, ret. eexists. reflexivity.
Qed.

(** Reading every table of a store whose keys are saved names under a
    leading [/]: every entry read is an entry of [dfs]. *)
Lemma hdf_read_all_sub (store : HDFStore) (dfs : PyDict.dict DataFrame)
    (l : list string) :
  PyDict.is_dict dfs ->
  (forall k df, In (k, df) dfs -> hdf_get store ("/" ++ k) = Ok df) ->
  (forall k, In k (PyDict.keys dfs) -> PyStr.strip PyStr.sep k = k) ->
  (forall key, In key l -> exists k, In k (PyDict.keys dfs) /\ key = "/" ++ k) ->
  forall d0 : PyDict.dict DataFrame,
  (forall k v, PyDict.get k d0 = Some v -> PyDict.get k dfs = Some v) ->
  exists d,
    hdf_read_all store l d0 = Ok d
    /\ (forall k v, PyDict.get k d = Some v -> PyDict.get k dfs = Some v)
    /\ (forall k, In k (PyDict.keys d0) -> In k (PyDict.keys d))
    /\ (forall k, In ("/" ++ k) l -> In k (PyDict.keys dfs) -> In k (PyDict.keys d)).
Proof.
  intros Hd Hg Hs. induction l as [|key r IH]; intros Hl d0 Sub.
  - exists d0. simpl. repeat split; auto. intros k [].
  - destruct (Hl key (or_introl eq_refl)) as (k & Ik & ->).
    apply in_map_iff in Ik as ([k' df] & E & Ikd). simpl in E. subst k'.
    cbn [hdf_read_all]. rewrite (Hg k df Ikd).
    assert (St : PyStr.strip PyStr.sep ("/" ++ k) = k).
    { unfold PyStr.strip. simpl. apply Hs. change k with (fst (k, df)).
      now apply in_map. }
    rewrite St.
    destruct (IH (fun key' I => Hl key' (or_intror I)) (PyDict.set k df d0))
      as (d & R & Sub' & Mono & Cov).
    { intros k' v. rewrite get_set.
      destruct (String.eqb_spec k k') as [<-|]; [|apply Sub].
      intros [= <-]. now apply get_In. }
    exists d. split; [exact R|]. split; [exact Sub'|]. split.
    + intros k' I. apply Mono, keys_set. now right.
    + intros k' [E|I] Ik'.
      * assert (k' = k) as -> by (now injection E).
        apply Mono, keys_set. now left.
      * now apply Cov.
Qed.

Lemma save_hdf5_file (self : t) (dfs : PyDict.dict DataFrame)
    (filename : string) (w w1 : world) :
  save_dict_of_dfs_hdf5 self dfs filename w = (Ok tt, w1) ->
  exists store w0 st,
    hdf_put_all hdf_new dfs = (store, None)
    /\ w1 = with_stdout w0 (stdout w0 ++
              ["DataFrames saved to HDF5 file " ++ filename ++ " successfully."])
    /\ os.node_of w0 (posixpath.join (cwd self) filename)
       = inr (FS.File st (hdf_bytes store)).
Proof.
  unfold save_dict_of_dfs_hdf5, bind.
  destruct (io.open_w _ w) as [[[]|e] w0] eqn:O; [|discriminate].
  destruct (hdf_put_all hdf_new dfs) as [store stopped] eqn:P.
  destruct (io.write_file _ (hdf_bytes store) w0) as [[[]|e] w2] eqn:W;
    [|discriminate].
  destruct stopped as [e|]; [discriminate|].
  unfold print. intros [= <-].
  apply write_then_node in W as [N _].
  exists store, w2, (os.new_file_stat w0 (hdf_bytes store)). auto.
Qed.

Lemma save_hdf5_load (self : t) (dfs : PyDict.dict DataFrame)
    (filename : string) (w w1 : world) :
  save_dict_of_dfs_hdf5 self dfs filename w = (Ok tt, w1) ->
  exists store,
    hdf_put_all hdf_new dfs = (store, None)
    /\ (hdf_parse (hdf_bytes store) = Ok store ->
        (forall key, In key (hdf_keys store)
           <-> exists k, In k (PyDict.keys dfs) /\ key = "/" ++ k) ->
        (forall k df, In (k, df) dfs -> hdf_get store ("/" ++ k) = Ok df) ->
        (forall k, In k (PyDict.keys dfs) -> PyStr.strip PyStr.sep k = k) ->
        PyDict.is_dict dfs ->
        exists dfs' out,
          load_dict_of_dfs_hdf5 self filename w1
          = (Ok dfs', with_stdout w1 (stdout w1 ++ out))
          /\ PyDict.equal dfs' dfs).
Proof.
  intros H. apply save_hdf5_file in H as (store & w0 & st & P & -> & N).
  exists store. split; [exact P|]. intros Hp Hk Hg Hs Hd.
  destruct (hdf_read_all_sub store dfs (hdf_keys store) Hd Hg Hs
              (fun key I => proj1 (Hk key) I) [])
    as (d & R & Sub & _ & Cov).
  { intros k v [=]. }
  exists d. eexists. split.
  - unfold load_dict_of_dfs_hdf5, bind.
    rewrite (load_from_printed _ _ _ _ _ (load_from_file _ hdf_parse _ _ _ N)), Hp.
    rewrite R. unfold print, ret. reflexivity.
  - apply sub_cover_equal; [exact Sub|].
    intros k I. apply Cov; [|exact I]. apply Hk. eauto.
Qed.

End OneFile.

(** ** Persistence: the folder of CSV files *)

Section CsvSave.
Import Py directories.
Context {codecs : Serializers}.

Lemma csv_entries_cons (w : world) (k : string) (df : DataFrame)
    (r : PyDict.dict DataFrame) (es : list (string * FS.node)) :
  csv_entries w ((k, df) :: r) es
  = csv_entries w r (FS.set_entry (k ++ ".csv") (io.written w (to_csv df)) es).
Proof. reflexivity. Qed.

(** The loop of [save_dict_of_dfs_csv] succeeds on a folder in which none
    of the file names it writes is a directory, and leaves [csv_entries]. *)
Lemma save_csv_loop_ok (folder : string) (fc : list string) (st : FS.stat)
    (items : PyDict.dict DataFrame) :
  forall (w : world) (es : list (string * FS.node)),
  FS.resolve (root w) (pcwd w) folder = inr fc ->
  FS.get_node (root w) fc = Some (FS.Dir st es) ->
  (forall k, In k (PyDict.keys items) -> FS.valid_name (k ++ ".csv") = true) ->
  (forall k st' es', In k (PyDict.keys items) ->
                     FS.lookup (k ++ ".csv") es <> Some (FS.Dir st' es')) ->
  exists r1,
    save_csv_loop folder items w = (Ok tt, with_root w r1)
    /\ FS.resolve r1 (pcwd w) folder = inr fc
    /\ FS.get_node r1 fc = Some (FS.Dir st (csv_entries w items es))
    /\ FS.extends (root w) r1.
Proof.
  induction items as [|[k df] r IH]; intros w es R G V N.
  - exists (root w). simpl. unfold ret. destruct w. repeat split; auto.
    apply extends_refl.
  - assert (Vk : FS.valid_name (k ++ ".csv") = true) by (apply V; now left).
    destruct (write_in_folder w folder (k ++ ".csv") (to_csv df) fc st es R G Vk)
      as (W & R1 & G1 & X1).
    { intros st' es'. apply N. now left. }
    set (r1 := FS.update_dir (root w) fc
                 (FS.set_entry (k ++ ".csv") (io.written w (to_csv df)))) in *.
    destruct (IH (with_root w r1)
                (FS.set_entry (k ++ ".csv") (io.written w (to_csv df)) es))
      as (r2 & S2 & R2 & G2 & X2).
    + exact R1.
    + exact G1.
    + intros k' I. apply V. now right.
    + intros k' st' es' I. rewrite lookup_set_entry.
      destruct (String.eqb (k ++ ".csv") (k' ++ ".csv")); [discriminate|].
      apply N. now right.
    + exists r2. split; [|split; [exact R2|split]].
      * cbn [save_csv_loop]. unfold bind. rewrite W. exact S2.
      * rewrite csv_entries_cons. exact G2.
      * eapply extends_trans; eauto.
Qed.

Lemma names_set_entry (c k : string) (n : FS.node) (es : list (string * FS.node)) :
  In c (FS.names (FS.set_entry k n es)) <-> c = k \/ In c (FS.names es).
Proof.
  rewrite <- !lookup_In, lookup_set_entry.
  destruct (String.eqb_spec k c) as [->|E].
  - split; [auto|discriminate].
  - split; [auto|]. intros [->|H]; [congruence|exact H].
Qed.

Lemma csv_entries_names (w : world) (items : PyDict.dict DataFrame) :
  forall (es : list (string * FS.node)) (n : string),
  In n (FS.names (csv_entries w items es))
  <-> In n (FS.names es) \/ exists k, In k (PyDict.keys items) /\ n = k ++ ".csv".
Proof.
  induction items as [|[k df] r IH]; intros es n.
  - simpl. split; [auto|]. intros [H|(k & [] & _)]. exact H.
  - rewrite csv_entries_cons, IH, names_set_entry. simpl. split.
    + intros [[->|H]|(k' & I & ->)]; eauto.
    + intros [H|(k' & [<-|I] & ->)]; eauto.
Qed.

Lemma csv_entries_other (w : world) (items : PyDict.dict DataFrame) :
  forall (es : list (string * FS.node)) (n : string),
  (forall k, In k (PyDict.keys items) -> n <> k ++ ".csv") ->
  FS.lookup n (csv_entries w items es) = FS.lookup n es.
Proof.
  induction items as [|[k df] r IH]; intros es n H; [reflexivity|].
  rewrite csv_entries_cons, IH, lookup_set_entry.
  - destruct (String.eqb_spec (k ++ ".csv") n) as [E|]; [|reflexivity].
    exfalso. apply (H k); [now left|congruence].
  - intros k' I. apply H. now right.
Qed.

(** A name written by the loop holds the table of one of the items that
    have that name. *)
Lemma csv_entries_written (w : world) (items : PyDict.dict DataFrame) :
  forall (es : list (string * FS.node)) (n : string),
  (exists k, In k (PyDict.keys items) /\ n = k ++ ".csv") ->
  exists k df, In (k, df) items /\ n = k ++ ".csv"
    /\ FS.lookup n (csv_entries w items es) = Some (io.written w (to_csv df)).
Proof.
  induction items as [|[k df] r IH]; intros es n (k0 & I & E).
  - destruct I.
  - rewrite csv_entries_cons.
    destruct (in_dec string_dec n (map (fun k => k ++ ".csv") (PyDict.keys r)))
      as [Hin|Hnot].
    + apply in_map_iff in Hin as (k' & <- & I').
      destruct (IH (FS.set_entry (k ++ ".csv") (io.written w (to_csv df)) es)
                  (k' ++ ".csv")) as (k1 & df1 & I1 & E1 & L1); [eauto|].
      exists k1, df1. repeat split; auto. now right.
    + assert (n = k ++ ".csv") as ->.
      { destruct I as [<-|I]; [exact E|]. exfalso. apply Hnot.
        apply in_map_iff. exists k0. split; [now rewrite E|exact I]. }
      exists k, df. split; [now left|]. split; [reflexivity|].
      rewrite csv_entries_other, lookup_set_entry, String.eqb_refl; [reflexivity|].
      intros k' I' E'. apply Hnot. apply in_map_iff. eauto.
Qed.

End CsvSave.

Section CsvLoad.
Import Py directories.
Context {codecs : Serializers}.

(** The keys a successful run of the loading loop leaves. *)
Lemma load_csv_loop_keys (folder : string) (names : list string) :
  forall (d d' : PyDict.dict DataFrame) (w w' : world),
  load_csv_loop folder names d w = (Ok d', w') ->
  forall k, In k (PyDict.keys d')
    <-> In k (PyDict.keys d)
        \/ exists name, In name names /\ PyStr.endswith name ".csv" = true
                        /\ k = PyStr.split_first PyStr.dot name.
Proof.
  induction names as [|name r IH]; intros d d' w w' H k.
  - simpl in H. injection H as <- <-. split; [auto|].
    intros [I|(n & [] & _)]. exact I.
  - cbn [load_csv_loop] in H.
    destruct (PyStr.endswith name ".csv") eqn:E.
    + unfold bind in H.
      destruct (io.load_from _ read_csv w) as [[df|e] w0] eqn:L; [|discriminate].
      rewrite (IH _ _ _ _ H k), keys_set. split.
      * intros [[->|I]|(n & I & En & ->)].
        -- right. exists name. split; [now left|auto].
        -- now left.
        -- right. exists n. split; [now right|auto].
      * intros [I|(n & [<-|I] & En & ->)].
        -- left. now right.
        -- left. now left.
        -- right. exists n. auto.
    + rewrite (IH _ _ _ _ H k). split.
      * intros [I|(n & I & En & ->)].
        -- now left.
        -- right. exists n. split; [now right|auto].
      * intros [I|(n & [<-|I] & En & ->)].
        -- now left.
        -- congruence.
        -- right. exists n. auto.
Qed.

(** The loading loop on a folder whose entries are [es], when every entry
    it reads is a file that parses. *)
Lemma load_csv_loop_ok (folder : string) (w : world) (st : FS.stat)
    (es : list (string * FS.node)) (names : list string) :
  os.node_of w folder = inr (FS.Dir st es) ->
  forall d : PyDict.dict DataFrame,
  (forall name, In name names -> PyStr.endswith name ".csv" = true ->
                FS.valid_name name = true /\ csv_table es name <> None) ->
  load_csv_loop folder names d w = (Ok (fold_left (load_step es) names d), w).
Proof.
  intros N. induction names as [|name r IH]; intros d H; [reflexivity|].
  cbn [load_csv_loop fold_left]. unfold load_step at 2.
  destruct (PyStr.endswith name ".csv") eqn:E.
  - destruct (H name (or_introl eq_refl) E) as [V T].
    unfold bind, io.load_from, bind, io.read_file, in_folder.
    unfold os.node_of in *. rewrite (node_at_slash _ _ _ _ _ _ N V).
    unfold csv_table in *.
    destruct (FS.lookup name es) as [[fst' data|]|]; try congruence.
    destruct (read_csv data) as [df|e]; [|congruence].
    apply IH. intros n I. apply H. now right.
  - apply IH. intros n I. apply H. now right.
Qed.

(** The loaded dictionary agrees with [dfs] when every file read holds the
    table [dfs] has under the key the file name gives, and every key of
    [dfs] is given by some file name. *)
Lemma fold_load_equal (es : list (string * FS.node)) (dfs : PyDict.dict DataFrame)
    (names : list string) :
  (forall name, In name names -> PyStr.endswith name ".csv" = true ->
     exists df, csv_table es name = Some df
                /\ PyDict.get (PyStr.split_first PyStr.dot name) dfs = Some df) ->
  (forall k, In k (PyDict.keys dfs) ->
     exists name, In name names /\ PyStr.endswith name ".csv" = true
                  /\ PyStr.split_first PyStr.dot name = k) ->
  PyDict.equal (fold_left (load_step es) names []) dfs.
Proof.
  intros Hval Hcov.
  assert (Sub : forall l d,
            incl l names ->
            (forall k v, PyDict.get k d = Some v -> PyDict.get k dfs = Some v) ->
            forall k v, PyDict.get k (fold_left (load_step es) l d) = Some v ->
                        PyDict.get k dfs = Some v).
  { induction l as [|name r IH]; intros d I Hd; [exact Hd|].
    cbn [fold_left]. apply IH; [intros x Hx; apply I; now right|].
    unfold load_step. destruct (PyStr.endswith name ".csv") eqn:E; [|exact Hd].
    destruct (Hval name (I name (or_introl eq_refl)) E) as (df & -> & G).
    intros k v. rewrite get_set.
    destruct (String.eqb_spec (PyStr.split_first PyStr.dot name) k) as [<-|].
    - now intros [= <-].
    - apply Hd. }
  assert (Cov : forall l d name,
            In name l -> incl l names -> PyStr.endswith name ".csv" = true ->
            In (PyStr.split_first PyStr.dot name)
               (PyDict.keys (fold_left (load_step es) l d))).
  { assert (Mono : forall l d k, In k (PyDict.keys d) ->
                     In k (PyDict.keys (fold_left (load_step es) l d))).
    { induction l as [|n r IH]; intros d k I; [exact I|].
      cbn [fold_left]. apply IH. unfold load_step.
      destruct (PyStr.endswith n ".csv"); [|exact I].
      destruct (csv_table es n); [|exact I].
      apply keys_set. now right. }
    induction l as [|n r IH]; intros d name I Inc E; [destruct I|].
    cbn [fold_left]. destruct I as [->|I].
    - apply Mono. unfold load_step. rewrite E.
      destruct (Hval name (Inc name (or_introl eq_refl)) E) as (df & -> & _).
      apply keys_set. now left.
    - apply IH; auto. intros x Hx. apply Inc. now right. }
  intros k.
  destruct (PyDict.get k (fold_left (load_step es) names [])) as [v|] eqn:G.
  - symmetry. apply (Sub names [] (incl_refl _)) with (k := k) (v := v); auto.
    intros ? ? [=].
  - destruct (PyDict.get k dfs) as [v|] eqn:G'; [|reflexivity].
    exfalso.
    destruct (Hcov k) as (name & I & E & <-).
    { apply get_keys. congruence. }
    pose proof (Cov names [] name I (incl_refl _) E) as C.
    apply get_keys in C. congruence.
Qed.

End CsvLoad.

Section CsvFolderRoundTrip.
Import Py directories.
Context {codecs : Serializers}.

Lemma node_of_inv (w : world) (p : string) (n : FS.node) :
  os.node_of w p = inr n ->
  exists cs, FS.resolve (root w) (pcwd w) p = inr cs
             /\ FS.get_node (root w) cs = Some n.
Proof. apply node_at_inv. Qed.

(** The [.csv] entries of a folder are the files of [dfs]: each is a
    regular file called [<k>.csv] for a name [k] of [dfs]. *)
Lemma own_csv_not_dir (dfs : PyDict.dict DataFrame) (es : list (string * FS.node)) :
  (forall name, In name (FS.names es) -> PyStr.endswith name ".csv" = true ->
     (exists k, In k (PyDict.keys dfs) /\ name = k ++ ".csv")
     /\ exists sf data, FS.lookup name es = Some (FS.File sf data)) ->
  forall k st' es', In k (PyDict.keys dfs) ->
    FS.lookup (k ++ ".csv") es <> Some (FS.Dir st' es').
Proof.
  intros H k st' es' _ L.
  assert (I : In (k ++ ".csv") (FS.names es)) by (apply lookup_In; congruence).
  destruct (H _ I (endswith_app k ".csv")) as (_ & sf & data & L').
  congruence.
Qed.

(** Saving into a folder where no target is a directory: the world after
    the call, and the folder in it. *)
Lemma save_csv_folder (self : t) (dfs : PyDict.dict DataFrame) (folder : string)
    (w : world) (st : FS.stat) (es : list (string * FS.node)) :
  os.node_of w folder = inr (FS.Dir st es) ->
  (forall k st' es', In k (PyDict.keys dfs) ->
     FS.lookup (k ++ ".csv") es <> Some (FS.Dir st' es')) ->
  (forall k, In k (PyDict.keys dfs) -> PyStr.contains "/" k = false) ->
  exists w1,
    save_dict_of_dfs_csv self dfs folder w = (Ok tt, w1)
    /\ os.node_of w1 folder = inr (FS.Dir st (csv_entries w dfs es)).
Proof.
  intros N D P. apply node_of_inv in N as (fc & R & G).
  destruct (save_csv_loop_ok folder fc st dfs w es R G) as (r1 & S & R1 & G1 & _).
  - intros k I. apply valid_csv_name, P, I.
  - exact D.
  - eexists. split.
    + unfold save_dict_of_dfs_csv, bind. rewrite S. unfold print. reflexivity.
    + unfold os.node_of, FS.node_at. simpl root. simpl pcwd. now rewrite R1, G1.
Qed.

(** Every [.csv] name of the folder after the save is a name the save
    wrote, and holds one of the saved tables that have that name. *)
Lemma saved_csv_names (dfs : PyDict.dict DataFrame) (w : world)
    (es : list (string * FS.node)) (name : string) :
  (forall n, In n (FS.names es) -> PyStr.endswith n ".csv" = true ->
     exists k, In k (PyDict.keys dfs) /\ n = k ++ ".csv") ->
  In name (FS.names (csv_entries w dfs es)) ->
  PyStr.endswith name ".csv" = true ->
  exists k df, In (k, df) dfs /\ name = k ++ ".csv"
    /\ FS.lookup name (csv_entries w dfs es) = Some (io.written w (to_csv df)).
Proof.
  intros C I E. apply csv_entries_written.
  apply csv_entries_names in I as [I|Hk]; [now apply C|exact Hk].
Qed.

Lemma load_csv_folder (self : t) (folder : string) (w : world) (st : FS.stat)
    (es : list (string * FS.node)) :
  os.node_of w folder = inr (FS.Dir st es) ->
  (forall name, In name (FS.names es) -> PyStr.endswith name ".csv" = true ->
                FS.valid_name name = true /\ csv_table es name <> None) ->
  exists out,
    load_dict_of_dfs_csv self folder w
    = (Ok (fold_left (load_step es) (FS.names es) []),
       with_stdout w (stdout w ++ out)).
Proof.
  intros N H. unfold load_dict_of_dfs_csv, bind, os.listdir, os.listdir_in.
  rewrite N, (load_csv_loop_ok folder w st es (FS.names es) N [] H).
  unfold print, ret. eexists. reflexivity.
Qed.

Lemma load_csv_keys (self : t) (folder : string) (w w' : world)
    (dfs' : PyDict.dict DataFrame) :
  load_dict_of_dfs_csv self folder w = (Ok dfs', w') ->
  exists listing,
    os.listdir_in w folder = Ok listing
    /\ forall k, In k (PyDict.keys dfs')
         <-> exists name, In name listing /\ PyStr.endswith name ".csv" = true
                          /\ k = PyStr.split_first PyStr.dot name.
Proof.
  unfold load_dict_of_dfs_csv, bind, os.listdir.
  destruct (os.listdir_in w folder) as [listing|e]; [|discriminate].
  destruct (load_csv_loop folder listing [] w) as [[d|e] w0] eqn:L; [|discriminate].
  unfold print, ret. intros [= <- <-].
  exists listing. split; [reflexivity|]. intros k.
  rewrite (load_csv_loop_keys folder listing [] d w w0 L k). simpl. tauto.
Qed.

Lemma written_table (w : world) (es : list (string * FS.node)) (name : string)
    (df df' : DataFrame) :
  FS.lookup name es = Some (io.written w (to_csv df)) ->
  read_csv (to_csv df) = Ok df' ->
  csv_table es name = Some df'.
Proof. intros L R. unfold csv_table. rewrite L. simpl. now rewrite R. Qed.

(** Saving, then loading from the same folder. *)
Lemma save_csv_then_load (self : t) (dfs : PyDict.dict DataFrame) (folder : string)
    (w : world) (st : FS.stat) (es : list (string * FS.node)) :
  os.node_of w folder = inr (FS.Dir st es) ->
  (forall name, In name (FS.names es) -> PyStr.endswith name ".csv" = true ->
     (exists k, In k (PyDict.keys dfs) /\ name = k ++ ".csv")
     /\ exists sf data, FS.lookup name es = Some (FS.File sf data)) ->
  (forall k, In k (PyDict.keys dfs) -> PyStr.contains "/" k = false) ->
  (forall k df, In (k, df) dfs -> exists df', read_csv (to_csv df) = Ok df') ->
  exists w1 out,
    save_dict_of_dfs_csv self dfs folder w = (Ok tt, w1)
    /\ os.node_of w1 folder = inr (FS.Dir st (csv_entries w dfs es))
    /\ load_dict_of_dfs_csv self folder w1
       = (Ok (fold_left (load_step (csv_entries w dfs es))
                (FS.names (csv_entries w dfs es)) []),
          with_stdout w1 (stdout w1 ++ out)).
Proof.
  intros N C P Rd.
  assert (C' : forall n, In n (FS.names es) -> PyStr.endswith n ".csv" = true ->
                 exists k, In k (PyDict.keys dfs) /\ n = k ++ ".csv").
  { intros n I E. now destruct (C n I E). }
  destruct (save_csv_folder self dfs folder w st es N (own_csv_not_dir dfs es C) P)
    as (w1 & S & N1).
  destruct (load_csv_folder self folder w1 st (csv_entries w dfs es) N1)
    as [out L].
  - intros name I E.
    destruct (saved_csv_names dfs w es name C' I E) as (k & df & Ikd & -> & Lk).
    split.
    + apply valid_csv_name, P. change k with (fst (k, df)). now apply in_map.
    + destruct (Rd k df Ikd) as [df' R'].
      rewrite (written_table _ _ _ _ _ Lk R'). discriminate.
  - exists w1, out. auto.
Qed.

Lemma In_keys {V} (k : string) (v : V) (d : PyDict.dict V) :
  In (k, v) d -> In k (PyDict.keys d).
Proof. intros I. change k with (fst (k, v)). now apply in_map. Qed.

End CsvFolderRoundTrip.

(** ** Persistence: saving, then loading *)

Section RoundTrips.
Import Py directories.
Context {codecs : Serializers}.

(** C10 (as amended).  [load_dict_of_dfs_csv] takes the entries of the
    folder whose names end in [.csv], and no others, and files each table
    under the part of its file name before the first [.]: the keys of a
    dictionary it returns are those parts, and it does return when every
    such entry is a file that parses.  After [save_dict_of_dfs_csv] of
    names free of [/] the keys loaded are the names saved, each cut at its
    first [.], together with a key for every [.csv] entry the folder held
    before; so they are the names saved, cut, when the folder held no
    [.csv] entry but regular files called after saved names. *)
Theorem load_dict_of_dfs_csv_keys (self : t) (folder : string) (w : world) :
  (forall dfs' w',
      load_dict_of_dfs_csv self folder w = (Ok dfs', w') ->
      exists listing,
        os.listdir_in w folder = Ok listing
        /\ forall k, In k (PyDict.keys dfs')
             <-> exists name, In name listing /\ PyStr.endswith name ".csv" = true
                              /\ k = PyStr.split_first PyStr.dot name)
  /\ (forall st es,
        FS.wf (root w) ->
        os.node_of w folder = inr (FS.Dir st es) ->
        (forall name, In name (FS.names es) -> PyStr.endswith name ".csv" = true ->
                      csv_table es name <> None) ->
        exists out,
          load_dict_of_dfs_csv self folder w
          = (Ok (fold_left (load_step es) (FS.names es) []),
             with_stdout w (stdout w ++ out)))
  /\ (forall s, exists rest,
        s = PyStr.split_first PyStr.dot s ++ rest
        /\ PyStr.contains "." (PyStr.split_first PyStr.dot s) = false
        /\ (rest = "" \/ exists t, rest = String PyStr.dot t))
  /\ (forall dfs st es,
        os.node_of w folder = inr (FS.Dir st es) ->
        (forall k st' es', In k (PyDict.keys dfs) ->
           FS.lookup (k ++ ".csv") es <> Some (FS.Dir st' es')) ->
        (forall k, In k (PyDict.keys dfs) -> PyStr.contains "/" k = false) ->
        exists w1,
          save_dict_of_dfs_csv self dfs folder w = (Ok tt, w1)
          /\ forall dfs' w2,
               load_dict_of_dfs_csv self folder w1 = (Ok dfs', w2) ->
               forall k, In k (PyDict.keys dfs')
                 <-> (exists name, In name (PyDict.keys dfs)
                                   /\ k = PyStr.split_first PyStr.dot name)
                     \/ (exists name, In name (FS.names es)
                                      /\ PyStr.endswith name ".csv" = true
                                      /\ k = PyStr.split_first PyStr.dot name))
  /\ (forall dfs st es,
        os.node_of w folder = inr (FS.Dir st es) ->
        (forall name, In name (FS.names es) -> PyStr.endswith name ".csv" = true ->
           (exists k, In k (PyDict.keys dfs) /\ name = k ++ ".csv")
           /\ exists sf data, FS.lookup name es = Some (FS.File sf data)) ->
        (forall k, In k (PyDict.keys dfs) -> PyStr.contains "/" k = false) ->
        (forall k df, In (k, df) dfs -> exists df', read_csv (to_csv df) = Ok df') ->
        exists w1 dfs' w2,
          save_dict_of_dfs_csv self dfs folder w = (Ok tt, w1)
          /\ load_dict_of_dfs_csv self folder w1 = (Ok dfs', w2)
          /\ forall k, In k (PyDict.keys dfs')
               <-> exists name, In name (PyDict.keys dfs)
                                /\ k = PyStr.split_first PyStr.dot name).
Proof.
  split; [|split; [|split; [|split]]].
  - intros dfs' w'. apply load_csv_keys.
  - intros st es W N H. apply (load_csv_folder self folder w st es N).
    intros name I E. split; [|now apply H].
    eapply wf_entries_valid; [|exact I].
    eapply wf_node_at; eauto.
  - intros s. apply split_first_before.
  - intros dfs st es N D P.
    destruct (save_csv_folder self dfs folder w st es N D P) as (w1 & S & N1).
    exists w1. split; [exact S|]. intros dfs' w2 L.
    destruct (load_csv_keys self folder w1 _ _ L) as (listing & Hl & Hk).
    unfold os.listdir_in in Hl. rewrite N1 in Hl. injection Hl as <-.
    intros k. rewrite Hk. split.
    + intros (name & I & E & ->).
      apply csv_entries_names in I as [I|(k0 & I & ->)].
      * right. now exists name.
      * left. exists k0. split; [exact I|apply split_first_csv].
    + intros [(k0 & I & ->)|(name & I & E & ->)].
      * exists (k0 ++ ".csv"). split; [|split].
        -- apply csv_entries_names. right. eauto.
        -- apply endswith_app.
        -- symmetry. apply split_first_csv.
      * exists name. split; [|split; [exact E|reflexivity]].
        apply csv_entries_names. now left.
  - intros dfs st es N C P Rd.
    destruct (save_csv_then_load self dfs folder w st es N C P Rd)
      as (w1 & out & S & N1 & L).
    eexists w1, _, _. split; [exact S|]. split; [exact L|].
    destruct (load_csv_keys self folder w1 _ _ L) as (listing & Hl & Hk).
    unfold os.listdir_in in Hl. rewrite N1 in Hl. injection Hl as <-.
    intros k. rewrite Hk. split.
    + intros (name & I & E & ->).
      destruct (saved_csv_names dfs w es name) as (k0 & df & Ikd & -> & _);
        [intros n In' En; now destruct (C n In' En)|exact I|exact E|].
      exists k0. split; [eapply In_keys; eauto|apply split_first_csv].
    + intros (k0 & I & ->). exists (k0 ++ ".csv").
      split; [|split].
      * apply csv_entries_names. right. eauto.
      * apply endswith_app.
      * symmetry. apply split_first_csv.
Qed.

(** X29.  Loading right after a successful save under the same name returns
    the saved value whenever the serializer reads back what it wrote for
    that value: for [save_json]/[load_json], for
    [save_pickle]/[load_pickle] and for the pickled collection; for the
    HDF5 collection when, besides, no name begins or ends with [/]; for the
    CSV folder when, besides, the folder holds no other [.csv] entry, the
    files an earlier save of the same names left being allowed, and no
    name contains [.] or [/]. *)
Theorem save_then_load_round_trip (self : t) (w : world) :
  (forall x filename w1,
      save_json self x filename w = (Ok tt, w1) ->
      (forall s, json_dumps x = Ok s -> json_loads s = Ok x) ->
      load_json self filename w1 = (Ok (Some x), w1))
  /\ (forall x filename w1,
        save_pickle self x filename w = (Ok tt, w1) ->
        (forall s, pickle_dumps x = Ok s -> pickle_loads s = Ok x) ->
        load_pickle self filename w1 = (Ok (Some x), w1))
  /\ (forall dfs filename w1,
        save_dict_of_dfs_pickle self dfs filename w = (Ok tt, w1) ->
        (forall s, pickle_dumps_dfs dfs = Ok s -> pickle_loads_dfs s = Ok dfs) ->
        exists out,
          load_dict_of_dfs_pickle self filename w1
          = (Ok (Some dfs), with_stdout w1 (stdout w1 ++ out)))
  /\ (forall dfs filename w1,
        save_dict_of_dfs_hdf5 self dfs filename w = (Ok tt, w1) ->
        (forall store, hdf_put_all hdf_new dfs = (store, None) ->
           hdf_parse (hdf_bytes store) = Ok store
           /\ (forall key, In key (hdf_keys store)
                 <-> exists k, In k (PyDict.keys dfs) /\ key = "/" ++ k)
           /\ forall k df, In (k, df) dfs -> hdf_get store ("/" ++ k) = Ok df) ->
        (forall k, In k (PyDict.keys dfs) -> PyStr.strip PyStr.sep k = k) ->
        PyDict.is_dict dfs ->
        exists dfs' out,
          load_dict_of_dfs_hdf5 self filename w1
          = (Ok dfs', with_stdout w1 (stdout w1 ++ out))
          /\ PyDict.equal dfs' dfs)
  /\ (forall dfs folder st es,
        os.node_of w folder = inr (FS.Dir st es) ->
        (forall name, In name (FS.names es) -> PyStr.endswith name ".csv" = true ->
           (exists k, In k (PyDict.keys dfs) /\ name = k ++ ".csv")
           /\ exists sf data, FS.lookup name es = Some (FS.File sf data)) ->
        (forall k, In k (PyDict.keys dfs) ->
           PyStr.contains "/" k = false /\ PyStr.contains "." k = false) ->
        PyDict.is_dict dfs ->
        (forall k df, In (k, df) dfs -> read_csv (to_csv df) = Ok df) ->
        exists w1 dfs' w2,
          save_dict_of_dfs_csv self dfs folder w = (Ok tt, w1)
          /\ load_dict_of_dfs_csv self folder w1 = (Ok dfs', w2)
          /\ PyDict.equal dfs' dfs).
Proof.
  split; [|split; [|split; [|split]]].
  - intros x filename w1 S Law.
    apply save_json_load_json in S as (s & D & ->). now rewrite (Law s D).
  - intros x filename w1 S Law.
    apply save_pickle_load_pickle in S as (s & D & ->). now rewrite (Law s D).
  - intros dfs filename w1 S Law.
    apply save_dfs_pickle_load in S as (s & D & L). apply L, Law, D.
  - intros dfs filename w1 S Law Hs Hd.
    apply save_hdf5_load in S as (store & P & L).
    destruct (Law store P) as (Hp & Hk & Hg). exact (L Hp Hk Hg Hs Hd).
  - intros dfs folder st es N C P Hd Rd.
    destruct (save_csv_then_load self dfs folder w st es N C)
      as (w1 & out & S & _ & L).
    + intros k I. apply P, I.
    + intros k df I. exists df. exact (Rd k df I).
    + eexists w1, _, _. split; [exact S|]. split; [exact L|].
      apply fold_load_equal.
      * intros name I E.
        destruct (saved_csv_names dfs w es name) as (k & df & Ikd & -> & Lk);
          [intros n In' En; now destruct (C n In' En)|exact I|exact E|].
        exists df. split.
        -- apply (written_table _ _ _ _ _ Lk). exact (Rd k df Ikd).
        -- rewrite split_first_csv, split_first_plain.
           ++ now apply get_In.
           ++ apply P. eapply In_keys; eauto.
      * intros k I. exists (k ++ ".csv"). split; [|split].
        -- apply csv_entries_names. right. eauto.
        -- apply endswith_app.
        -- rewrite split_first_csv. apply split_first_plain, P, I.
Qed.

End RoundTrips.

Section RoundTripsOnSamples.
Import Py directories.

Lemma load_dict_of_dfs_csv_keys_witness :
  exists w1 dfs' w2,
    save_dict_of_dfs_csv (codecs:=Sample.text_codecs)
      (Sample.fresh Sample.resave_world) Sample.sample_tables "out"
      Sample.resave_world
    = (Ok tt, w1)
    /\ load_dict_of_dfs_csv (codecs:=Sample.text_codecs)
         (Sample.fresh Sample.resave_world) "out" w1 = (Ok dfs', w2)
    /\ forall k, In k (PyDict.keys dfs')
         <-> exists name, In name (PyDict.keys Sample.sample_tables)
                          /\ k = PyStr.split_first PyStr.dot name.
Proof.
  apply (proj2 (proj2 (proj2 (proj2
           (load_dict_of_dfs_csv_keys (codecs:=Sample.text_codecs)
              (Sample.fresh Sample.resave_world) "out" Sample.resave_world))))
           Sample.sample_tables Sample.dstat
           [("stock.csv", Sample.file "earlier"); ("README", Sample.file "tables")]).
  - reflexivity.
  - intros name [<-|[<-|[]]] E; [|discriminate E].
    split.
    + exists "stock". split; [simpl; auto|reflexivity].
    + eexists. eexists. reflexivity.
  - intros k [<-|[<-|[]]]; reflexivity.
  - intros k df _. exists df. reflexivity.
Defined.

(** C10 as stated fails, in two ways.  A folder that held [old.csv] before
    the save gives the key [old], which is no saved name; and a table
    called [sub/x] is written into the folder [sub], so that the loader
    finds no key for it. *)
Lemma load_dict_of_dfs_csv_keys_beyond_saved :
  (exists w1 w2,
      save_dict_of_dfs_csv (codecs:=Sample.text_codecs)
        (Sample.fresh Sample.old_world) Sample.plain_tables "out" Sample.old_world
      = (Ok tt, w1)
      /\ load_dict_of_dfs_csv (codecs:=Sample.text_codecs)
           (Sample.fresh Sample.old_world) "out" w1
         = (Ok [("old", "0"); ("sales", "a,b"); ("stock", "c")], w2)
      /\ ~ (exists name, In name (PyDict.keys Sample.plain_tables)
                         /\ "old" = PyStr.split_first PyStr.dot name))
  /\ (exists w1 w2,
        save_dict_of_dfs_csv (codecs:=Sample.text_codecs)
          (Sample.fresh Sample.subdir_world) Sample.slash_tables "out"
          Sample.subdir_world
        = (Ok tt, w1)
        /\ load_dict_of_dfs_csv (codecs:=Sample.text_codecs)
             (Sample.fresh Sample.subdir_world) "out" w1
           = (Ok [], w2)
        /\ In "sub/x" (PyDict.keys Sample.slash_tables)
        /\ PyStr.split_first PyStr.dot "sub/x" = "sub/x").
Proof.
  split.
  - eexists. eexists. split; [vm_compute; reflexivity|].
    split; [vm_compute; reflexivity|].
    intros (name & [<-|[<-|[]]] & E); discriminate E.
  - eexists. eexists. split; [vm_compute; reflexivity|].
    split; [vm_compute; reflexivity|].
    split; [simpl; auto|reflexivity].
Qed.

Lemma save_then_load_round_trip_witness :
  (exists w1,
      save_json (codecs:=Sample.text_codecs)
        (Sample.fresh Sample.out_world) "42" "v.json" Sample.out_world = (Ok tt, w1)
      /\ load_json (codecs:=Sample.text_codecs)
           (Sample.fresh Sample.out_world) "v.json" w1 = (Ok (Some "42"), w1))
  /\ (exists w1 dfs' out,
        save_dict_of_dfs_hdf5 (codecs:=Sample.text_codecs)
          (Sample.fresh Sample.out_world) Sample.plain_tables "t.h5" Sample.out_world
        = (Ok tt, w1)
        /\ load_dict_of_dfs_hdf5 (codecs:=Sample.text_codecs)
             (Sample.fresh Sample.out_world) "t.h5" w1
           = (Ok dfs', with_stdout w1 (stdout w1 ++ out))
        /\ PyDict.equal dfs' Sample.plain_tables)
  /\ (exists w1 dfs' w2,
        save_dict_of_dfs_csv (codecs:=Sample.text_codecs)
          (Sample.fresh Sample.resave_world) Sample.plain_tables "out"
          Sample.resave_world
        = (Ok tt, w1)
        /\ load_dict_of_dfs_csv (codecs:=Sample.text_codecs)
             (Sample.fresh Sample.resave_world) "out" w1 = (Ok dfs', w2)
        /\ PyDict.equal dfs' Sample.plain_tables).
Proof.
  pose proof (save_then_load_round_trip (codecs:=Sample.text_codecs)
                (Sample.fresh Sample.out_world) Sample.out_world) as (J & _ & _ & H & _).
  pose proof (save_then_load_round_trip (codecs:=Sample.text_codecs)
                (Sample.fresh Sample.resave_world) Sample.resave_world)
    as (_ & _ & _ & _ & C).
  assert (D : PyDict.is_dict Sample.plain_tables).
  { unfold PyDict.is_dict. simpl.
    repeat (apply NoDup_cons; [simpl; intuition discriminate|]). apply NoDup_nil. }
  split; [|split].
  - eexists. split; [vm_compute; reflexivity|].
    apply J; [vm_compute; reflexivity|].
    intros s [= <-]. reflexivity.
  - eexists.
    destruct (H Sample.plain_tables "t.h5" _ eq_refl) as (dfs' & out & L & E).
    + intros store P. vm_compute in P. injection P as <-.
      split; [reflexivity|]. split.
      * intros key. split.
        -- intros [<-|[<-|[]]]; [exists "sales"|exists "stock"]; simpl; auto.
        -- intros (k & [<-|[<-|[]]] & ->); simpl; auto.
      * intros k df [[= <- <-]|[[= <- <-]|[]]]; reflexivity.
    + intros k [<-|[<-|[]]]; reflexivity.
    + exact D.
    + exists dfs', out. split; [reflexivity|]. split; [exact L|exact E].
  - apply (C Sample.plain_tables "out" Sample.dstat
             [("stock.csv", Sample.file "earlier"); ("README", Sample.file "tables")]).
    + reflexivity.
    + intros name [<-|[<-|[]]] E; [|discriminate E].
      split.
      * exists "stock". split; [simpl; auto|reflexivity].
      * eexists. eexists. reflexivity.
    + intros k [<-|[<-|[]]]; split; reflexivity.
    + exact D.
    + intros k df _. reflexivity.
Defined.

(** C8, at its failing input: a collection with the one name [a.b], saved
    into the folder [out], which holds no [.csv] entry, with a serializer
    that reads back exactly what it wrote, is loaded under the name [a];
    what is loaded is not the collection that was saved. *)
Theorem csv_round_trip_renames_dotted :
  let self := Sample.fresh Sample.out_world in
  let dfs : PyDict.dict string := [("a.b", "x,y")] in
  PyDict.is_dict dfs
  /\ (forall k df, In (k, df) dfs ->
        read_csv (Serializers:=Sample.text_codecs)
          (to_csv (Serializers:=Sample.text_codecs) df) = Ok df)
  /\ exists w1 w2,
       save_dict_of_dfs_csv (codecs:=Sample.text_codecs) self dfs "out"
         Sample.out_world = (Ok tt, w1)
       /\ load_dict_of_dfs_csv (codecs:=Sample.text_codecs) self "out" w1
          = (Ok [("a", "x,y")], w2)
       /\ ~ PyDict.equal [("a", "x,y")] dfs.
Proof.
  cbv zeta. split; [|split].
  - unfold PyDict.is_dict. simpl. apply NoDup_cons; [simpl; tauto|apply NoDup_nil].
  - intros k df _. reflexivity.
  - eexists. eexists. split; [vm_compute; reflexivity|].
    split; [vm_compute; reflexivity|].
    intros E. specialize (E "a"). discriminate.
Qed.

End RoundTripsOnSamples.

(* ===================================================================== *)
(** * Further properties *)
(* ===================================================================== *)

(** ** Paths as strings *)

Section PathAlgebra.
Import PyStr.

Lemma rfind_from_without (c : ascii) (s : string) : forall idx last : Z,
  contains (String c "") s = false -> rfind_from c s idx last = last.
Proof.
  induction s as [|a t IH]; intros idx last H; [reflexivity|].
  rewrite contains_single_cons in H. apply orb_false_iff in H as [Ha Ht].
  simpl. rewrite Ha. now apply IH.
Qed.

Lemma rfind_from_app_sep (c : ascii) (a n : string) : forall idx last : Z,
  rfind_from c (a ++ String c n) idx last
  = rfind_from c n (idx + Z.of_nat (String.length a) + 1)
      (idx + Z.of_nat (String.length a)).
Proof.
  induction a as [|x a IH]; intros idx last.
  - simpl. rewrite Ascii.eqb_refl. now rewrite Z.add_0_r.
  - change (String x a ++ String c n) with (String x (a ++ String c n)).
    cbn [rfind_from]. rewrite IH. cbn [String.length].
    f_equal; lia.
Qed.

Lemma rfind_app_name (a n : string) :
  contains "/" n = false ->
  rfind sep (a ++ String sep n) = Z.of_nat (String.length a).
Proof.
  intros H. unfold rfind. rewrite rfind_from_app_sep.
  now rewrite rfind_from_without.
Qed.

Lemma take_length_app (a s : string) : take (String.length a) (a ++ s) = a.
Proof. induction a as [|x a IH]; simpl; [now destruct s|now rewrite IH]. Qed.

Lemma rstrip_app_sep (c : ascii) (a : string) :
  rstrip c (a ++ String c "") = rstrip c a.
Proof.
  induction a as [|x a IH]; simpl.
  - now rewrite Ascii.eqb_refl.
  - now rewrite IH.
Qed.

Lemma rstrip_ends_other (c x : ascii) (b : string) :
  x <> c -> rstrip c (b ++ String x "") = b ++ String x "".
Proof.
  intros Hx. induction b as [|y b IH]; simpl.
  - apply Ascii.eqb_neq in Hx. now rewrite Hx.
  - rewrite IH. now destruct b.
Qed.

(** A string that is not empty and does not end in [/]. *)
Lemma ends_other (a : string) :
  truthy a = true -> endswith a "/" = false ->
  exists b x, a = b ++ String x "" /\ x <> sep.
Proof.
  induction a as [|y a IH]; [discriminate|]. intros _ He.
  destruct a as [|z a'].
  - exists "", y. split; [reflexivity|]. intros ->. discriminate.
  - destruct IH as (b & x & Hb & Hx); [reflexivity| |].
    + revert He. unfold endswith. cbn [String.length].
      replace (S (S (String.length a')) - 1) with (S (String.length a')) by lia.
      replace (S (String.length a') - 1) with (String.length a') by lia.
      cbn [drop Nat.leb String.length]. auto.
    + exists (String y b), x. split; [|exact Hx]. simpl. now rewrite Hb.
Qed.

Lemma endswith_other (b : string) (x : ascii) :
  x <> sep -> endswith (b ++ String x "") "/" = false.
Proof.
  intros Hx. unfold endswith. rewrite length_app. cbn [String.length].
  replace (String.length b + 1 - 1) with (String.length b) by lia.
  rewrite drop_length_app. apply andb_false_iff. right.
  apply String.eqb_neq. intros [= E]. now apply Hx.
Qed.

Lemma not_all_sep (b : string) (x : ascii) (t : string) (n : nat) :
  x <> sep -> b ++ String x t <> replicate n sep.
Proof.
  intros Hx. revert n. induction b as [|y b IH]; intros [|n]; simpl; try discriminate.
  - congruence.
  - intros [= _ H]. now apply IH in H.
Qed.

(** [split] undoes [join] on a clean folder path and a plain name. *)
Lemma split_join_name (a n : string) :
  contains "/" n = false ->
  a = "/" \/ (truthy a = true /\ endswith a "/" = false) ->
  posixpath.split (posixpath.join a n) = (a, n).
Proof.
  intros Hn Ha.
  assert (Hs : startswith n "/" = false).
  { destruct n as [|y n]; [reflexivity|]. unfold startswith.
    rewrite contains_single_cons in Hn. apply orb_false_iff in Hn as [Hy _].
    now rewrite prefix_single. }
  unfold posixpath.join. rewrite Hs.
  destruct Ha as [->|[Ht He]].
  - change (negb (truthy "/") || endswith "/" "/") with true. cbn [negb orb].
    unfold posixpath.split.
    change ("/" ++ n) with ("" ++ String sep n).
    rewrite rfind_app_name by exact Hn. reflexivity.
  - rewrite Ht, He. cbn [negb orb].
    unfold posixpath.split.
    change (a ++ "/" ++ n) with (a ++ String sep n).
    rewrite rfind_app_name by exact Hn.
    replace (Z.to_nat (Z.of_nat (String.length a) + 1)) with (String.length (a ++ "/"))
      by (rewrite length_app; simpl; lia).
    replace (a ++ String sep n) with ((a ++ "/") ++ n)
      by (now rewrite append_assoc').
    rewrite take_length_app, drop_length_app.
    destruct (ends_other a Ht He) as (b & x & -> & Hx).
    assert (T : truthy ((b ++ String x "") ++ "/") = true) by (now destruct b).
    rewrite T. cbn [andb].
    destruct (String.eqb_spec ((b ++ String x "") ++ "/")
                (replicate (String.length ((b ++ String x "") ++ "/")) sep)) as [E|_].
    + exfalso. rewrite append_assoc' in E. now apply not_all_sep in E.
    + cbn [negb]. change "/" with (String sep "").
      now rewrite rstrip_app_sep, rstrip_ends_other.
Qed.

Lemma dirname_join (a n : string) :
  contains "/" n = false ->
  a = "/" \/ (truthy a = true /\ endswith a "/" = false) ->
  posixpath.dirname (posixpath.join a n) = a.
Proof. intros Hn Ha. unfold posixpath.dirname. now rewrite split_join_name. Qed.

End PathAlgebra.

Section WorkingDirectory.
Import Py FS.

(** The components of a position in a well-formed tree are names. *)
Lemma valid_position (cs : list string) : forall (r n : node),
  wf r -> get_node r cs = Some n -> Forall (fun c => valid_name c = true) cs.
Proof.
  induction cs as [|c cs IH]; intros r n Hw H; [constructor|].
  destruct r as [st data|st es]; [discriminate|].
  cbn [get_node] in H. destruct (lookup c es) as [m|] eqn:L; [|discriminate].
  inversion Hw as [|? ? _ Hall]; subst.
  destruct (wf_lookup c es m Hall L) as [Hv Hm].
  constructor; [exact Hv|]. exact (IH m n Hm H).
Qed.

Lemma join_snoc (pre : list string) (x n : string) :
  PyStr.join "/" ((x :: pre) ++ [n])%list = PyStr.join "/" (x :: pre) ++ "/" ++ n.
Proof.
  revert x. induction pre as [|y pre IH]; intros x; [reflexivity|].
  change (PyStr.join "/" ((x :: y :: pre) ++ [n])%list)
    with (x ++ "/" ++ PyStr.join "/" ((y :: pre) ++ [n])%list).
  rewrite IH.
  change (PyStr.join "/" (x :: y :: pre)) with (x ++ "/" ++ PyStr.join "/" (y :: pre)).
  now rewrite !append_assoc'.
Qed.

Lemma split_joined (cs : list string) :
  Forall (fun c => valid_name c = true) cs -> cs <> [] ->
  PyStr.split PyStr.sep (PyStr.join "/" cs) = cs.
Proof.
  induction cs as [|x cs IH]; intros Hv Hn; [congruence|].
  inversion Hv as [|? ? Hx Hcs]; subst.
  apply valid_name_facts in Hx as (_ & _ & _ & Hx).
  destruct cs as [|y cs].
  - simpl. exact (split_without PyStr.sep x Hx).
  - change (PyStr.join "/" (x :: y :: cs))
      with (x ++ String PyStr.sep (PyStr.join "/" (y :: cs))).
    rewrite split_app_sep, IH by (auto; discriminate).
    now rewrite (split_without PyStr.sep x Hx).
Qed.

(** Walking down from a position, one name at a time. *)
Lemma fold_step_down (r : node) (cs : list string) : forall (pre : list string) (n : node),
  Forall (fun c => valid_name c = true) cs ->
  get_node r (pre ++ cs)%list = Some n ->
  (cs = [] -> True) ->
  fold_left (step r) cs (inr pre) = inr (pre ++ cs)%list.
Proof.
  induction cs as [|c cs IH]; intros pre n Hv H _.
  - now rewrite app_nil_r.
  - inversion Hv as [|? ? Hc Hcs]; subst.
    cbn [fold_left].
    replace (pre ++ c :: cs)%list with ((pre ++ [c]) ++ cs)%list in * by (now rewrite <- app_assoc).
    rewrite get_node_app in H.
    destruct (get_node r (pre ++ [c])%list) as [m|] eqn:G; [|discriminate].
    rewrite get_node_app in G.
    destruct (get_node r pre) as [[st data|st es]|] eqn:P; try discriminate.
    cbn [get_node] in G. destruct (lookup c es) as [m'|] eqn:L; [|discriminate].
    rewrite (step_child r pre st es c P Hc), L.
    apply (IH (pre ++ [c])%list n Hcs); [|auto].
    rewrite get_node_app, get_node_app, P. cbn [get_node]. rewrite L.
    injection G as <-. exact H.
Qed.

(** The path [os.getcwd] returns names the working directory, from
    wherever it is resolved. *)
Lemma getcwd_path_resolves (r : node) (cs cwd : list string) (st : stat)
    (es : list (string * node)) :
  wf r -> get_node r cs = Some (Dir st es) ->
  resolve r cwd ("/" ++ PyStr.join "/" cs) = inr cs.
Proof.
  intros Hw H. pose proof (valid_position cs r _ Hw H) as Hv.
  unfold resolve. change (PyStr.truthy ("/" ++ PyStr.join "/" cs)) with true.
  cbn [negb]. unfold start.
  change (PyStr.startswith ("/" ++ PyStr.join "/" cs) "/")
    with (String.prefix "/" (String PyStr.sep (PyStr.join "/" cs))).
  rewrite prefix_single. change (Ascii.eqb PyStr.sep "/"%char) with true. cbv iota.
  change ("/" ++ PyStr.join "/" cs) with ("" ++ String PyStr.sep (PyStr.join "/" cs)).
  rewrite split_app_sep. cbn [PyStr.split app fold_left].
  assert (R : exists st0 es0, r = Dir st0 es0).
  { destruct r as [s d|s e]; [|eauto]. destruct cs; discriminate. }
  destruct R as (st0 & es0 & ->).
  change (step (Dir st0 es0) (inr []) "") with (@inr errno (list string) []).
  destruct cs as [|c cs].
  - reflexivity.
  - rewrite split_joined by (auto; discriminate).
    exact (fold_step_down _ (c :: cs) [] _ Hv H (fun _ => I)).
Qed.

Lemma last_char_valid (n : string) :
  valid_name n = true -> exists b x, n = b ++ String x "" /\ x <> PyStr.sep.
Proof.
  intros H. apply valid_name_facts in H as (Ht & _ & _ & Hc).
  induction n as [|y n IH]; [discriminate|].
  rewrite contains_single_cons in Hc. apply orb_false_iff in Hc as [Hy Hn].
  destruct n as [|z n'].
  - exists "", y. split; [reflexivity|]. intros ->. discriminate.
  - destruct (IH eq_refl Hn) as (b & x & Hb & Hx).
    exists (String y b), x. split; [|exact Hx]. simpl. now rewrite Hb.
Qed.

(** That path is [/], or does not end in [/]. *)
Lemma getcwd_path_clean (cs : list string) :
  Forall (fun c => valid_name c = true) cs ->
  "/" ++ PyStr.join "/" cs = "/"
  \/ (PyStr.truthy ("/" ++ PyStr.join "/" cs) = true
      /\ PyStr.endswith ("/" ++ PyStr.join "/" cs) "/" = false).
Proof.
  intros Hv. destruct cs as [|c cs]; [now left|]. right. split; [reflexivity|].
  assert (L : exists pre n, c :: cs = (pre ++ [n])%list).
  { destruct (exists_last (l:=c :: cs)) as (pre & n & E); [discriminate|]. eauto. }
  destruct L as (pre & n & E). rewrite E in *.
  apply Forall_app in Hv as [_ Hn]. inversion Hn as [|? ? Hn' _]; subst.
  destruct (last_char_valid n Hn') as (b & x & -> & Hx).
  destruct pre as [|p pre].
  - change ("/" ++ PyStr.join "/" ([] ++ [(b ++ String x "")%string])%list)
      with (("/" ++ b) ++ String x "").
    now apply endswith_other.
  - rewrite join_snoc.
    replace ("/" ++ PyStr.join "/" (p :: pre) ++ "/" ++ b ++ String x "")
      with (("/" ++ PyStr.join "/" (p :: pre) ++ "/" ++ b) ++ String x "").
    + now apply endswith_other.
    + now rewrite !append_assoc'.
Qed.

Lemma getcwd_path_snoc (pre : list string) (n : string) :
  Forall (fun c => valid_name c = true) (pre ++ [n])%list ->
  "/" ++ PyStr.join "/" (pre ++ [n])%list
  = posixpath.join ("/" ++ PyStr.join "/" pre) n.
Proof.
  intros Hv. apply Forall_app in Hv as [Hp Hn]. inversion Hn as [|? ? Hn' _]; subst.
  unfold posixpath.join. rewrite (valid_name_not_abs n Hn').
  destruct (getcwd_path_clean pre Hp) as [E|[Ht He]].
  - rewrite E. destruct pre as [|p pre]; [reflexivity|].
    exfalso. inversion Hp as [|? ? Hp' _]; subst.
    destruct p as [|a p]; [discriminate|]. destruct pre; discriminate.
  - rewrite Ht, He. cbn [negb orb].
    destruct pre as [|p pre]; [discriminate|].
    rewrite join_snoc. now rewrite !append_assoc'.
Qed.

(** The parent of the working directory, as [os.path.dirname] finds it. *)
Lemma dirname_getcwd_path (cs : list string) :
  Forall (fun c => valid_name c = true) cs ->
  posixpath.dirname ("/" ++ PyStr.join "/" cs)
  = "/" ++ PyStr.join "/" (removelast cs).
Proof.
  intros Hv. destruct cs as [|c cs]; [reflexivity|].
  destruct (exists_last (l:=c :: cs)) as (pre & n & E); [discriminate|].
  rewrite E in *. rewrite removelast_last, getcwd_path_snoc by exact Hv.
  apply Forall_app in Hv as [Hp Hn]. inversion Hn as [|? ? Hn' _]; subst.
  apply dirname_join; [|now apply getcwd_path_clean].
  now apply valid_name_facts in Hn'.
Qed.

End WorkingDirectory.

(** ** Construction: [__init__] *)

Section Construction.
Import Py directories.

Lemma get_node_prefix (r : FS.node) (pre : list string) (n : string) (m : FS.node) :
  FS.get_node r (pre ++ [n]) = Some m ->
  exists st es, FS.get_node r pre = Some (FS.Dir st es).
Proof.
  rewrite get_node_app. destruct (FS.get_node r pre) as [[st d|st es]|]; try discriminate.
  eauto.
Qed.

Lemma get_node_removelast (r : FS.node) (cs : list string) (st : FS.stat)
    (es : list (string * FS.node)) :
  FS.get_node r cs = Some (FS.Dir st es) ->
  exists st' es', FS.get_node r (removelast cs) = Some (FS.Dir st' es').
Proof.
  destruct cs as [|c cs]; [eauto|].
  destruct (exists_last (l:=c :: cs)) as (pre & n & ->); [discriminate|].
  rewrite removelast_last. apply get_node_prefix.
Qed.

Lemma listdir_here (w : world) (st : FS.stat) (es : list (string * FS.node)) :
  FS.get_node (root w) (pcwd w) = Some (FS.Dir st es) ->
  os.listdir0 w = (Ok (FS.names es), w).
Proof.
  intros H. unfold os.listdir0, os.listdir, os.listdir_in, os.node_of, FS.node_at.
  change (FS.resolve (root w) (pcwd w) ".")
    with (FS.step (root w) (inr (pcwd w)) ".").
  unfold FS.step. rewrite H. cbn. now rewrite H.
Qed.

(** [__init__], by what the working directory holds. *)
Lemma init_eq (w : world) (st : FS.stat) (es : list (string * FS.node)) :
  FS.get_node (root w) (pcwd w) = Some (FS.Dir st es) ->
  __init__ w
  = (Ok (mk ("/" ++ PyStr.join "/" (pcwd w))
            (posixpath.dirname ("/" ++ PyStr.join "/" (pcwd w)))
            (FS.names es) (env_HOME w)), w).
Proof.
  intros H. unfold __init__, bind, os.getcwd. rewrite H.
  now rewrite (listdir_here w st es H).
Qed.

Lemma init_inv (w : world) (self : t) (w' : world) :
  __init__ w = (Ok self, w') ->
  exists st es,
    FS.get_node (root w) (pcwd w) = Some (FS.Dir st es)
    /\ self = mk ("/" ++ PyStr.join "/" (pcwd w))
                 (posixpath.dirname ("/" ++ PyStr.join "/" (pcwd w)))
                 (FS.names es) (env_HOME w)
    /\ w' = w.
Proof.
  intros Hi.
  destruct (FS.get_node (root w) (pcwd w)) as [[st d|st es]|] eqn:G;
    try (unfold __init__, bind, os.getcwd in Hi; rewrite G in Hi; discriminate).
  exists st, es. rewrite (init_eq w st es G) in Hi. injection Hi as <- <-. auto.
Qed.

(** X1.  [__init__] in a process whose working directory exists: the
    instance mirrors the process.  [cwd] is an absolute path that names the
    working directory, [files] is its listing, [parent_dir] names the
    directory above it, and equals [cwd] only at the root of the file
    system.  Nothing is changed. *)
Theorem init_mirrors_process (w : world) (st : FS.stat)
    (es : list (string * FS.node)) :
  FS.wf (root w) ->
  FS.get_node (root w) (pcwd w) = Some (FS.Dir st es) ->
  exists self,
    __init__ w = (Ok self, w)
    /\ PyStr.startswith (cwd self) "/" = true
    /\ FS.resolve (root w) (pcwd w) (cwd self) = inr (pcwd w)
    /\ os.node_of w (cwd self) = inr (FS.Dir st es)
    /\ files self = FS.names es
    /\ parent_dir self = posixpath.dirname (cwd self)
    /\ FS.resolve (root w) (pcwd w) (parent_dir self) = inr (removelast (pcwd w))
    /\ home_dir self = env_HOME w
    /\ (cwd self = parent_dir self <-> pcwd w = []).
Proof.
  intros Hw H.
  pose proof (valid_position _ _ _ Hw H) as Hv.
  pose proof (getcwd_path_resolves (root w) (pcwd w) (pcwd w) st es Hw H) as R.
  destruct (get_node_removelast _ _ _ _ H) as (st' & es' & H').
  pose proof (getcwd_path_resolves (root w) (removelast (pcwd w)) (pcwd w) st' es' Hw H')
    as R'.
  rewrite <- (dirname_getcwd_path _ Hv) in R'.
  exists (mk ("/" ++ PyStr.join "/" (pcwd w))
             (posixpath.dirname ("/" ++ PyStr.join "/" (pcwd w)))
             (FS.names es) (env_HOME w)).
  cbn [cwd parent_dir files home_dir].
  split; [exact (init_eq w st es H)|].
  split.
  { unfold PyStr.startswith.
    change ("/" ++ PyStr.join "/" (pcwd w)) with (String "/" (PyStr.join "/" (pcwd w))).
    now rewrite prefix_single. }
  split; [exact R|].
  split. { unfold os.node_of, FS.node_at. now rewrite R, H. }
  split; [reflexivity|]. split; [reflexivity|]. split; [exact R'|].
  split; [reflexivity|].
  split.
  - intros E. rewrite <- E in R'. rewrite R in R'. injection R' as R'.
    destruct (pcwd w) as [|c cs]; [reflexivity|].
    exfalso. apply (f_equal (@length string)) in R'.
    destruct (exists_last (l:=c :: cs)) as (pre & n & E'); [discriminate|].
    rewrite E', removelast_last, List.length_app in R'. simpl in R'. lia.
  - intros E. now rewrite E.
Qed.

Lemma init_mirrors_process_witness :
  exists self,
    __init__ Sample.down_world = (Ok self, Sample.down_world)
    /\ PyStr.startswith (cwd self) "/" = true
    /\ FS.resolve (root Sample.down_world) (pcwd Sample.down_world) (cwd self)
       = inr (pcwd Sample.down_world)
    /\ os.node_of Sample.down_world (cwd self)
       = inr (FS.Dir Sample.dstat
                [("a", Sample.dir [("data", Sample.dir [])]);
                 ("n.txt", Sample.file "hi");
                 ("zdata", Sample.dir [])])
    /\ files self = ["a"; "n.txt"; "zdata"]
    /\ parent_dir self = posixpath.dirname (cwd self)
    /\ FS.resolve (root Sample.down_world) (pcwd Sample.down_world) (parent_dir self)
       = inr (removelast (pcwd Sample.down_world))
    /\ home_dir self = env_HOME Sample.down_world
    /\ (cwd self = parent_dir self <-> pcwd Sample.down_world = []).
Proof.
  exact (init_mirrors_process Sample.down_world Sample.dstat _ down_root_wf eq_refl).
Defined.

End Construction.

(** ** Navigation: [find_closest_data_folder] *)

Section DataFolder.
Import Py directories.

Lemma data_loop_sound (fuel : nat) (self : t) : forall (cur : string) (w : world)
    (r : option string) (w' : world),
  find_closest_data_folder_loop fuel self cur w = Some (r, w') ->
  w' = w
  /\ exists k, k < fuel
     /\ (forall j, j < k ->
           ancestor j cur <> parent_dir self
           /\ os.exists_in w (posixpath.join (ancestor j cur) "data") = false)
     /\ match r with
        | Some p => ancestor k cur <> parent_dir self
                    /\ p = posixpath.join (ancestor k cur) "data"
                    /\ os.exists_in w p = true
        | None => ancestor k cur = parent_dir self
        end.
Proof.
  induction fuel as [|f IH]; intros cur w r w' H; [discriminate|].
  cbn [find_closest_data_folder_loop] in H.
  destruct (String.eqb_spec cur (parent_dir self)) as [E|E]; cbn [negb] in H.
  - injection H as <- <-. split; [reflexivity|]. exists 0.
    split; [lia|]. split; [intros j Hj; lia|]. exact E.
  - destruct (os.exists_in w (posixpath.join cur "data")) eqn:X.
    + injection H as <- <-. split; [reflexivity|]. exists 0.
      split; [lia|]. split; [intros j Hj; lia|]. auto.
    + apply IH in H as (-> & k & Hk & Hj & Hr). split; [reflexivity|].
      exists (S k). split; [lia|]. split.
      * intros [|j] Hlt; [auto|]. apply Hj. lia.
      * exact Hr.
Qed.

Lemma data_loop_complete (k : nat) : forall (fuel : nat) (self : t) (cur : string)
    (w : world) (r : option string),
  k < fuel ->
  (forall j, j < k ->
     ancestor j cur <> parent_dir self
     /\ os.exists_in w (posixpath.join (ancestor j cur) "data") = false) ->
  match r with
  | Some p => ancestor k cur <> parent_dir self
              /\ p = posixpath.join (ancestor k cur) "data"
              /\ os.exists_in w p = true
  | None => ancestor k cur = parent_dir self
  end ->
  find_closest_data_folder_loop fuel self cur w = Some (r, w).
Proof.
  induction k as [|k IH]; intros [|f] self cur w r Hk Hj Hr; try lia.
  - cbn [find_closest_data_folder_loop]. cbn [ancestor] in Hr.
    destruct r as [p|].
    + destruct Hr as (Hn & -> & Hx).
      apply String.eqb_neq in Hn. now rewrite Hn, Hx.
    + apply String.eqb_eq in Hr. now rewrite Hr.
  - cbn [find_closest_data_folder_loop].
    destruct (Hj 0) as [Hn Hx]; [lia|]. cbn [ancestor] in Hn, Hx.
    apply String.eqb_neq in Hn. rewrite Hn, Hx. cbn [negb].
    apply IH; [lia| |exact Hr].
    intros j Hlt. apply (Hj (S j)). lia.
Qed.

(** X2.  With [parent_dir] the [dirname] of [cwd], as [__init__] sets
    them, [find_closest_data_folder] looks in [cwd] and nowhere else: it
    returns [cwd/data] when that path exists, be it a directory or a
    regular file, and [None] otherwise; when [cwd] is its own parent (the
    root) it returns [None] without looking.  It changes nothing. *)
Theorem find_closest_data_folder_looks_in_cwd_only (self : t) (w : world)
    (fuel : nat) :
  parent_dir self = posixpath.dirname (cwd self) ->
  2 <= fuel ->
  find_closest_data_folder fuel self w
  = Some (if String.eqb (cwd self) (parent_dir self) then None
          else if os.exists_in w (posixpath.join (cwd self) "data")
               then Some (posixpath.join (cwd self) "data")
               else None,
          w).
Proof.
  intros Hp Hf. destruct fuel as [|[|f]]; try lia.
  unfold find_closest_data_folder. cbn [find_closest_data_folder_loop].
  destruct (String.eqb (cwd self) (parent_dir self)); cbn [negb]; [reflexivity|].
  destruct (os.exists_in w (posixpath.join (cwd self) "data")); [reflexivity|].
  rewrite <- Hp, String.eqb_refl. reflexivity.
Qed.

Lemma find_closest_data_folder_looks_in_cwd_only_witness :
  find_closest_data_folder 2 (Sample.fresh Sample.datafile_world)
    Sample.datafile_world
  = Some (Some "/proj/data", Sample.datafile_world)
  /\ os.isdir_in Sample.datafile_world "/proj/data" = false.
Proof.
  split; [|reflexivity].
  exact (find_closest_data_folder_looks_in_cwd_only
           (Sample.fresh Sample.datafile_world) Sample.datafile_world 2
           eq_refl (le_n 2)).
Defined.

(** X3.  Whatever [parent_dir] holds, [find_closest_data_folder]
    climbs from [cwd] by [dirname] and stops at the first level that
    either is [parent_dir], where it returns [None] without looking for
    [data] there, or has an entry [data], whose path it returns.  It
    changes nothing. *)
Theorem find_closest_data_folder_first_level (self : t) (w : world) (fuel : nat)
    (r : option string) (w' : world) :
  find_closest_data_folder fuel self w = Some (r, w')
  <-> w' = w
      /\ exists k, k < fuel
         /\ (forall j, j < k ->
               ancestor j (cwd self) <> parent_dir self
               /\ os.exists_in w (posixpath.join (ancestor j (cwd self)) "data")
                  = false)
         /\ match r with
            | Some p => ancestor k (cwd self) <> parent_dir self
                        /\ p = posixpath.join (ancestor k (cwd self)) "data"
                        /\ os.exists_in w p = true
            | None => ancestor k (cwd self) = parent_dir self
            end.
Proof.
  split.
  - apply data_loop_sound.
  - intros (-> & k & Hk & Hj & Hr).
    exact (data_loop_complete k fuel self (cwd self) w r Hk Hj Hr).
Qed.

Lemma find_closest_data_folder_first_level_witness :
  snd Sample.shifted = snd Sample.shifted
  /\ exists k, k < 3
     /\ (forall j, j < k ->
           ancestor j (cwd (fst Sample.shifted)) <> parent_dir (fst Sample.shifted)
           /\ os.exists_in (snd Sample.shifted)
                (posixpath.join (ancestor j (cwd (fst Sample.shifted))) "data")
              = false)
     /\ ancestor k (cwd (fst Sample.shifted)) = parent_dir (fst Sample.shifted).
Proof.
  exact (proj1 (find_closest_data_folder_first_level (fst Sample.shifted)
                  (snd Sample.shifted) 3 None (snd Sample.shifted)) eq_refl).
Defined.

End DataFolder.

(** ** Inspection: what [count_items] returns and raises *)

Section CountingBounds.
Import Py directories.

Lemma filter_length_le {A} (f : A -> bool) (l : list A) :
  length (filter f l) <= length l.
Proof. induction l as [|x l IH]; simpl; [lia|]. destruct (f x); simpl; lia. Qed.

(** X4.  [count_items] only reads.  A count it returns lies between [0]
    and the length of the listing of the folder, and is only returned for
    the item types [files] and [directories]; any other item type raises
    [ValueError], before the folder is looked at; the only other exception
    is the [OSError] of [os.listdir].  The [elif] branch can never leave
    [count] unbound. *)
Theorem count_items_reads_only (self : t) (folder_path item_type : string)
    (w : world) :
  snd (count_items self folder_path item_type w) = w
  /\ (forall n, fst (count_items self folder_path item_type w) = Ok n ->
        (item_type = "files" \/ item_type = "directories")
        /\ exists items, os.listdir_in w folder_path = Ok items
                         /\ (0 <= n <= Z.of_nat (length items))%Z)
  /\ (forall e, fst (count_items self folder_path item_type w) = Raise e ->
        (e = ValueError "item_type must be either 'files' or 'directories'"
         /\ item_type <> "files" /\ item_type <> "directories")
        \/ ((item_type = "files" \/ item_type = "directories")
            /\ is_OSError e = true
            /\ os.listdir_in w folder_path = Raise e)).
Proof.
  unfold count_items.
  destruct (String.eqb_spec item_type "files") as [->|Hf].
  - cbn [orb negb]. unfold bind, os.listdir.
    destruct (os.listdir_in w folder_path) as [items|e] eqn:L.
    + rewrite (sum_bools_count _
                 (fun item => os.isfile_in w (posixpath.join folder_path item))
                 items w) by reflexivity.
      cbn [fst snd]. split; [reflexivity|]. split.
      * intros n [= <-]. split; [now left|]. exists items. split; [reflexivity|].
        pose proof (filter_length_le
                      (fun item => os.isfile_in w (posixpath.join folder_path item))
                      items). lia.
      * intros e [=].
    + cbn [fst snd]. split; [reflexivity|]. split; [intros n [=]|].
      intros e' [= <-]. right. split; [now left|]. split; [|reflexivity].
      unfold os.listdir_in in L.
      destruct (os.node_of w folder_path) as [?|[?|?]]; now inversion L.
  - destruct (String.eqb_spec item_type "directories") as [->|Hd].
    + cbn [orb negb]. unfold bind, os.listdir.
      destruct (os.listdir_in w folder_path) as [items|e] eqn:L.
      * change (String.eqb "directories" "files") with false. cbv iota.
        rewrite (sum_bools_count _
                   (fun item => os.isdir_in w (posixpath.join folder_path item))
                   items w) by reflexivity.
        cbn [fst snd]. split; [reflexivity|]. split.
        -- intros n [= <-]. split; [now right|]. exists items. split; [reflexivity|].
           pose proof (filter_length_le
                         (fun item => os.isdir_in w (posixpath.join folder_path item))
                         items). lia.
        -- intros e [=].
      * cbn [fst snd]. split; [reflexivity|]. split; [intros n [=]|].
        intros e' [= <-]. right. split; [now right|]. split; [|reflexivity].
        unfold os.listdir_in in L.
        destruct (os.node_of w folder_path) as [?|[?|?]]; now inversion L.
    + cbn [orb negb]. unfold raise. cbn [fst snd].
      split; [reflexivity|]. split; [intros n [=]|].
      intros e [= <-]. now left.
Qed.

End CountingBounds.

(** ** Navigation: [shift_dir] *)

Section Shifting.
Import Py directories.

Lemma getcwd_here (w : world) (st : FS.stat) (es : list (string * FS.node)) :
  FS.get_node (root w) (pcwd w) = Some (FS.Dir st es) ->
  os.getcwd w = (Ok ("/" ++ PyStr.join "/" (pcwd w)), w).
Proof. intros H. unfold os.getcwd. now rewrite H. Qed.

(** What [shift_dir] does, in terms of the position reached. *)
Lemma shift_dir_eq (self : t) (new_dir : string) (w : world) :
  shift_dir self new_dir w =
  match FS.resolve (root w) (pcwd w) new_dir with
  | inl e => (Raise (OSError e), w)
  | inr cs =>
      match FS.get_node (root w) cs with
      | Some (FS.Dir _ es) =>
          (Ok (mk ("/" ++ PyStr.join "/" cs) (parent_dir self) (FS.names es)
                 (home_dir self)),
           with_pcwd w cs)
      | Some (FS.File _ _) => (Raise (OSError FS.ENOTDIR), w)
      | None => (Raise (OSError FS.ENOENT), w)
      end
  end.
Proof.
  unfold shift_dir, bind, os.chdir.
  destruct (FS.resolve (root w) (pcwd w) new_dir) as [e|cs]; [reflexivity|].
  destruct (FS.get_node (root w) cs) as [[st d|st es]|] eqn:G; try reflexivity.
  rewrite (getcwd_here (with_pcwd w cs) st es G).
  now rewrite (listdir_here (with_pcwd w cs) st es G).
Qed.

(** X5.  [shift_dir] succeeds exactly when [new_dir] names a directory,
    a relative path being taken from the working directory of the process.
    Then the process is in that directory, [cwd] is its absolute path and
    [files] its listing, while [parent_dir] and [home_dir] keep their old
    values; the file system is untouched.  Otherwise an [OSError] is raised
    and the process stays where it was. *)
Theorem shift_dir_moves_or_fails (self : t) (new_dir : string) (w : world) :
  match shift_dir self new_dir w with
  | (Ok self', w') =>
      os.isdir_in w new_dir = true
      /\ FS.resolve (root w) (pcwd w) new_dir = inr (pcwd w')
      /\ root w' = root w
      /\ stdout w' = stdout w
      /\ os.getcwd w' = (Ok (cwd self'), w')
      /\ os.listdir_in w new_dir = Ok (files self')
      /\ os.listdir_in w' "." = Ok (files self')
      /\ parent_dir self' = parent_dir self
      /\ home_dir self' = home_dir self
      /\ (FS.wf (root w) -> os.node_of w' (cwd self') = os.node_of w new_dir)
  | (Raise e, w') =>
      w' = w /\ os.isdir_in w new_dir = false /\ is_OSError e = true
  end.
Proof.
  rewrite shift_dir_eq.
  unfold os.isdir_in, os.listdir_in, os.node_of, FS.node_at.
  destruct (FS.resolve (root w) (pcwd w) new_dir) as [e|cs] eqn:R; [auto|].
  destruct (FS.get_node (root w) cs) as [[st d|st es]|] eqn:G; auto.
  cbn [cwd files parent_dir home_dir root pcwd stdout with_pcwd FS.is_dir].
  repeat (split; [reflexivity|]).
  split. { apply (getcwd_here (with_pcwd w cs) st es G). }
  split; [reflexivity|].
  split.
  { pose proof (listdir_here (with_pcwd w cs) st es G) as L.
    unfold os.listdir0, os.listdir in L. now injection L. }
  repeat (split; [reflexivity|]).
  intros Hw. now rewrite (getcwd_path_resolves (root w) cs cs st es Hw G), G.
Qed.

Lemma position_path_inj (r : FS.node) (a b : list string) (sa sb : FS.stat)
    (ea eb : list (string * FS.node)) :
  FS.wf r ->
  FS.get_node r a = Some (FS.Dir sa ea) ->
  FS.get_node r b = Some (FS.Dir sb eb) ->
  "/" ++ PyStr.join "/" a = "/" ++ PyStr.join "/" b -> a = b.
Proof.
  intros Hw Ha Hb E.
  pose proof (getcwd_path_resolves r a [] sa ea Hw Ha) as Ra.
  pose proof (getcwd_path_resolves r b [] sb eb Hw Hb) as Rb.
  rewrite E in Ra. congruence.
Qed.

(** X6.  After [shift_dir] on an instance fresh from [__init__],
    [parent_dir] is the parent of the new [cwd] only if the new directory
    has the same parent as the old one. *)
Theorem shift_dir_parent_right_iff_sibling (self self' : t) (new_dir : string)
    (w w' : world) :
  FS.wf (root w) ->
  __init__ w = (Ok self, w) ->
  shift_dir self new_dir w = (Ok self', w') ->
  (parent_dir self' = posixpath.dirname (cwd self')
   <-> removelast (pcwd w') = removelast (pcwd w)).
Proof.
  intros Hw Hi Hs.
  destruct (init_inv _ _ _ Hi) as (st & es & G & Hself & _).
  assert (Hp : parent_dir self = posixpath.dirname (cwd self)) by (now rewrite Hself).
  assert (Hc : cwd self = "/" ++ PyStr.join "/" (pcwd w)) by (now rewrite Hself).
  rewrite shift_dir_eq in Hs.
  destruct (FS.resolve (root w) (pcwd w) new_dir) as [e|cs]; [discriminate|].
  destruct (FS.get_node (root w) cs) as [[st1 d|st1 es1]|] eqn:G1; try discriminate.
  injection Hs as <- <-. cbn [parent_dir cwd pcwd with_pcwd].
  rewrite Hp, Hc.
  pose proof (valid_position _ _ _ Hw G) as Hv.
  pose proof (valid_position _ _ _ Hw G1) as Hv1.
  change (String "/" (PyStr.join "/" cs)) with ("/" ++ PyStr.join "/" cs).
  rewrite !dirname_getcwd_path by assumption.
  destruct (get_node_removelast _ _ _ _ G) as (sa & ea & Ga).
  destruct (get_node_removelast _ _ _ _ G1) as (sb & eb & Gb).
  split.
  - intros E. symmetry. exact (position_path_inj _ _ _ _ _ _ _ Hw Ga Gb E).
  - intros E. now rewrite E.
Qed.

Lemma shift_dir_parent_right_iff_sibling_witness :
  exists self' w',
    shift_dir (Sample.fresh Sample.two_world) "/srv/data" Sample.two_world
    = (Ok self', w')
    /\ (parent_dir self' = posixpath.dirname (cwd self')
        <-> removelast (pcwd w') = removelast (pcwd Sample.two_world)).
Proof.
  eexists. eexists. split; [reflexivity|].
  apply (shift_dir_parent_right_iff_sibling (Sample.fresh Sample.two_world) _
           "/srv/data" Sample.two_world).
  - unfold Sample.two_world, Sample.world_of, Sample.two_root. cbn [root]. wf_tree.
  - reflexivity.
  - reflexivity.
Defined.

End Shifting.

(** ** Directories: [construct_dir] *)

Section MakingDirectories.
Import Py FS.

Lemma rstrip_valid (name : string) :
  valid_name name = true -> PyStr.rstrip PyStr.sep name = name.
Proof.
  intros V. destruct (last_char_valid name V) as (b & x & -> & Hx).
  now apply rstrip_ends_other.
Qed.

Lemma split_plain_name (name : string) :
  valid_name name = true -> posixpath.split name = ("", name).
Proof.
  intros V. apply valid_name_facts in V as (_ & _ & _ & C).
  unfold posixpath.split, PyStr.rfind.
  now rewrite (rfind_from_without PyStr.sep name 0 (-1) C).
Qed.

Lemma resolve_parent_name (r : node) (cwd : list string) (name : string)
    (st : stat) (es : list (string * node)) :
  get_node r cwd = Some (Dir st es) ->
  valid_name name = true ->
  resolve_parent r cwd name = inr (cwd, name).
Proof.
  intros G V. pose proof (valid_name_not_abs name V) as A.
  apply valid_name_facts in V as (T & _ & _ & C).
  unfold resolve_parent. rewrite T. cbn [negb].
  rewrite (split_without PyStr.sep name C). cbn [removelast fold_left last].
  unfold start. change (String PyStr.sep "") with "/" in *. now rewrite A, G.
Qed.

(** [os.mkdir] and [os.makedirs] of a plain name, in the working
    directory. *)
Lemma mkdir_name (w : world) (name : string) (st : stat)
    (es : list (string * node)) :
  get_node (root w) (pcwd w) = Some (Dir st es) ->
  valid_name name = true ->
  os.mkdir name w =
  match lookup name es with
  | Some _ => (Raise (OSError EEXIST), w)
  | None =>
      (Ok tt, with_root w (update_dir (root w) (pcwd w) (set_entry name (made w))))
  end.
Proof.
  intros G V. unfold os.mkdir. rewrite (rstrip_valid name V).
  destruct (valid_name_facts name V) as (T & _).
  rewrite T. cbn [negb]. rewrite (resolve_parent_name _ _ _ _ _ G V).
  rewrite (valid_not_special name V).
  rewrite (get_node_child _ _ _ _ name G).
  now destruct (lookup name es).
Qed.

Lemma makedirs_name (w : world) (name : string) :
  valid_name name = true -> os.makedirs name w = os.mkdir name w.
Proof.
  intros V. unfold os.makedirs. cbn [os.makedirs_rec].
  rewrite (split_plain_name name V).
  destruct (valid_name_facts name V) as (T & _). rewrite T. cbn [negb].
  unfold bind, os.path_exists, gets. reflexivity.
Qed.

Lemma set_entry_new (name : string) (n : node) (es : list (string * node)) :
  lookup name es = None -> set_entry name n es = (es ++ [(name, n)])%list.
Proof.
  induction es as [|[k m] es IH]; [reflexivity|]. cbn [lookup set_entry].
  destruct (String.eqb k name); [discriminate|]. intros H. now rewrite IH.
Qed.

Lemma set_entry_last (name : string) (n n' : node) (es : list (string * node)) :
  lookup name es = None ->
  set_entry name n' (es ++ [(name, n)])%list = (es ++ [(name, n')])%list.
Proof.
  induction es as [|[k m] es IH]; cbn [lookup set_entry app].
  - now rewrite String.eqb_refl.
  - destruct (String.eqb k name); [discriminate|]. intros H. now rewrite IH.
Qed.

Lemma names_set_entry_same (c : string) (n m : node) (es : list (string * node)) :
  lookup c es = Some m -> names (set_entry c n es) = names es.
Proof.
  induction es as [|[k x] es IH]; cbn [lookup set_entry]; [discriminate|].
  destruct (String.eqb k c) eqn:E; [reflexivity|].
  intros H. unfold names in *. cbn [map]. now rewrite IH.
Qed.

Lemma lookup_app_new (c name : string) (n : node) (es : list (string * node)) :
  lookup c (es ++ [(name, n)])%list =
  match lookup c es with
  | Some m => Some m
  | None => if String.eqb name c then Some n else None
  end.
Proof.
  induction es as [|[k m] es IH]; cbn [lookup app]; [reflexivity|].
  now destruct (String.eqb k c).
Qed.

(** Updating the entries of a child shows in the parent. *)
Lemma get_node_update_child (f : list (string * node) -> list (string * node))
    (par : list string) (a : string) (sa : stat) (ea : list (string * node)) :
  forall (r : node) (st : stat) (es : list (string * node)),
  get_node r par = Some (Dir st es) ->
  lookup a es = Some (Dir sa ea) ->
  get_node (update_dir r (par ++ [a])%list f) par
  = Some (Dir st (set_entry a (Dir sa (f ea)) es)).
Proof.
  induction par as [|c0 r0 IH]; intros r st es G L.
  - cbn [get_node] in G. injection G as ->. cbn [app update_dir get_node].
    now rewrite L.
  - cbn [get_node] in G. destruct r as [|st0 es0]; [discriminate|].
    destruct (lookup c0 es0) as [m0|] eqn:L0; [|discriminate].
    cbn [app update_dir get_node].
    rewrite L0, lookup_set_entry, String.eqb_refl. now apply IH.
Qed.

Lemma resolve_name (r : node) (cwd : list string) (name : string) (st : stat)
    (es : list (string * node)) :
  get_node r cwd = Some (Dir st es) ->
  valid_name name = true ->
  resolve r cwd name =
  match lookup name es with
  | Some _ => inr (cwd ++ [name])%list
  | None => inl ENOENT
  end.
Proof.
  intros G V. pose proof (valid_name_not_abs name V) as A.
  destruct (valid_name_facts name V) as (T & _ & _ & C).
  unfold resolve. rewrite T. cbn [negb].
  rewrite (split_without PyStr.sep name C). cbn [fold_left].
  unfold start. change (String PyStr.sep "") with "/" in *. rewrite A.
  exact (step_child r cwd st es name G V).
Qed.

Lemma node_of_name (w : world) (name : string) (st : stat)
    (es : list (string * node)) :
  get_node (root w) (pcwd w) = Some (Dir st es) ->
  valid_name name = true ->
  os.node_of w name =
  match lookup name es with Some n => inr n | None => inl ENOENT end.
Proof.
  intros G V. unfold os.node_of, node_at.
  rewrite (resolve_name _ _ _ _ _ G V).
  destruct (lookup name es) as [n|] eqn:L; [|reflexivity].
  now rewrite (get_node_child _ _ _ _ name G), L.
Qed.

Lemma made_extends (r : node) (par : list string) (st : stat)
    (es : list (string * node)) (name : string) (n : node) :
  get_node r par = Some (Dir st es) ->
  lookup name es = None ->
  extends r (update_dir r par (set_entry name n)).
Proof.
  intros G N. eapply update_dir_extends; eauto.
  - intros c Hc. rewrite lookup_set_entry.
    destruct (String.eqb name c); [discriminate|exact Hc].
  - intros c st' es' L. rewrite lookup_set_entry.
    destruct (String.eqb_spec name c) as [->|]; [congruence|exact L].
Qed.

End MakingDirectories.

Section ConstructDir.
Import Py FS directories.

(** What [construct_dir] with a plain name leaves in the tree. *)
Lemma construct_dir_plain_name_tree (self : t) (name : string) (w : world)
    (st : stat) (es : list (string * node)) :
  get_node (root w) (pcwd w) = Some (Dir st es) ->
  valid_name name = true ->
  match lookup name es with
  | Some _ => construct_dir self name w = (Raise (OSError EEXIST), w)
  | None =>
      exists w',
        construct_dir self name w = (Ok tt, w')
        /\ pcwd w' = pcwd w
        /\ stdout w' = stdout w
        /\ get_node (root w') (pcwd w')
           = Some (Dir st (es ++ [(name, made w)])%list)
  end.
Proof.
  intros G V. unfold construct_dir.
  rewrite (makedirs_name w name V), (mkdir_name w name st es G V).
  destruct (lookup name es) as [n|] eqn:L; [reflexivity|].
  eexists. split; [reflexivity|].
  cbn [pcwd stdout root with_root].
  pose proof (get_node_update_dir (set_entry name (made w)) _ _ _ _ G) as G'.
  rewrite (set_entry_new name (made w) es L) in G'.
  split; [reflexivity|]. split; [reflexivity|]. exact G'.
Qed.

Lemma listdir_dot (w : world) (st : stat) (es : list (string * node)) :
  get_node (root w) (pcwd w) = Some (Dir st es) ->
  os.listdir_in w "." = Ok (names es).
Proof.
  intros G. pose proof (listdir_here w st es G) as H.
  unfold os.listdir0, os.listdir in H. now injection H.
Qed.

(** X7.  [construct_dir] with a plain name works in the working directory
    of the process, whatever [self.cwd] says: a name that is taken, by a
    file or by a directory, raises [FileExistsError] and changes nothing;
    a free name becomes an empty directory, which the working directory
    lists besides the names it had, and every other name of the working
    directory keeps what it named. *)
Theorem construct_dir_plain_name (self : t) (name : string) (w : world)
    (st : stat) (es : list (string * node)) :
  get_node (root w) (pcwd w) = Some (Dir st es) ->
  valid_name name = true ->
  match lookup name es with
  | Some _ => construct_dir self name w = (Raise (OSError EEXIST), w)
  | None =>
      exists w',
        construct_dir self name w = (Ok tt, w')
        /\ pcwd w' = pcwd w
        /\ stdout w' = stdout w
        /\ (exists listing,
              os.listdir_in w' "." = Ok listing
              /\ forall c, In c listing <-> In c (names es) \/ c = name)
        /\ os.listdir_in w' name = Ok []
        /\ (forall c, valid_name c = true -> c <> name ->
              os.node_of w' c = os.node_of w c)
  end.
Proof.
  intros G V. pose proof (construct_dir_plain_name_tree self name w st es G V) as H.
  destruct (lookup name es) as [n|] eqn:L; [exact H|].
  destruct H as (w' & Hc & Hp & Ho & G').
  exists w'. split; [exact Hc|]. split; [exact Hp|]. split; [exact Ho|].
  split.
  { eexists. split; [exact (listdir_dot w' _ _ G')|].
    intros c. unfold names. rewrite map_app, in_app_iff. cbn [map fst In].
    intuition congruence. }
  split.
  { unfold os.listdir_in. rewrite (node_of_name w' name _ _ G' V).
    now rewrite lookup_app_new, L, String.eqb_refl. }
  intros c Vc Hc'.
  rewrite (node_of_name w' c _ _ G' Vc), (node_of_name w c _ _ G Vc).
  rewrite lookup_app_new.
  destruct (lookup c es); [reflexivity|].
  assert (E : String.eqb name c = false) by (apply String.eqb_neq; congruence).
  now rewrite E.
Qed.

Lemma construct_dir_plain_name_witness :
  construct_dir (Sample.fresh Sample.down_world) "a" Sample.down_world
  = (Raise (OSError EEXIST), Sample.down_world)
  /\ exists w',
       construct_dir (Sample.fresh Sample.down_world) "new" Sample.down_world
       = (Ok tt, w')
       /\ pcwd w' = pcwd Sample.down_world
       /\ stdout w' = stdout Sample.down_world
       /\ (exists listing,
             os.listdir_in w' "." = Ok listing
             /\ forall c, In c listing <-> In c ["a"; "n.txt"; "zdata"] \/ c = "new")
       /\ os.listdir_in w' "new" = Ok []
       /\ (forall c, valid_name c = true -> c <> "new" ->
             os.node_of w' c = os.node_of Sample.down_world c).
Proof.
  split.
  - exact (construct_dir_plain_name (Sample.fresh Sample.down_world) "a"
             Sample.down_world Sample.dstat _ eq_refl eq_refl).
  - exact (construct_dir_plain_name (Sample.fresh Sample.down_world) "new"
             Sample.down_world Sample.dstat _ eq_refl eq_refl).
Defined.

End ConstructDir.

Section NestedDirectories.
Import Py FS directories.

Lemma valid_clean (a : string) :
  valid_name a = true ->
  PyStr.truthy a = true /\ PyStr.endswith a "/" = false.
Proof.
  intros V. destruct (last_char_valid a V) as (b & x & -> & Hx).
  split; [now destruct b|now apply endswith_other].
Qed.

Lemma join_names (a b : string) :
  valid_name a = true -> valid_name b = true ->
  posixpath.join a b = a ++ "/" ++ b.
Proof.
  intros Va Vb. unfold posixpath.join. rewrite (valid_name_not_abs b Vb).
  destruct (valid_clean a Va) as [T E]. now rewrite T, E.
Qed.

Lemma split_two_names (a b : string) :
  valid_name a = true -> valid_name b = true ->
  posixpath.split (a ++ "/" ++ b) = (a, b).
Proof.
  intros Va Vb. rewrite <- (join_names a b Va Vb).
  apply split_join_name.
  - now apply valid_name_facts in Vb.
  - right. now apply valid_clean.
Qed.

Lemma rstrip_two_names (a b : string) :
  valid_name b = true ->
  PyStr.rstrip PyStr.sep (a ++ "/" ++ b) = a ++ "/" ++ b.
Proof.
  intros Vb. destruct (last_char_valid b Vb) as (b' & x & -> & Hx).
  replace (a ++ "/" ++ b' ++ String x "") with ((a ++ "/" ++ b') ++ String x "")
    by (now rewrite !append_assoc').
  now apply rstrip_ends_other.
Qed.

(** [os.mkdir] of [a/b] where [a] is an entry of the working directory. *)
Lemma mkdir_in_child (w : world) (a b : string) (st : stat)
    (es : list (string * node)) (n : node) :
  get_node (root w) (pcwd w) = Some (Dir st es) ->
  valid_name a = true -> valid_name b = true ->
  lookup a es = Some n ->
  os.mkdir (a ++ "/" ++ b) w =
  match n with
  | File _ _ => (Raise (OSError ENOTDIR), w)
  | Dir sa ea =>
      match lookup b ea with
      | Some _ => (Raise (OSError EEXIST), w)
      | None =>
          (Ok tt,
           with_root w
             (update_dir (root w) (pcwd w ++ [a])%list (set_entry b (made w))))
      end
  end.
Proof.
  intros G Va Vb L. unfold os.mkdir. rewrite (rstrip_two_names a b Vb).
  destruct (valid_clean a Va) as [Ta _].
  rewrite (truthy_app a ("/" ++ b) Ta). cbn [negb].
  pose proof (resolve_name _ _ _ _ _ G Va) as R. rewrite L in R.
  assert (Ga : get_node (root w) (pcwd w ++ [a])%list = Some n).
  { now rewrite (get_node_child _ _ _ _ a G). }
  destruct n as [sf d|sa ea].
  - unfold resolve_parent. rewrite (truthy_app a ("/" ++ b) Ta). cbn [negb].
    change (a ++ "/" ++ b) with (a ++ String PyStr.sep b).
    rewrite split_app_sep.
    rewrite (split_without PyStr.sep b) by (now apply valid_name_facts in Vb).
    rewrite removelast_last.
    apply resolve_truthy in R as [_ F]. unfold start in *.
    change "/" with (String PyStr.sep "") in *.
    rewrite startswith_app by assumption. now rewrite F, Ga.
  - rewrite (resolve_parent_slash _ _ _ _ _ _ _ R Ga Vb).
    rewrite (valid_not_special b Vb).
    rewrite (get_node_child _ _ _ _ b Ga).
    now destruct (lookup b ea).
Qed.

Lemma exists_name (w : world) (name : string) (st : stat)
    (es : list (string * node)) :
  get_node (root w) (pcwd w) = Some (Dir st es) ->
  valid_name name = true ->
  os.exists_in w name = match lookup name es with Some _ => true | None => false end.
Proof.
  intros G V. unfold os.exists_in. rewrite (node_of_name w name st es G V).
  now destruct (lookup name es).
Qed.

(** [os.makedirs] of a path of two names. *)
Lemma makedirs_two_names (w : world) (a b : string) (st : stat)
    (es : list (string * node)) :
  get_node (root w) (pcwd w) = Some (Dir st es) ->
  valid_name a = true -> valid_name b = true ->
  os.makedirs (a ++ "/" ++ b) w =
  match lookup a es with
  | Some _ => os.mkdir (a ++ "/" ++ b) w
  | None =>
      os.mkdir (a ++ "/" ++ b)
        (with_root w (update_dir (root w) (pcwd w) (set_entry a (made w))))
  end.
Proof.
  intros G Va Vb. unfold os.makedirs.
  assert (F : exists f, String.length (a ++ "/" ++ b) = S f).
  { destruct (valid_clean a Va) as [Ta _]. destruct a; [discriminate|].
    cbn. eauto. }
  destruct F as [f ->].
  cbn [os.makedirs_rec]. rewrite (split_two_names a b Va Vb).
  destruct (valid_clean a Va) as [Ta _]. destruct (valid_clean b Vb) as [Tb _].
  rewrite Tb. cbn [negb]. cbv iota beta.
  rewrite (split_plain_name a Va). rewrite Ta. cbn [negb]. cbv iota beta.
  cbn [PyStr.truthy andb].
  unfold bind, os.path_exists, gets, try_except. rewrite Tb. cbn [andb].
  rewrite (exists_name w a st es G Va).
  destruct (lookup a es) as [n|] eqn:L; cbn [negb]; [reflexivity|].
  rewrite (mkdir_name w a st es G Va), L.
  assert (Nb : String.eqb b "." = false).
  { apply String.eqb_neq. now apply valid_name_facts in Vb. }
  now rewrite Nb.
Qed.

(** What [construct_dir] with a path of two names leaves in the tree. *)
Lemma construct_dir_two_levels_tree (self : t) (a b : string) (w : world)
    (st : stat) (es : list (string * node)) :
  get_node (root w) (pcwd w) = Some (Dir st es) ->
  valid_name a = true -> valid_name b = true ->
  match lookup a es with
  | None =>
      exists w',
        construct_dir self (a ++ "/" ++ b) w = (Ok tt, w')
        /\ pcwd w' = pcwd w /\ stdout w' = stdout w
        /\ get_node (root w') (pcwd w)
           = Some (Dir st (es ++ [(a, Dir (os.new_dir_stat w) [(b, made w)])])%list)
  | Some (Dir sa ea) =>
      match lookup b ea with
      | None =>
          exists w',
            construct_dir self (a ++ "/" ++ b) w = (Ok tt, w')
            /\ pcwd w' = pcwd w /\ stdout w' = stdout w
            /\ get_node (root w') (pcwd w)
               = Some (Dir st (set_entry a (Dir sa (ea ++ [(b, made w)])%list) es))
      | Some _ =>
          construct_dir self (a ++ "/" ++ b) w = (Raise (OSError EEXIST), w)
      end
  | Some (File _ _) =>
      construct_dir self (a ++ "/" ++ b) w = (Raise (OSError ENOTDIR), w)
  end.
Proof.
  intros G Va Vb. unfold construct_dir.
  rewrite (makedirs_two_names w a b st es G Va Vb).
  destruct (lookup a es) as [n|] eqn:L.
  - rewrite (mkdir_in_child w a b st es n G Va Vb L).
    destruct n as [sf d|sa ea]; [reflexivity|].
    destruct (lookup b ea) as [m|] eqn:Lb; [reflexivity|].
    eexists. split; [reflexivity|]. cbn [pcwd stdout root with_root].
    split; [reflexivity|]. split; [reflexivity|].
    rewrite (get_node_update_child _ _ a sa ea _ st es G L).
    now rewrite (set_entry_new b (made w) ea Lb).
  - set (w1 := with_root w (update_dir (root w) (pcwd w) (set_entry a (made w)))).
    assert (G1 : get_node (root w1) (pcwd w1)
                 = Some (Dir st (es ++ [(a, made w)])%list)).
    { unfold w1. cbn [root pcwd with_root].
      rewrite (get_node_update_dir _ _ _ _ _ G).
      now rewrite (set_entry_new a (made w) es L). }
    assert (L1 : lookup a (es ++ [(a, made w)])%list = Some (made w)).
    { now rewrite lookup_app_new, L, String.eqb_refl. }
    rewrite (mkdir_in_child w1 a b st _ (made w) G1 Va Vb L1).
    unfold made at 1. cbn [lookup].
    eexists. split; [reflexivity|]. cbn [pcwd stdout root with_root].
    split; [reflexivity|]. split; [reflexivity|].
    change (pcwd w) with (pcwd w1).
    rewrite (get_node_update_child _ _ a (os.new_dir_stat w) [] _ st _ G1 L1).
    cbn [set_entry]. now rewrite (set_entry_last a _ _ es L).
Qed.

(** The listings of the working directory, of [a] and of [a/b], read off
    the entries of the working directory. *)
Lemma listings_two_levels (w : world) (a b : string) (st sa : stat)
    (es ea : list (string * node)) :
  get_node (root w) (pcwd w) = Some (Dir st es) ->
  valid_name a = true -> valid_name b = true ->
  lookup a es = Some (Dir sa ea) ->
  os.listdir_in w "." = Ok (names es)
  /\ os.listdir_in w a = Ok (names ea)
  /\ os.node_of w (a ++ "/" ++ b)
     = match lookup b ea with Some n => inr n | None => inl ENOENT end.
Proof.
  intros G Va Vb L.
  assert (Na : os.node_of w a = inr (Dir sa ea)).
  { now rewrite (node_of_name w a st es G Va), L. }
  split; [now apply (listdir_dot w st es)|].
  split; [unfold os.listdir_in; now rewrite Na|].
  exact (node_at_slash _ _ a b sa ea Na Vb).
Qed.

(** X8.  [construct_dir] with a path of two names [a/b], taken from the
    working directory of the process: when [a] is missing both levels are
    made, the working directory lists [a] besides the names it had, and
    [a] holds [b] alone; when [a] is a directory without [b] only [b] is
    made, which [a] lists besides the names it had; in both cases [a/b]
    is an empty directory.  When [b] is there already [FileExistsError]
    is raised, and [NotADirectoryError] when [a] is a regular file,
    nothing being changed in either case. *)
Theorem construct_dir_two_levels (self : t) (a b : string) (w : world)
    (st : stat) (es : list (string * node)) :
  get_node (root w) (pcwd w) = Some (Dir st es) ->
  valid_name a = true -> valid_name b = true ->
  match lookup a es with
  | None =>
      exists w',
        construct_dir self (a ++ "/" ++ b) w = (Ok tt, w')
        /\ pcwd w' = pcwd w /\ stdout w' = stdout w
        /\ (exists listing,
              os.listdir_in w' "." = Ok listing
              /\ forall c, In c listing <-> In c (names es) \/ c = a)
        /\ os.listdir_in w' a = Ok [b]
        /\ os.listdir_in w' (a ++ "/" ++ b) = Ok []
  | Some (Dir sa ea) =>
      match lookup b ea with
      | None =>
          exists w',
            construct_dir self (a ++ "/" ++ b) w = (Ok tt, w')
            /\ pcwd w' = pcwd w /\ stdout w' = stdout w
            /\ (exists listing,
                  os.listdir_in w' "." = Ok listing
                  /\ forall c, In c listing <-> In c (names es))
            /\ (exists listing,
                  os.listdir_in w' a = Ok listing
                  /\ forall c, In c listing <-> In c (names ea) \/ c = b)
            /\ os.listdir_in w' (a ++ "/" ++ b) = Ok []
      | Some _ =>
          construct_dir self (a ++ "/" ++ b) w = (Raise (OSError EEXIST), w)
      end
  | Some (File _ _) =>
      construct_dir self (a ++ "/" ++ b) w = (Raise (OSError ENOTDIR), w)
  end.
Proof.
  intros G Va Vb.
  pose proof (construct_dir_two_levels_tree self a b w st es G Va Vb) as H.
  destruct (lookup a es) as [[sf d|sa ea]|] eqn:L; [exact H| |].
  - destruct (lookup b ea) as [m|] eqn:Lb; [exact H|].
    destruct H as (w' & Hc & Hp & Ho & G'). rewrite <- Hp in G'.
    exists w'. split; [exact Hc|]. split; [exact Hp|]. split; [exact Ho|].
    assert (La : lookup a (set_entry a (Dir sa (ea ++ [(b, made w)])%list) es)
                 = Some (Dir sa (ea ++ [(b, made w)])%list)).
    { now rewrite lookup_set_entry, String.eqb_refl. }
    destruct (listings_two_levels w' a b _ _ _ _ G' Va Vb La) as (H1 & H2 & H3).
    split.
    { eexists. split; [exact H1|].
      intros c. now rewrite (names_set_entry_same a _ _ es L). }
    split.
    { eexists. split; [exact H2|].
      intros c. unfold names. rewrite map_app, in_app_iff. cbn [map fst In].
      intuition congruence. }
    unfold os.listdir_in. rewrite H3, lookup_app_new, Lb, String.eqb_refl.
    reflexivity.
  - destruct H as (w' & Hc & Hp & Ho & G'). rewrite <- Hp in G'.
    exists w'. split; [exact Hc|]. split; [exact Hp|]. split; [exact Ho|].
    assert (La : lookup a (es ++ [(a, Dir (os.new_dir_stat w) [(b, made w)])])%list
                 = Some (Dir (os.new_dir_stat w) [(b, made w)])).
    { now rewrite lookup_app_new, L, String.eqb_refl. }
    destruct (listings_two_levels w' a b _ _ _ _ G' Va Vb La) as (H1 & H2 & H3).
    split.
    { eexists. split; [exact H1|].
      intros c. unfold names. rewrite map_app, in_app_iff. cbn [map fst In].
      intuition congruence. }
    split; [exact H2|].
    unfold os.listdir_in. rewrite H3. cbn [lookup]. now rewrite String.eqb_refl.
Qed.

Lemma construct_dir_two_levels_witness :
  (exists w',
      construct_dir (Sample.fresh Sample.down_world) "new/sub" Sample.down_world
      = (Ok tt, w')
      /\ pcwd w' = pcwd Sample.down_world /\ stdout w' = stdout Sample.down_world
      /\ (exists listing,
            os.listdir_in w' "." = Ok listing
            /\ forall c, In c listing <-> In c ["a"; "n.txt"; "zdata"] \/ c = "new")
      /\ os.listdir_in w' "new" = Ok ["sub"]
      /\ os.listdir_in w' "new/sub" = Ok [])
  /\ (exists w',
      construct_dir (Sample.fresh Sample.down_world) "a/sub" Sample.down_world
      = (Ok tt, w')
      /\ pcwd w' = pcwd Sample.down_world /\ stdout w' = stdout Sample.down_world
      /\ (exists listing,
            os.listdir_in w' "." = Ok listing
            /\ forall c, In c listing <-> In c ["a"; "n.txt"; "zdata"])
      /\ (exists listing,
            os.listdir_in w' "a" = Ok listing
            /\ forall c, In c listing <-> In c ["data"] \/ c = "sub")
      /\ os.listdir_in w' "a/sub" = Ok [])
  /\ construct_dir (Sample.fresh Sample.down_world) "a/data" Sample.down_world
     = (Raise (OSError EEXIST), Sample.down_world)
  /\ construct_dir (Sample.fresh Sample.down_world) "n.txt/x" Sample.down_world
     = (Raise (OSError ENOTDIR), Sample.down_world).
Proof.
  split; [|split; [|split]].
  - exact (construct_dir_two_levels (Sample.fresh Sample.down_world) "new" "sub"
             Sample.down_world Sample.dstat _ eq_refl eq_refl eq_refl).
  - exact (construct_dir_two_levels (Sample.fresh Sample.down_world) "a" "sub"
             Sample.down_world Sample.dstat _ eq_refl eq_refl eq_refl).
  - exact (construct_dir_two_levels (Sample.fresh Sample.down_world) "a" "data"
             Sample.down_world Sample.dstat _ eq_refl eq_refl eq_refl).
  - exact (construct_dir_two_levels (Sample.fresh Sample.down_world) "n.txt" "x"
             Sample.down_world Sample.dstat _ eq_refl eq_refl eq_refl).
Defined.

End NestedDirectories.

(** ** Directories: [join_path_with_keyword] *)

Section JoinedPaths.
Import Py FS.

Lemma step_error_same (r : node) (cs : list string) (c d : string) (e : errno) :
  step r (inr cs) c = inl e ->
  (String.eqb c "" || String.eqb c "." = true) ->
  step r (inr cs) d = inl e.
Proof.
  unfold step. intros H S.
  destruct (get_node r cs) as [[st x|st es]|]; try exact H.
  now rewrite S in H.
Qed.

(** Resolving [join folder name] is resolving [folder] and taking one more
    step, also when [folder] cannot be resolved. *)
Lemma resolve_join_any (r : node) (cwd : list string) (folder name : string) :
  PyStr.truthy folder = true ->
  valid_name name = true ->
  resolve r cwd (posixpath.join folder name)
  = match resolve r cwd folder with
    | inr cs => step r (inr cs) name
    | inl e => inl e
    end.
Proof.
  intros T V.
  destruct (resolve r cwd folder) as [e|cs] eqn:R;
    [|now apply resolve_join].
  unfold posixpath.join. rewrite (valid_name_not_abs name V), T.
  cbn [negb orb].
  pose proof (valid_name_facts name V) as (_ & _ & _ & C).
  destruct (PyStr.endswith folder "/") eqn:E.
  - apply endswith_sep in E as [a' ->].
    rewrite append_assoc'.
    change ("/" ++ name) with (String PyStr.sep name).
    change (a' ++ "/") with (a' ++ String PyStr.sep "") in R.
    unfold resolve in *.
    rewrite truthy_app_cons in *. cbn [negb] in *. cbv iota in *.
    rewrite split_app_sep in *.
    rewrite (split_without PyStr.sep name C).
    rewrite fold_left_app in *. unfold start in *.
    change "/" with (String PyStr.sep "") in *.
    rewrite (startswith_app_cons a' name "").
    cbn [PyStr.split fold_left] in *.
    destruct (fold_left (step r) (PyStr.split PyStr.sep a')
                (inr (if PyStr.startswith (a' ++ String PyStr.sep "")
                           (String PyStr.sep "") then [] else cwd))) as [e'|cs'].
    + exact R.
    + now apply (step_error_same r cs' "" name e R).
  - unfold resolve in *. rewrite T in R. cbn [negb] in R.
    rewrite truthy_app by assumption. cbn [negb]. cbv iota.
    change (folder ++ "/" ++ name) with (folder ++ String PyStr.sep name).
    rewrite split_app_sep, (split_without PyStr.sep name C).
    rewrite fold_left_app. unfold start in *.
    change "/" with (String PyStr.sep "") in *.
    rewrite startswith_app by assumption. now rewrite R.
Qed.

Lemma truthy_join (folder name : string) :
  PyStr.truthy folder = true -> PyStr.truthy (posixpath.join folder name) = true.
Proof.
  intros T. unfold posixpath.join.
  destruct (PyStr.startswith name "/") eqn:S.
  - destruct name; [discriminate|reflexivity].
  - destruct (negb (PyStr.truthy folder) || PyStr.endswith folder "/");
      now apply truthy_app.
Qed.

Lemma resolve_some_truthy (r : node) (cwd cs : list string) (p : string) :
  resolve r cwd p = inr cs -> PyStr.truthy p = true.
Proof. unfold resolve. now destruct (PyStr.truthy p). Qed.

End JoinedPaths.

Section JoinPathLoop.
Import Py FS directories.

(** One directory made by [construct_dir] in the working directory. *)
Lemma construct_dir_free (self : t) (k : string) (w : world) (st : stat)
    (es : list (string * node)) :
  get_node (root w) (pcwd w) = Some (Dir st es) ->
  valid_name k = true ->
  lookup k es = None ->
  let w1 := with_root w (update_dir (root w) (pcwd w) (set_entry k (made w))) in
  construct_dir self k w = (Ok tt, w1)
  /\ get_node (root w1) (pcwd w) = Some (Dir st (es ++ [(k, made w)]))
  /\ extends (root w) (root w1).
Proof.
  intros G V L w1. unfold construct_dir.
  rewrite (makedirs_name w k V), (mkdir_name w k st es G V), L.
  split; [reflexivity|]. split.
  - unfold w1. cbn [root with_root].
    rewrite (get_node_update_dir _ _ _ _ _ G). now rewrite (set_entry_new k _ es L).
  - exact (made_extends _ _ _ _ _ _ G L).
Qed.

Lemma exists_in_error (w : world) (p : string) (e : errno) :
  resolve (root w) (pcwd w) p = inl e -> os.exists_in w p = false.
Proof. intros R. unfold os.exists_in, os.node_of, node_at. now rewrite R. Qed.

(** Once the path built so far lies below the empty directory [k1], every
    further keyword is made in the working directory and the path never
    comes to exist. *)
Lemma join_path_loop_below_empty (self : t) (base : string) (st : stat) (k1 : string)
    (s1 : stat) (pc : list string) (ks : list string) :
  forall (cur : string) (w : world) (es' : list (string * node)),
  pcwd w = pc ->
  get_node (root w) pc = Some (Dir st es') ->
  lookup k1 es' = Some (Dir s1 []) ->
  resolve (root w) pc base = inr pc ->
  PyStr.truthy cur = true ->
  (forall r', resolve r' pc base = inr pc ->
     (exists es'', get_node r' pc = Some (Dir st es'')
                   /\ lookup k1 es'' = Some (Dir s1 [])) ->
     exists e, resolve r' pc cur = inl e) ->
  Forall (fun k => valid_name k = true) ks ->
  NoDup ks ->
  (forall k, In k ks -> lookup k es' = None) ->
  exists w',
    join_path_loop self cur ks w = (Ok (fold_left posixpath.join ks cur), w')
    /\ get_node (root w') pc
       = Some (Dir st (es' ++ map (fun k => (k, made w)) ks))
    /\ pcwd w' = pc
    /\ stdout w' = stdout w
    /\ os.exists_in w' (fold_left posixpath.join ks cur) = false.
Proof.
  induction ks as [|k rest IH]; intros cur w es' Hpc G L1 Rb T Dead Hv Hnd Hfree.
  - exists w. cbn [join_path_loop fold_left map]. rewrite app_nil_r.
    repeat (split; [first [reflexivity|assumption]|]).
    destruct (Dead (root w) Rb (ex_intro _ es' (conj G L1))) as [e He].
    apply (exists_in_error w cur e). now rewrite Hpc.
  - apply Forall_cons_iff in Hv as [Vk Vrest].
    apply NoDup_cons_iff in Hnd as [Hnotin Hnd'].
    cbn [join_path_loop fold_left].
    destruct (Dead (root w) Rb (ex_intro _ es' (conj G L1))) as [e He].
    assert (X : os.exists_in w (posixpath.join cur k) = false).
    { apply (exists_in_error w _ e). rewrite Hpc.
      rewrite (resolve_join_any _ _ _ _ T Vk). now rewrite He. }
    unfold bind at 1. unfold os.path_exists at 1, gets. rewrite X. cbn [negb].
    rewrite <- Hpc in G.
    destruct (construct_dir_free self k w st es' G Vk (Hfree k (or_introl eq_refl)))
      as (Hc & G1 & Ext).
    unfold bind at 1. rewrite Hc.
    set (w1 := with_root w (update_dir (root w) (pcwd w) (set_entry k (made w)))) in *.
    rewrite Hpc in G1.
    destruct (IH (posixpath.join cur k) w1 (es' ++ [(k, made w)])%list) as (w' & Hl & G' & P' & O' & X').
    + exact Hpc.
    + exact G1.
    + now rewrite lookup_app_new, L1.
    + apply (resolve_extends _ _ _ _ _ Ext). exact Rb.
    + now apply truthy_join.
    + intros r' Rb' Hk1. destruct (Dead r' Rb' Hk1) as [e' He'].
      exists e'. rewrite (resolve_join_any _ _ _ _ T Vk). now rewrite He'.
    + exact Vrest.
    + exact Hnd'.
    + intros k' Hin. rewrite lookup_app_new, (Hfree k' (or_intror Hin)).
      destruct (String.eqb_spec k k') as [->|]; [contradiction|reflexivity].
    + exists w'. split; [exact Hl|]. split.
      { rewrite G'. cbn [map]. rewrite <- app_assoc. reflexivity. }
      split; [exact P'|]. split; [exact O'|]. exact X'.
Qed.

(** What [join_path_with_keyword] leaves in the tree when every keyword is
    a free name of the working directory. *)
Lemma join_path_with_keyword_siblings_tree (self : t) (ks : list string)
    (w : world) (st : stat) (es : list (string * node)) :
  get_node (root w) (pcwd w) = Some (Dir st es) ->
  resolve (root w) (pcwd w) (cwd self) = inr (pcwd w) ->
  Forall (fun k => valid_name k = true) ks ->
  NoDup ks ->
  (forall k, In k ks -> lookup k es = None) ->
  exists w',
    join_path_with_keyword self ks w
    = (Ok (fold_left posixpath.join ks (cwd self)), w')
    /\ get_node (root w') (pcwd w)
       = Some (Dir st (es ++ map (fun k => (k, made w)) ks))
    /\ pcwd w' = pcwd w
    /\ stdout w' = stdout w
    /\ (2 <= length ks ->
        os.exists_in w' (fold_left posixpath.join ks (cwd self)) = false).
Proof.
  intros G Rb Hv Hnd Hfree. unfold join_path_with_keyword.
  pose proof (resolve_some_truthy _ _ _ _ Rb) as Tb.
  destruct ks as [|a ks].
  { exists w. cbn [join_path_loop fold_left map length]. rewrite app_nil_r.
    repeat (split; [first [reflexivity|assumption]|]). lia. }
  apply Forall_cons_iff in Hv as [Va Hv].
  apply NoDup_cons_iff in Hnd as [Na Hnd].
  pose proof (Hfree a (or_introl eq_refl)) as La.
  cbn [join_path_loop fold_left].
  assert (Xa : os.exists_in w (posixpath.join (cwd self) a) = false).
  { unfold os.exists_in, os.node_of, node_at.
    rewrite (resolve_join_any _ _ _ _ Tb Va), Rb.
    now rewrite (step_child _ _ _ _ a G Va), La. }
  unfold bind at 1. unfold os.path_exists at 1, gets. rewrite Xa. cbn [negb].
  destruct (construct_dir_free self a w st es G Va La) as (Hc & G1 & Ext).
  unfold bind at 1. rewrite Hc.
  set (w1 := with_root w (update_dir (root w) (pcwd w) (set_entry a (made w)))) in *.
  assert (Rb1 : resolve (root w1) (pcwd w) (cwd self) = inr (pcwd w)).
  { exact (resolve_extends _ _ _ _ _ Ext Rb). }
  assert (L1 : lookup a (es ++ [(a, made w)])%list = Some (made w)).
  { now rewrite lookup_app_new, La, String.eqb_refl. }
  destruct ks as [|b ks].
  { exists w1. cbn [join_path_loop fold_left map length].
    split; [reflexivity|]. split; [exact G1|].
    split; [reflexivity|]. split; [reflexivity|]. lia. }
  apply Forall_cons_iff in Hv as [Vb Hv].
  apply NoDup_cons_iff in Hnd as [Nb Hnd].
  assert (Hab : a <> b).
  { intros ->. apply Na. now left. }
  pose proof (Hfree b (or_intror (or_introl eq_refl))) as Lb.
  cbn [join_path_loop fold_left].
  assert (Ta : PyStr.truthy (posixpath.join (cwd self) a) = true)
    by (now apply truthy_join).
  assert (Dead : forall r', resolve r' (pcwd w) (cwd self) = inr (pcwd w) ->
            (exists es'', get_node r' (pcwd w) = Some (Dir st es'')
                          /\ lookup a es'' = Some (Dir (os.new_dir_stat w) [])) ->
            exists e, resolve r' (pcwd w)
                        (posixpath.join (posixpath.join (cwd self) a) b) = inl e).
  { intros r' Rb' (es'' & G'' & L'').
    rewrite (resolve_join_any _ _ _ _ Ta Vb).
    rewrite (resolve_join_any _ _ _ _ Tb Va), Rb'.
    rewrite (step_child _ _ _ _ a G'' Va), L''.
    assert (Ga : get_node r' (pcwd w ++ [a])%list = Some (Dir (os.new_dir_stat w) [])).
    { now rewrite (get_node_child _ _ _ _ a G''). }
    rewrite (step_child _ _ _ _ b Ga Vb). cbn [lookup]. eauto. }
  destruct (Dead (root w1) Rb1 (ex_intro _ _ (conj G1 L1))) as [e He].
  assert (Xb : os.exists_in w1 (posixpath.join (posixpath.join (cwd self) a) b)
               = false).
  { exact (exists_in_error w1 _ e He). }
  unfold bind at 1. unfold os.path_exists at 1, gets. rewrite Xb. cbn [negb].
  assert (Lb1 : lookup b (es ++ [(a, made w)])%list = None).
  { rewrite lookup_app_new, Lb. now apply String.eqb_neq in Hab as ->. }
  destruct (construct_dir_free self b w1 st _ G1 Vb Lb1) as (Hc2 & G2 & Ext2).
  unfold bind at 1. rewrite Hc2.
  set (w2 := with_root w1 (update_dir (root w1) (pcwd w1) (set_entry b (made w1)))) in *.
  destruct (join_path_loop_below_empty self (cwd self) st a (os.new_dir_stat w)
              (pcwd w) ks (posixpath.join (posixpath.join (cwd self) a) b) w2
              ((es ++ [(a, made w)]) ++ [(b, made w1)])%list)
    as (w' & Hl & G' & P' & O' & X').
  - reflexivity.
  - exact G2.
  - now rewrite lookup_app_new, L1.
  - exact (resolve_extends _ _ _ _ _ Ext2 Rb1).
  - now apply truthy_join.
  - exact Dead.
  - exact Hv.
  - exact Hnd.
  - intros k Hin. rewrite !lookup_app_new, (Hfree k (or_intror (or_intror Hin))).
    destruct (String.eqb_spec a k) as [->|].
    { exfalso. apply Na. now right. }
    destruct (String.eqb_spec b k) as [->|]; [contradiction|reflexivity].
  - exists w'. split; [exact Hl|]. split.
    { rewrite G'. cbn [map]. rewrite <- !app_assoc. reflexivity. }
    split; [exact P'|]. split; [exact O'|]. intros _. exact X'.
Qed.

Lemma lookup_app (c : string) (es l : list (string * node)) :
  lookup c (es ++ l)%list
  = match lookup c es with Some n => Some n | None => lookup c l end.
Proof.
  induction es as [|[x m] es IH]; cbn [app lookup]; [reflexivity|].
  now destruct (String.eqb x c).
Qed.

Lemma lookup_map_same (c : string) (n : node) (ks : list string) :
  In c ks -> lookup c (map (fun k => (k, n)) ks) = Some n.
Proof.
  induction ks as [|x ks IH]; cbn [In map lookup]; [tauto|].
  intros [->|H]; [now rewrite String.eqb_refl|].
  destruct (String.eqb x c); [reflexivity|now apply IH].
Qed.

(** X9.  [join_path_with_keyword] on an instance whose [cwd] is the
    working directory of the process, with keywords that are distinct plain
    names, none of them an entry of that directory: every keyword becomes
    an empty directory in the working directory itself, side by side,
    instead of one below the other, so that the working directory lists
    the names it had and the keywords; the joined path is returned all the
    same, and with two keywords or more it does not exist. *)
Theorem join_path_with_keyword_makes_siblings (self : t) (ks : list string)
    (w : world) (st : stat) (es : list (string * node)) :
  get_node (root w) (pcwd w) = Some (Dir st es) ->
  resolve (root w) (pcwd w) (cwd self) = inr (pcwd w) ->
  Forall (fun k => valid_name k = true) ks ->
  NoDup ks ->
  (forall k, In k ks -> lookup k es = None) ->
  exists w',
    join_path_with_keyword self ks w
    = (Ok (fold_left posixpath.join ks (cwd self)), w')
    /\ (exists listing,
          os.listdir_in w' "." = Ok listing
          /\ forall c, In c listing <-> In c (names es) \/ In c ks)
    /\ (forall k, In k ks -> os.listdir_in w' k = Ok [])
    /\ pcwd w' = pcwd w
    /\ stdout w' = stdout w
    /\ (2 <= length ks ->
        os.exists_in w' (fold_left posixpath.join ks (cwd self)) = false).
Proof.
  intros G Rb Hv Hnd Hfree.
  destruct (join_path_with_keyword_siblings_tree self ks w st es G Rb Hv Hnd Hfree)
    as (w' & Hj & G' & Hp & Ho & Hx).
  rewrite <- Hp in G'.
  exists w'. split; [exact Hj|]. split.
  { eexists. split; [exact (listdir_dot w' _ _ G')|].
    intros c. unfold names. rewrite map_app, map_map, in_app_iff. cbn [fst].
    now rewrite map_id. }
  split.
  { intros k Hin. unfold os.listdir_in.
    rewrite Forall_forall in Hv.
    rewrite (node_of_name w' k _ _ G' (Hv k Hin)).
    now rewrite lookup_app, (Hfree k Hin), (lookup_map_same k (made w) ks Hin). }
  split; [exact Hp|]. split; [exact Ho|exact Hx].
Qed.

Lemma join_path_with_keyword_makes_siblings_witness :
  exists w',
    join_path_with_keyword (Sample.fresh Sample.empty_world) ["a"; "b"; "c"]
      Sample.empty_world
    = (Ok "/home/u/proj/a/b/c", w')
    /\ (exists listing,
          os.listdir_in w' "." = Ok listing
          /\ forall c, In c listing <-> In c [] \/ In c ["a"; "b"; "c"])
    /\ (forall k, In k ["a"; "b"; "c"] -> os.listdir_in w' k = Ok [])
    /\ pcwd w' = pcwd Sample.empty_world
    /\ stdout w' = stdout Sample.empty_world
    /\ (2 <= 3 -> os.exists_in w' "/home/u/proj/a/b/c" = false).
Proof.
  apply (join_path_with_keyword_makes_siblings (Sample.fresh Sample.empty_world)
           ["a"; "b"; "c"] Sample.empty_world Sample.dstat []).
  - reflexivity.
  - reflexivity.
  - repeat constructor.
  - repeat (apply NoDup_cons; [simpl; intuition discriminate|]). apply NoDup_nil.
  - intros k _. reflexivity.
Defined.

Lemma node_of_in_cwd (self : t) (k : string) (w : world) (st : stat)
    (es : list (string * node)) :
  get_node (root w) (pcwd w) = Some (Dir st es) ->
  resolve (root w) (pcwd w) (cwd self) = inr (pcwd w) ->
  valid_name k = true ->
  os.node_of w (posixpath.join (cwd self) k)
  = match lookup k es with Some n => inr n | None => inl ENOENT end.
Proof.
  intros G Rb V. unfold os.node_of. apply (node_at_join _ _ _ _ st es); [|exact V].
  unfold node_at. now rewrite Rb, G.
Qed.

(** X10.  [join_path_with_keyword] with one keyword, a plain name, on an
    instance whose [cwd] is the working directory of the process: a missing
    name becomes an empty directory there; a name that is taken is left as
    it is, also when it is a regular file, and nothing changes; either way
    the joined path is returned and exists afterwards, and calling again
    returns it again and changes nothing. *)
Theorem join_path_with_keyword_one (self : t) (k : string) (w : world)
    (st : stat) (es : list (string * node)) :
  get_node (root w) (pcwd w) = Some (Dir st es) ->
  resolve (root w) (pcwd w) (cwd self) = inr (pcwd w) ->
  valid_name k = true ->
  exists w',
    join_path_with_keyword self [k] w = (Ok (posixpath.join (cwd self) k), w')
    /\ os.exists_in w' (posixpath.join (cwd self) k) = true
    /\ match lookup k es with
       | Some _ => w' = w
       | None => os.listdir_in w' (posixpath.join (cwd self) k) = Ok []
       end
    /\ join_path_with_keyword self [k] w'
       = (Ok (posixpath.join (cwd self) k), w').
Proof.
  intros G Rb V. unfold join_path_with_keyword. cbn [join_path_loop].
  pose proof (node_of_in_cwd self k w st es G Rb V) as N.
  unfold bind at 1. unfold os.path_exists at 1, gets. unfold os.exists_in at 1.
  rewrite N. destruct (lookup k es) as [n|] eqn:L; cbn [negb].
  - exists w. split; [reflexivity|].
    split; [unfold os.exists_in; now rewrite N|]. split; [reflexivity|].
    unfold bind, os.path_exists, gets, os.exists_in. now rewrite N.
  - destruct (construct_dir_free self k w st es G V L) as (Hc & G1 & Ext).
    unfold bind at 1. rewrite Hc.
    set (w1 := with_root w (update_dir (root w) (pcwd w) (set_entry k (made w)))) in *.
    assert (N1 : os.node_of w1 (posixpath.join (cwd self) k) = inr (made w)).
    { rewrite (node_of_in_cwd self k w1 st _ G1 (resolve_extends _ _ _ _ _ Ext Rb) V).
      now rewrite lookup_app_new, L, String.eqb_refl. }
    exists w1. split; [reflexivity|].
    split; [unfold os.exists_in; now rewrite N1|].
    split; [unfold os.listdir_in; now rewrite N1|].
    unfold bind, os.path_exists, gets, os.exists_in. now rewrite N1.
Qed.

Lemma join_path_with_keyword_one_witness :
  (exists w',
    join_path_with_keyword (Sample.fresh Sample.down_world) ["n.txt"]
      Sample.down_world
    = (Ok "/proj/n.txt", w')
    /\ os.exists_in w' "/proj/n.txt" = true
    /\ w' = Sample.down_world
    /\ join_path_with_keyword (Sample.fresh Sample.down_world) ["n.txt"] w'
       = (Ok "/proj/n.txt", w'))
  /\ (exists w',
    join_path_with_keyword (Sample.fresh Sample.down_world) ["new"]
      Sample.down_world
    = (Ok "/proj/new", w')
    /\ os.exists_in w' "/proj/new" = true
    /\ os.listdir_in w' "/proj/new" = Ok []
    /\ join_path_with_keyword (Sample.fresh Sample.down_world) ["new"] w'
       = (Ok "/proj/new", w')).
Proof.
  split.
  - exact (join_path_with_keyword_one (Sample.fresh Sample.down_world) "n.txt"
             Sample.down_world Sample.dstat _ eq_refl eq_refl eq_refl).
  - exact (join_path_with_keyword_one (Sample.fresh Sample.down_world) "new"
             Sample.down_world Sample.dstat _ eq_refl eq_refl eq_refl).
Defined.

End JoinPathLoop.

(** ** Removal: [del_file] *)

Section KeptDirectories.
Import FS.

(** An update of the entries of one directory that keeps its
    sub-directories keeps every directory of the tree, with the names it
    had, the updated directory apart. *)
Lemma update_dir_dirs (f : list (string * node) -> list (string * node))
    (par : list string) :
  forall (r : node) (st : stat) (es : list (string * node)),
  get_node r par = Some (Dir st es) ->
  (forall c st' es', lookup c es = Some (Dir st' es') ->
                     lookup c (f es) = Some (Dir st' es')) ->
  forall cs st' es',
    get_node r cs = Some (Dir st' es') ->
    exists es'',
      get_node (update_dir r par f) cs = Some (Dir st' es'')
      /\ (cs <> par -> names es'' = names es')
      /\ (cs = par -> es'' = f es').
Proof.
  induction par as [|c0 p0 IH]; intros r st es G D cs st' es' H.
  - cbn [get_node] in G. injection G as ->. cbn [update_dir].
    destruct cs as [|c rest].
    + cbn [get_node] in *. injection H as <- <-. exists (f es).
      split; [reflexivity|]. split; [congruence|reflexivity].
    + cbn [get_node] in *.
      destruct (lookup c es) as [m|] eqn:L; [|discriminate].
      destruct m as [sf d|sm em]; [now apply get_node_file in H|].
      rewrite (D c sm em L). exists es'.
      split; [exact H|]. split; [reflexivity|discriminate].
  - cbn [get_node] in G. destruct r as [|st0 es0]; [discriminate|].
    destruct (lookup c0 es0) as [m0|] eqn:L0; [|discriminate].
    cbn [update_dir]. rewrite L0.
    destruct cs as [|c rest].
    + cbn [get_node] in *. injection H as <- <-.
      eexists. split; [reflexivity|]. split; [|discriminate].
      intros _. now apply (names_set_entry_same c0 _ m0).
    + cbn [get_node] in *. rewrite lookup_set_entry.
      destruct (String.eqb_spec c0 c) as [<-|Hne].
      * rewrite L0 in H.
        destruct (IH m0 st es G D rest st' es' H) as (es'' & G'' & Hn & He).
        exists es''. split; [exact G''|]. split.
        -- intros Hc. apply Hn. congruence.
        -- intros [= ->]. now apply He.
      * destruct (lookup c es0) as [m|]; [|discriminate].
        exists es'. split; [exact H|]. split; [reflexivity|congruence].
Qed.

(** Resolution survives a change of tree that keeps the directories. *)
Lemma fold_step_kept (r r' : node) (start : list string) :
  (forall cs st es, get_node r cs = Some (Dir st es) ->
     exists es', get_node r' cs = Some (Dir st es')) ->
  forall (l : list string) (cs : list string) (st : stat) (es : list (string * node)),
  fold_left (step r) l (inr start) = inr cs ->
  get_node r cs = Some (Dir st es) ->
  fold_left (step r') l (inr start) = inr cs.
Proof.
  intros K l. induction l as [|c l IH] using rev_ind; intros cs st es F G.
  - exact F.
  - rewrite fold_left_app in *. cbn [fold_left] in *.
    destruct (fold_left (step r) l (inr start)) as [e|cs0] eqn:F0; [discriminate|].
    unfold step in F.
    destruct (get_node r cs0) as [[sf d|s0 e0]|] eqn:G0; try discriminate.
    rewrite (IH cs0 s0 e0 eq_refl G0).
    destruct (K cs0 s0 e0 G0) as [e0' G0'].
    unfold step. rewrite G0'.
    destruct (String.eqb c "" || String.eqb c "."); [exact F|].
    destruct (String.eqb c ".."); [exact F|].
    destruct (lookup c e0) as [m|] eqn:L; [|discriminate].
    injection F as <-.
    destruct (K _ _ _ G) as [es' G'].
    rewrite (get_node_child _ _ _ _ c G0') in G'. now rewrite G'.
Qed.

Lemma resolve_kept (r r' : node) (cwd cs : list string) (p : string) (st : stat)
    (es : list (string * node)) :
  (forall cs st es, get_node r cs = Some (Dir st es) ->
     exists es', get_node r' cs = Some (Dir st es')) ->
  resolve r cwd p = inr cs ->
  get_node r cs = Some (Dir st es) ->
  resolve r' cwd p = inr cs.
Proof.
  intros K R G. unfold resolve in *.
  destruct (negb (PyStr.truthy p)); [discriminate|].
  exact (fold_step_kept r r' _ K _ cs st es R G).
Qed.

Lemma lookup_remove_other (c name : string) (es : list (string * node)) :
  c <> name -> lookup c (remove_entry name es) = lookup c es.
Proof.
  intros Hne. induction es as [|[k x] es IH]; [reflexivity|].
  cbn [remove_entry lookup].
  destruct (String.eqb_spec k name) as [->|Hk].
  - assert (E : String.eqb name c = false) by (apply String.eqb_neq; congruence).
    now rewrite E.
  - cbn [lookup]. now rewrite IH.
Qed.

Lemma lookup_remove_same (name : string) (es : list (string * node)) :
  NoDup (names es) -> lookup name (remove_entry name es) = None.
Proof.
  induction es as [|[k x] es IH]; [reflexivity|].
  cbn [names map fst]. intros H. apply NoDup_cons_iff in H as [Hk Hnd].
  cbn [remove_entry].
  destruct (String.eqb_spec k name) as [->|Hne].
  - destruct (lookup name es) as [m|] eqn:L; [|reflexivity].
    exfalso. apply Hk. apply lookup_In. congruence.
  - cbn [lookup]. apply String.eqb_neq in Hne. rewrite Hne. now apply IH.
Qed.

Lemma names_remove_entry (name : string) (es : list (string * node)) :
  NoDup (names es) ->
  names (remove_entry name es) = filter (fun c => negb (String.eqb c name)) (names es).
Proof.
  induction es as [|[k x] es IH]; [reflexivity|].
  cbn [names map fst]. intros H. apply NoDup_cons_iff in H as [Hk Hnd].
  cbn [remove_entry filter].
  destruct (String.eqb_spec k name) as [->|Hne]; cbn [negb].
  - symmetry. apply forallb_filter_id. apply forallb_forall.
    intros c Hc. apply negb_true_iff, String.eqb_neq. intros ->. contradiction.
  - cbn [names map fst]. f_equal. now apply IH.
Qed.

End KeptDirectories.

Section Removing.
Import Py FS.

Lemma not_abs_app_cons (a x : string) (c : ascii) :
  PyStr.startswith (a ++ String c x) "/" = PyStr.startswith (a ++ String c "") "/".
Proof. exact (startswith_app_cons a x "" c PyStr.sep). Qed.

(** The parent of [join folder name] is what [folder] names. *)
Lemma resolve_parent_join (r : node) (cwd fc : list string) (folder name : string)
    (st : stat) (es : list (string * node)) :
  resolve r cwd folder = inr fc ->
  get_node r fc = Some (Dir st es) ->
  valid_name name = true ->
  resolve_parent r cwd (posixpath.join folder name) = inr (fc, name).
Proof.
  intros R G V. unfold posixpath.join.
  rewrite (valid_name_not_abs name V).
  pose proof (resolve_some_truthy _ _ _ _ R) as T. rewrite T. cbn [negb orb].
  destruct (PyStr.endswith folder "/") eqn:E;
    [|exact (resolve_parent_slash _ _ _ _ _ _ _ R G V)].
  apply endswith_sep in E as [a' ->].
  pose proof (valid_name_facts name V) as (_ & _ & _ & C).
  rewrite append_assoc'.
  change ("/" ++ name) with (String PyStr.sep name).
  change (a' ++ "/") with (a' ++ String PyStr.sep "") in R.
  unfold resolve in R. unfold resolve_parent.
  rewrite truthy_app_cons in *. cbn [negb] in *. cbv iota in *.
  rewrite split_app_sep in *.
  rewrite (split_without PyStr.sep name C).
  rewrite removelast_last, last_last.
  rewrite fold_left_app in R. unfold start in *.
  change "/" with (String PyStr.sep "") in *.
  rewrite (startswith_app_cons a' name "").
  cbn [PyStr.split fold_left] in R.
  apply step_empty_inv in R. now rewrite R, G.
Qed.

Lemma remove_file_in (w : world) (folder name : string) (fc : list string)
    (st : stat) (es : list (string * node)) (sf : stat) (data : string) :
  resolve (root w) (pcwd w) folder = inr fc ->
  get_node (root w) fc = Some (Dir st es) ->
  valid_name name = true ->
  lookup name es = Some (File sf data) ->
  os.remove (posixpath.join folder name) w
  = (Ok tt, with_root w (update_dir (root w) fc (remove_entry name))).
Proof.
  intros R G V L. unfold os.remove.
  rewrite (resolve_parent_join _ _ _ _ _ _ _ R G V).
  rewrite (valid_not_special name V).
  now rewrite (get_node_child _ _ _ _ name G), L.
Qed.

Lemma resolve_parent_of_resolved (r : node) (cwd cs : list string) (p : string) :
  resolve r cwd p = inr cs ->
  exists par name,
    resolve_parent r cwd p = inr (par, name)
    /\ step r (inr par) name = inr cs.
Proof.
  intros R. apply resolve_truthy in R as [T F].
  unfold resolve_parent. rewrite T. cbn [negb].
  pose proof (split_not_nil PyStr.sep p) as Hn.
  rewrite (app_removelast_last "" Hn) in F at 1.
  rewrite fold_left_app in F. cbn [fold_left] in F.
  destruct (fold_left (step r) (removelast (PyStr.split PyStr.sep p))
              (inr (start cwd p))) as [e|par]; [discriminate|].
  exists par, (last (PyStr.split PyStr.sep p) "").
  split; [|exact F].
  unfold step in F. now destruct (get_node r par) as [[|]|].
Qed.

(** [os.remove] refuses a directory. *)
Lemma remove_dir_raises (w : world) (p : string) (st : stat)
    (es : list (string * node)) :
  os.node_of w p = inr (Dir st es) ->
  os.remove p w = (Raise (OSError EISDIR), w).
Proof.
  intros N. apply node_of_inv in N as (cs & R & G).
  destruct (resolve_parent_of_resolved _ _ _ _ R) as (par & name & RP & S).
  unfold os.remove. rewrite RP.
  destruct (os.special_name name) eqn:Sp; [reflexivity|].
  unfold step in S.
  destruct (get_node (root w) par) as [[sf d|sp ep]|] eqn:Gp; try discriminate.
  unfold os.special_name in Sp.
  apply orb_false_iff in Sp as [Sp S3]. rewrite Sp, S3 in S.
  destruct (lookup name ep) as [m|]; [|discriminate].
  injection S as <-. now rewrite G.
Qed.

End Removing.

Section DelFile.
Import Py FS directories.

(** X11.  [del_file] of a regular file in the folder [self.cwd]: the name
    leaves the listing of that folder, the other names stay in it and keep
    what they named; the path no longer exists, so that
    [give_file_info] then answers [None]; [files] is refreshed from the
    working directory of the process; nothing is printed. *)
Theorem del_file_removes (self : t) (filename : string) (w : world)
    (st : stat) (es : list (string * node)) (sf : stat) (data : string)
    (st0 : stat) (es0 : list (string * node)) :
  wf (root w) ->
  os.node_of w (cwd self) = inr (Dir st es) ->
  get_node (root w) (pcwd w) = Some (Dir st0 es0) ->
  valid_name filename = true ->
  lookup filename es = Some (File sf data) ->
  exists self' w',
    del_file self filename w = (Ok self', w')
    /\ (exists listing,
          os.listdir_in w' (cwd self) = Ok listing
          /\ forall c, In c listing <-> In c (names es) /\ c <> filename)
    /\ (forall c, valid_name c = true -> c <> filename ->
          os.node_of w' (posixpath.join (cwd self) c)
          = os.node_of w (posixpath.join (cwd self) c))
    /\ os.exists_in w' (posixpath.join (cwd self) filename) = false
    /\ give_file_info self' filename w' = (Ok None, w')
    /\ os.listdir_in w' "." = Ok (files self')
    /\ cwd self' = cwd self
    /\ parent_dir self' = parent_dir self
    /\ pcwd w' = pcwd w
    /\ stdout w' = stdout w.
Proof.
  intros Hw N G0 V L.
  destruct (node_of_inv _ _ _ N) as (cs & R & G).
  assert (Nd : NoDup (names es)).
  { pose proof (wf_get_node _ _ _ Hw G) as W. now inversion W. }
  unfold del_file.
  assert (X : os.exists_in w (posixpath.join (cwd self) filename) = true).
  { unfold os.exists_in, os.node_of.
    now rewrite (node_at_join _ _ _ _ st es N V), L. }
  unfold bind at 1. unfold os.path_exists at 1, gets. rewrite X.
  unfold bind at 1.
  rewrite (remove_file_in w (cwd self) filename cs st es sf data R G V L).
  set (r1 := update_dir (root w) cs (remove_entry filename)).
  assert (K : forall cs' st' es', get_node (root w) cs' = Some (Dir st' es') ->
                exists es'', get_node r1 cs' = Some (Dir st' es'')
                  /\ (cs' <> cs -> names es'' = names es')
                  /\ (cs' = cs -> es'' = remove_entry filename es')).
  { apply (update_dir_dirs _ cs (root w) st es G).
    intros c st' es' Lc. rewrite lookup_remove_other; [exact Lc|].
    intros ->. congruence. }
  assert (K' : forall cs' st' es', get_node (root w) cs' = Some (Dir st' es') ->
                 exists es'', get_node r1 cs' = Some (Dir st' es'')).
  { intros cs' st' es' H. destruct (K cs' st' es' H) as (es'' & H' & _). eauto. }
  destruct (K (pcwd w) st0 es0 G0) as (es0' & G0' & _).
  pose proof (listdir_here (with_root w r1) st0 es0' G0') as Lh.
  unfold bind at 1. rewrite Lh.
  assert (R1 : resolve r1 (pcwd w) (cwd self) = inr cs).
  { exact (resolve_kept _ _ _ _ _ _ _ K' R G). }
  assert (G1 : get_node r1 cs = Some (Dir st (remove_entry filename es))).
  { exact (get_node_update_dir _ _ _ _ _ G). }
  assert (N1 : os.node_of (with_root w r1) (cwd self)
               = inr (Dir st (remove_entry filename es))).
  { unfold os.node_of, node_at. cbn [root pcwd with_root]. now rewrite R1, G1. }
  assert (X1 : os.exists_in (with_root w r1) (posixpath.join (cwd self) filename)
               = false).
  { unfold os.exists_in, os.node_of.
    rewrite (node_at_join _ _ _ _ _ _ N1 V).
    now rewrite (lookup_remove_same filename es Nd). }
  eexists. eexists. split; [reflexivity|].
  split.
  { eexists. split; [unfold os.listdir_in; now rewrite N1|].
    intros c. rewrite (names_remove_entry filename es Nd), filter_In.
    rewrite negb_true_iff, String.eqb_neq. reflexivity. }
  split.
  { intros c Vc Hc. unfold os.node_of.
    rewrite (node_at_join _ _ _ _ _ _ N1 Vc), (node_at_join _ _ _ _ st es N Vc).
    now rewrite lookup_remove_other. }
  split; [exact X1|].
  split.
  { rewrite give_file_info_eq. cbn [cwd set_files].
    unfold os.exists_in in X1.
    now destruct (os.node_of (with_root w r1) (posixpath.join (cwd self) filename)). }
  split.
  { unfold os.listdir0, os.listdir in Lh. now injection Lh. }
  repeat (split; [reflexivity|]). reflexivity.
Qed.

Lemma del_file_removes_witness :
  exists self' w',
    del_file (Sample.fresh Sample.down_world) "n.txt" Sample.down_world
    = (Ok self', w')
    /\ (exists listing,
          os.listdir_in w' "/proj" = Ok listing
          /\ forall c, In c listing <-> In c ["a"; "n.txt"; "zdata"] /\ c <> "n.txt")
    /\ (forall c, valid_name c = true -> c <> "n.txt" ->
          os.node_of w' (posixpath.join "/proj" c)
          = os.node_of Sample.down_world (posixpath.join "/proj" c))
    /\ os.exists_in w' "/proj/n.txt" = false
    /\ give_file_info self' "n.txt" w' = (Ok None, w')
    /\ os.listdir_in w' "." = Ok (files self')
    /\ cwd self' = "/proj"
    /\ parent_dir self' = "/"
    /\ pcwd w' = ["proj"]
    /\ stdout w' = [].
Proof.
  exact (del_file_removes (Sample.fresh Sample.down_world) "n.txt" Sample.down_world
           Sample.dstat _ (Sample.fstat "hi") "hi" Sample.dstat _
           down_root_wf eq_refl eq_refl eq_refl eq_refl).
Defined.

(** X12.  [del_file] only ever removes a regular file: a name that does
    not exist in [self.cwd] is passed over in silence, and a directory
    makes [os.remove] raise [IsADirectoryError]; in both cases nothing is
    changed. *)
Theorem del_file_spares (self : t) (filename : string) (w : world) :
  (os.exists_in w (posixpath.join (cwd self) filename) = false ->
   del_file self filename w = (Ok self, w))
  /\ (forall st es,
        os.node_of w (posixpath.join (cwd self) filename) = inr (Dir st es) ->
        del_file self filename w = (Raise (OSError EISDIR), w)).
Proof.
  unfold del_file, bind, os.path_exists, gets. split.
  - intros X. now rewrite X.
  - intros st es N. unfold os.exists_in. rewrite N.
    now rewrite (remove_dir_raises w _ st es N).
Qed.

Lemma del_file_spares_witness :
  del_file (Sample.fresh Sample.down_world) "nope" Sample.down_world
  = (Ok (Sample.fresh Sample.down_world), Sample.down_world)
  /\ del_file (Sample.fresh Sample.down_world) "a" Sample.down_world
     = (Raise (OSError EISDIR), Sample.down_world).
Proof.
  split.
  - exact (proj1 (del_file_spares (Sample.fresh Sample.down_world) "nope"
                    Sample.down_world) eq_refl).
  - exact (proj2 (del_file_spares (Sample.fresh Sample.down_world) "a"
                    Sample.down_world) Sample.dstat _ eq_refl).
Defined.

End DelFile.

(** ** Search: [search_files] *)

Section WalkedTree.
Import Py FS.

Lemma In_lookup (k : string) (m : node) (es : list (string * node)) :
  NoDup (names es) -> (In (k, m) es <-> lookup k es = Some m).
Proof.
  intros Nd. split; [now apply lookup_NoDup|apply lookup_entry].
Qed.

(** The triples of [os.walk]: one for every directory at or below the
    top, with the path the joins build for it. *)
Lemma walk_node_spec (n : node) : forall (top : string),
  wf n ->
  forall root dirs files,
    In (root, dirs, files) (os.walk_node top n)
    <-> exists cs st es,
          get_node n cs = Some (Dir st es)
          /\ root = fold_left posixpath.join cs top
          /\ dirs = os.subdirs es
          /\ files = os.nondirs es.
Proof.
  induction n as [sf d|st es IH] using node_ind'; intros top Hw root dirs files.
  - cbn [os.walk_node]. split; [intros []|].
    intros (cs & st & es & G & _). now apply get_node_file in G.
  - rewrite walk_node_dir. cbn [In].
    inversion Hw as [|? ? Nd Hall]; subst.
    split.
    + intros [E|H].
      * injection E as <- <- <-. exists [], st, es. auto.
      * apply in_flat_map in H as ((c & child) & Hin & H).
        apply filter_In in Hin as [Hin Hd]. cbn [fst snd] in *.
        rewrite Forall_forall in IH, Hall.
        destruct (Hall _ Hin) as [_ Wc]. cbn [snd] in Wc.
        apply (IH _ Hin (posixpath.join top c) Wc) in H
          as (cs & st' & es' & G & -> & -> & ->).
        exists (c :: cs), st', es'. cbn [get_node fold_left].
        rewrite (lookup_NoDup c child es Nd Hin). auto.
    + intros (cs & st' & es' & G & -> & -> & ->).
      destruct cs as [|c cs].
      * cbn [get_node] in G. injection G as <- <-. now left.
      * right. cbn [get_node] in G.
        destruct (lookup c es) as [child|] eqn:L; [|discriminate].
        pose proof (lookup_entry _ _ _ L) as Hin.
        assert (Hd : is_dir child = true).
        { destruct child; [now apply get_node_file in G|reflexivity]. }
        apply in_flat_map. exists (c, child). split.
        { apply filter_In. auto. }
        rewrite Forall_forall in IH, Hall.
        destruct (Hall _ Hin) as [_ Wc]. cbn [snd] in Wc.
        apply (IH _ Hin (posixpath.join top c) Wc).
        exists cs, st', es'. auto.
Qed.

Lemma nondirs_In (name : string) (es : list (string * node)) :
  NoDup (names es) ->
  (In name (os.nondirs es) <-> exists st data, lookup name es = Some (File st data)).
Proof.
  intros Nd. unfold os.nondirs, names. rewrite in_map_iff. split.
  - intros ((k & m) & <- & H). apply filter_In in H as [Hin Hd].
    cbn [fst snd] in *. destruct m as [sf d|]; [|discriminate].
    exists sf, d. now apply lookup_NoDup.
  - intros (sf & d & L). exists (name, File sf d). split; [reflexivity|].
    apply filter_In. split; [now apply lookup_entry|reflexivity].
Qed.

(** A position below a folder, as the path the joins build. *)
Lemma node_of_below (w : world) (cs : list string) : forall (top : string) (n m : node),
  wf (root w) ->
  os.node_of w top = inr n ->
  get_node n cs = Some m ->
  os.node_of w (fold_left posixpath.join cs top) = inr m.
Proof.
  induction cs as [|c cs IH]; intros top n m Hw N G.
  - cbn [get_node] in G. injection G as <-. exact N.
  - cbn [fold_left]. destruct n as [sf d|st es]; [discriminate|].
    cbn [get_node] in G. destruct (lookup c es) as [child|] eqn:L; [|discriminate].
    apply (IH (posixpath.join top c) child m Hw); [|exact G].
    exact (walk_enters_entry w top c st es child Hw N (lookup_entry _ _ _ L)).
Qed.

End WalkedTree.

Section SearchFiles.
Import Py FS directories.

(** X13.  [search_files] returns exactly the regular files at or below
    [self.cwd] whose own name contains the pattern, each as the path built
    by joining [self.cwd] with the names that lead to it; every path
    returned names a regular file; nothing is changed. *)
Theorem search_files_exact (self : t) (pattern : string) (w : world) (n : node) :
  wf (root w) ->
  os.node_of w (cwd self) = inr n ->
  exists l,
    search_files self pattern w = (Ok l, w)
    /\ (forall p,
          In p l <->
          exists cs name st data,
            get_node n (cs ++ [name]) = Some (File st data)
            /\ PyStr.contains pattern name = true
            /\ p = fold_left posixpath.join (cs ++ [name]) (cwd self))
    /\ (forall p, In p l -> os.isfile_in w p = true).
Proof.
  intros Hw N.
  pose proof (wf_node_at _ _ _ _ Hw N) as Wn.
  eexists. split; [reflexivity|].
  unfold os.walk_in. rewrite N.
  assert (S : forall p,
            In p (flat_map (fun '(root, _, files) => matches_in pattern root files)
                    (os.walk_node (cwd self) n)) <->
            exists cs name st data,
              get_node n (cs ++ [name]) = Some (File st data)
              /\ PyStr.contains pattern name = true
              /\ p = fold_left posixpath.join (cs ++ [name]) (cwd self)).
  { intros p. rewrite in_flat_map. split.
    - intros (((root & dirs) & files) & Hin & Hp).
      apply (walk_node_spec n (cwd self) Wn) in Hin
        as (cs & st & es & G & -> & -> & ->).
      unfold matches_in in Hp. apply in_map_iff in Hp as (name & <- & Hf).
      apply filter_In in Hf as [Hf Hc].
      assert (Nd : NoDup (names es)).
      { pose proof (wf_get_node _ _ _ Wn G) as W. now inversion W. }
      apply (nondirs_In name es Nd) in Hf as (sf & d & L).
      exists cs, name, sf, d. rewrite fold_left_app. cbn [fold_left].
      split; [|auto]. now rewrite (get_node_child _ _ _ _ name G).
    - intros (cs & name & sf & d & G & Hc & ->).
      destruct (get_node_prefix _ _ _ _ G) as (st & es & Gd).
      assert (Nd : NoDup (names es)).
      { pose proof (wf_get_node _ _ _ Wn Gd) as W. now inversion W. }
      exists (fold_left posixpath.join cs (cwd self), os.subdirs es, os.nondirs es).
      split.
      + apply (walk_node_spec n (cwd self) Wn). exists cs, st, es. auto.
      + rewrite fold_left_app. cbn [fold_left]. unfold matches_in.
        apply in_map. apply filter_In. split; [|exact Hc].
        apply (nondirs_In name es Nd). exists sf, d.
        now rewrite <- (get_node_child _ _ _ _ name Gd). }
  split; [exact S|].
  intros p Hp. apply S in Hp as (cs & name & sf & d & G & _ & ->).
  unfold os.isfile_in.
  now rewrite (node_of_below w (cs ++ [name]) (cwd self) n _ Hw N G).
Qed.

Lemma search_files_exact_witness :
  search_files (Sample.fresh Sample.nested_world) ".txt" Sample.nested_world
  = (Ok ["/proj/a.txt"; "/proj/sub/b.txt"], Sample.nested_world)
  /\ exists l,
       search_files (Sample.fresh Sample.nested_world) ".txt" Sample.nested_world
       = (Ok l, Sample.nested_world)
       /\ (forall p,
             In p l <->
             exists cs name st data,
               get_node (Sample.dir [("a.txt", Sample.file "1");
                                     ("sub", Sample.dir [("b.txt", Sample.file "22");
                                                         ("c.md", Sample.file "3")])])
                 (cs ++ [name])
               = Some (File st data)
               /\ PyStr.contains ".txt" name = true
               /\ p = fold_left posixpath.join (cs ++ [name]) "/proj")
       /\ (forall p, In p l -> os.isfile_in Sample.nested_world p = true).
Proof.
  split; [reflexivity|].
  apply (search_files_exact (Sample.fresh Sample.nested_world) ".txt"
           Sample.nested_world).
  - unfold Sample.nested_world, Sample.world_of, Sample.nested_root. cbn [root].
    wf_tree.
  - reflexivity.
Defined.

End SearchFiles.

(** ** Inspection: what [give_file_info] reports *)

Section FileInfoContents.
Import Py FS directories.

(** X14.  What [give_file_info] reports about a path that exists, file or
    directory: [filename] is the name as it was passed, not the joined
    path; [size] and [last_modified] are those of the status; and
    [permissions], the last three characters of [oct(st_mode)], are the
    three octal digits of the permission bits, for every mode that has a
    file type (any mode of [0o100] or more).  Nothing is changed. *)
Theorem give_file_info_reports (self : t) (filename : string) (w : world)
    (n : node) :
  os.node_of w (posixpath.join (cwd self) filename) = inr n ->
  (64 <= st_mode (stat_of n))%N ->
  exists info,
    give_file_info self filename w = (Ok (Some info), w)
    /\ directories.filename info = filename
    /\ size info = st_size (stat_of n)
    /\ last_modified info = st_mtime (stat_of n)
    /\ permissions info = permission_digits (st_mode (stat_of n))
    /\ String.length (permissions info) = 3.
Proof.
  intros N H. rewrite give_file_info_eq, N.
  eexists. split; [reflexivity|]. unfold info_of.
  cbn [directories.filename size last_modified permissions].
  rewrite (last3_oct _ H). repeat (split; [reflexivity|]). reflexivity.
Qed.

Lemma give_file_info_reports_witness :
  exists info,
    give_file_info (Sample.fresh Sample.nested_world) "sub/b.txt" Sample.nested_world
    = (Ok (Some info), Sample.nested_world)
    /\ directories.filename info = "sub/b.txt"
    /\ size info = 2%N
    /\ last_modified info = 0%Z
    /\ permissions info = "644"
    /\ String.length (permissions info) = 3.
Proof.
  exact (give_file_info_reports (Sample.fresh Sample.nested_world) "sub/b.txt"
           Sample.nested_world (Sample.file "22") eq_refl
           (proj1 (N.leb_le 64 33188) eq_refl)).
Defined.

End FileInfoContents.

(** ** Moving: [move_file] *)

Section Positions.
Import Py FS.

Lemma comps_eqb_eq (a : list string) : forall b, os.comps_eqb a b = true <-> a = b.
Proof.
  induction a as [|x a IH]; intros [|y b]; cbn [os.comps_eqb];
    try (split; [discriminate|discriminate]); [tauto|].
  rewrite andb_true_iff, String.eqb_eq, IH. split.
  - intros [-> ->]. reflexivity.
  - intros [= -> ->]. auto.
Qed.

Lemma comps_prefix_app (a : list string) : forall b,
  os.comps_prefix a b = true -> exists t, b = (a ++ t)%list.
Proof.
  induction a as [|x a IH]; intros b H.
  - now exists b.
  - destruct b as [|y b]; [discriminate|]. cbn [os.comps_prefix] in H.
    apply andb_true_iff in H as [E H]. apply String.eqb_eq in E as ->.
    destruct (IH b H) as [t ->]. now exists t.
Qed.

(** A joined path ends with the last character of the name joined. *)
Lemma join_ends_other (a n : string) :
  valid_name n = true ->
  exists pre x, posixpath.join a n = pre ++ String x "" /\ x <> PyStr.sep.
Proof.
  intros V. destruct (last_char_valid n V) as (b & x & E & Hx). subst n.
  unfold posixpath.join.
  destruct (PyStr.startswith (b ++ String x "") "/").
  - exists b, x. auto.
  - destruct (negb (PyStr.truthy a) || PyStr.endswith a "/").
    + exists (a ++ b), x. now rewrite append_assoc'.
    + exists (a ++ "/" ++ b), x. now rewrite !append_assoc'.
Qed.

Lemma rstrip_join (a n : string) :
  valid_name n = true ->
  PyStr.rstrip PyStr.sep (posixpath.join a n) = posixpath.join a n.
Proof.
  intros V. destruct (join_ends_other a n V) as (pre & x & -> & Hx).
  now apply rstrip_ends_other.
Qed.

Lemma endswith_join (a n : string) :
  valid_name n = true -> PyStr.endswith (posixpath.join a n) "/" = false.
Proof.
  intros V. destruct (join_ends_other a n V) as (pre & x & -> & Hx).
  now apply endswith_other.
Qed.

Lemma drop_app_length (a s : string) (k : nat) :
  k = String.length a -> PyStr.drop k (a ++ s) = s.
Proof. intros ->. apply drop_length_app. Qed.

Lemma basename_join (a n : string) :
  valid_name n = true -> posixpath.basename (posixpath.join a n) = n.
Proof.
  intros V. pose proof (valid_name_facts n V) as (_ & _ & _ & C).
  unfold posixpath.join. rewrite (valid_name_not_abs n V).
  unfold posixpath.basename.
  destruct (PyStr.truthy a) eqn:T; cbn [negb orb].
  - destruct (PyStr.endswith a "/") eqn:E.
    + apply endswith_sep in E as [a' ->]. rewrite append_assoc'.
      change ("/" ++ n) with (String PyStr.sep n).
      rewrite (rfind_app_name a' n C).
      replace (a' ++ String PyStr.sep n) with ((a' ++ "/") ++ n)
        by (now rewrite append_assoc').
      apply drop_app_length. rewrite length_app. cbn [String.length]. lia.
    + change (a ++ "/" ++ n) with (a ++ String PyStr.sep n).
      rewrite (rfind_app_name a n C).
      replace (a ++ String PyStr.sep n) with ((a ++ "/") ++ n)
        by (now rewrite append_assoc').
      apply drop_app_length. rewrite length_app. cbn [String.length]. lia.
  - destruct a; [|discriminate]. cbn [append].
    unfold PyStr.rfind. now rewrite (rfind_from_without PyStr.sep n 0 (-1) C).
Qed.

Lemma shutil_basename_join (a n : string) :
  valid_name n = true -> shutil._basename (posixpath.join a n) = n.
Proof.
  intros V. unfold shutil._basename. rewrite (rstrip_join a n V).
  now apply basename_join.
Qed.

(** Regular files away from the updated entry keep their content. *)
Lemma update_dir_files (f : list (string * node) -> list (string * node))
    (par : list string) :
  forall (r : node) (st : stat) (es : list (string * node)),
  get_node r par = Some (Dir st es) ->
  (forall c st' es', lookup c es = Some (Dir st' es') ->
                     lookup c (f es) = Some (Dir st' es')) ->
  forall pos sf d,
    get_node r pos = Some (File sf d) ->
    (forall c, pos = (par ++ [c])%list -> lookup c (f es) = Some (File sf d)) ->
    get_node (update_dir r par f) pos = Some (File sf d).
Proof.
  induction par as [|c0 p0 IH]; intros r st es G D pos sf d H Hc.
  - cbn [get_node] in G. injection G as ->. cbn [update_dir].
    destruct pos as [|c rest]; [discriminate|].
    cbn [get_node] in *.
    destruct (lookup c es) as [m|] eqn:L; [|discriminate].
    destruct m as [sf' d'|sm em].
    + destruct rest; [|discriminate]. injection H as <- <-.
      now rewrite (Hc c eq_refl).
    + now rewrite (D c sm em L).
  - cbn [get_node] in G. destruct r as [|st0 es0]; [discriminate|].
    destruct (lookup c0 es0) as [m0|] eqn:L0; [|discriminate].
    cbn [update_dir]. rewrite L0.
    destruct pos as [|c rest]; [discriminate|].
    cbn [get_node] in *. rewrite lookup_set_entry.
    destruct (String.eqb_spec c0 c) as [<-|Hne].
    + rewrite L0 in H. apply (IH m0 st es G D rest sf d H).
      intros c E. apply Hc. cbn [app]. now rewrite E.
    + exact H.
Qed.

End Positions.

Section MovedTree.
Import Py FS.

Variable r : node.
Variables cs ds : list string.
Variables st sd sf : stat.
Variables es des : list (string * node).
Variable f : string.
Variable data : string.
Hypothesis G : get_node r cs = Some (Dir st es).
Hypothesis Gd : get_node r ds = Some (Dir sd des).
Hypothesis L : lookup f es = Some (File sf data).
Hypothesis Ld : lookup f des = None.

Lemma folders_differ : cs <> ds.
Proof. intros E. rewrite E in G. congruence. Qed.

Lemma source_not_above : forall t, ds <> ((cs ++ [f]) ++ t)%list.
Proof.
  intros t E. rewrite E, get_node_app, (get_node_child _ _ _ _ f G), L in Gd.
  now apply get_node_file in Gd.
Qed.

Lemma target_not_above : forall t, cs <> ((ds ++ [f]) ++ t)%list.
Proof.
  intros t E. rewrite E, get_node_app, (get_node_child _ _ _ _ f Gd), Ld in G.
  discriminate.
Qed.

Local Abbreviation r1 := (update_dir r cs (remove_entry f)).
Local Abbreviation r2 := (update_dir r1 ds (set_entry f (File sf data))).

Lemma removed_dirs : forall pos st' es',
  get_node r pos = Some (Dir st' es') ->
  exists es'', get_node r1 pos = Some (Dir st' es'')
    /\ (pos <> cs -> names es'' = names es')
    /\ (pos = cs -> es'' = remove_entry f es').
Proof.
  apply (update_dir_dirs _ cs r st es G).
  intros c st' es' Lc. rewrite lookup_remove_other; [exact Lc|].
  intros ->. congruence.
Qed.

Lemma target_after_removal :
  exists des1, get_node r1 ds = Some (Dir sd des1)
               /\ names des1 = names des /\ lookup f des1 = None.
Proof.
  destruct (removed_dirs ds sd des Gd) as (des1 & G1 & Hn & _).
  exists des1. split; [exact G1|].
  assert (E : names des1 = names des).
  { apply Hn. intros E. symmetry in E. now apply folders_differ in E. }
  split; [exact E|].
  destruct (lookup f des1) eqn:X; [|reflexivity].
  exfalso. assert (I : In f (names des1)) by (apply lookup_In; congruence).
  rewrite E in I. apply lookup_In in I. congruence.
Qed.

Lemma moved_dirs : forall pos st' es',
  get_node r pos = Some (Dir st' es') ->
  exists es'', get_node r2 pos = Some (Dir st' es'').
Proof.
  intros pos st' es' H.
  destruct (removed_dirs pos st' es' H) as (e1 & H1 & _).
  destruct target_after_removal as (des1 & G1 & _ & L1).
  destruct (update_dir_dirs (set_entry f (File sf data)) ds r1 sd des1 G1) with
    (cs := pos) (st' := st') (es' := e1) as (e2 & H2 & _); [|exact H1|eauto].
  intros c s e Lc. rewrite lookup_set_entry.
  destruct (String.eqb_spec f c) as [->|]; [congruence|exact Lc].
Qed.

Lemma moved_target :
  exists des2, get_node r2 ds = Some (Dir sd des2)
               /\ lookup f des2 = Some (File sf data)
               /\ names des2 = (names des ++ [f])%list.
Proof.
  destruct target_after_removal as (des1 & G1 & N1 & L1).
  exists (set_entry f (File sf data) des1).
  split; [exact (get_node_update_dir _ _ _ _ _ G1)|].
  split; [now rewrite lookup_set_entry, String.eqb_refl|].
  rewrite (set_entry_new _ _ _ L1). unfold names in *.
  now rewrite map_app, N1.
Qed.

Lemma moved_source :
  NoDup (names es) ->
  exists es2, get_node r2 cs = Some (Dir st es2)
              /\ lookup f es2 = None
              /\ names es2 = names (remove_entry f es).
Proof.
  intros Nd.
  pose proof (get_node_update_dir (remove_entry f) cs r st es G) as G1.
  destruct target_after_removal as (des1 & Gd1 & _ & L1).
  destruct (update_dir_dirs (set_entry f (File sf data)) ds r1 sd des1 Gd1) with
    (cs := cs) (st' := st) (es' := remove_entry f es) as (es2 & G2 & Hn & _);
    [|exact G1|].
  { intros c s e Lc. rewrite lookup_set_entry.
    destruct (String.eqb_spec f c) as [->|]; [congruence|exact Lc]. }
  exists es2. split; [exact G2|].
  assert (E : names es2 = names (remove_entry f es)) by (apply Hn, folders_differ).
  split; [|exact E].
  destruct (lookup f es2) eqn:X; [|reflexivity].
  exfalso. assert (I : In f (names es2)) by (apply lookup_In; congruence).
  rewrite E in I. apply lookup_In in I.
  now rewrite (lookup_remove_same f es Nd) in I.
Qed.

End MovedTree.

Section MovingFiles.
Import Py FS directories.

(** [os.rename] of a regular file from one folder into another that has
    no entry of that name. *)
Lemma rename_file_to_folder (w : world) (a b f : string) (cs ds : list string)
    (st sd sf : stat) (es des : list (string * node)) (data : string) :
  resolve (root w) (pcwd w) a = inr cs ->
  get_node (root w) cs = Some (Dir st es) ->
  resolve (root w) (pcwd w) b = inr ds ->
  get_node (root w) ds = Some (Dir sd des) ->
  valid_name f = true ->
  lookup f es = Some (File sf data) ->
  lookup f des = None ->
  os.rename (posixpath.join a f) (posixpath.join b f) w
  = (Ok tt,
     with_root w
       (update_dir (update_dir (root w) cs (remove_entry f)) ds
          (set_entry f (File sf data)))).
Proof.
  intros Ra G Rb Gd V L Ld. unfold os.rename.
  rewrite !rstrip_join by exact V.
  rewrite (resolve_parent_join _ _ _ _ _ _ _ Ra G V).
  rewrite (resolve_parent_join _ _ _ _ _ _ _ Rb Gd V).
  rewrite (valid_not_special f V). cbn [orb].
  rewrite (get_node_child _ _ _ _ f G), L.
  cbn [is_file]. rewrite !endswith_join by exact V. cbn [orb andb].
  destruct (os.comps_eqb (cs ++ [f]) (ds ++ [f])) eqn:E1.
  { apply comps_eqb_eq in E1. apply app_inj_tail in E1 as [E _]. exfalso.
    exact (folders_differ (root w) cs ds st sd sf es des f data G Gd L Ld E). }
  destruct (os.comps_prefix (cs ++ [f]) ds) eqn:E2.
  { apply comps_prefix_app in E2 as [t E]. exfalso.
    exact (source_not_above (root w) cs ds st sd sf es des f data G Gd L t E). }
  destruct (os.comps_prefix (ds ++ [f]) cs) eqn:E3.
  { apply comps_prefix_app in E3 as [t E]. exfalso.
    exact (target_not_above (root w) cs ds st sd es des f G Gd Ld t E). }
  now rewrite (get_node_child _ _ _ _ f Gd), Ld.
Qed.

(** [shutil.move] of such a file into such a folder. *)
Lemma shutil_move_file_into (w : world) (a b f : string) (cs ds : list string)
    (st sd sf : stat) (es des : list (string * node)) (data : string) :
  resolve (root w) (pcwd w) a = inr cs ->
  get_node (root w) cs = Some (Dir st es) ->
  resolve (root w) (pcwd w) b = inr ds ->
  get_node (root w) ds = Some (Dir sd des) ->
  valid_name f = true ->
  lookup f es = Some (File sf data) ->
  lookup f des = None ->
  shutil.move (posixpath.join a f) b w
  = (Ok (Some (posixpath.join b f)),
     with_root w
       (update_dir (update_dir (root w) cs (remove_entry f)) ds
          (set_entry f (File sf data)))).
Proof.
  intros Ra G Rb Gd V L Ld.
  assert (Nb : os.node_of w b = inr (Dir sd des)).
  { unfold os.node_of, node_at. now rewrite Rb, Gd. }
  unfold shutil.move, bind, os.path_isdir, os.path_exists, gets.
  unfold os.isdir_in. rewrite Nb. cbn [is_dir].
  assert (Rs : resolve (root w) (pcwd w) (posixpath.join a f) = inr (cs ++ [f])%list).
  { rewrite (resolve_join _ _ _ _ _ Ra V), (step_child _ _ _ _ f G V). now rewrite L. }
  assert (S : shutil.samefile_in w (posixpath.join a f) b = false).
  { unfold shutil.samefile_in. rewrite Rs, Rb.
    destruct (os.comps_eqb (cs ++ [f]) ds) eqn:E; [|reflexivity].
    apply comps_eqb_eq in E. exfalso.
    apply (source_not_above (root w) cs ds st sd sf es des f data G Gd L []).
    now rewrite app_nil_r. }
  rewrite S. rewrite (shutil_basename_join a f V).
  assert (X : os.exists_in w (posixpath.join b f) = false).
  { unfold os.exists_in, os.node_of.
    now rewrite (node_at_join _ _ _ _ sd des Nb V), Ld. }
  rewrite X. unfold shutil.move_to, bind, try_except.
  now rewrite (rename_file_to_folder w a b f cs ds st sd sf es des data
                 Ra G Rb Gd V L Ld).
Qed.

(** [move_file], by what it finds. *)
Lemma move_file_eq (self : t) (filename dest : string) (w : world) :
  move_file self filename dest w =
  if os.exists_in w (posixpath.join (cwd self) filename) then
    if os.exists_in w dest then move_attempt self filename dest w
    else
      match os.makedirs dest w with
      | (Ok _, w1) => move_attempt self filename dest w1
      | (Raise e, w1) => (Raise e, w1)
      end
  else
    (Ok self,
     with_stdout w (stdout w ++ ["Error: File " ++ filename ++ " does not exist."])).
Proof.
  unfold move_file, move_attempt, bind at 1, os.path_exists at 1, gets.
  destruct (os.exists_in w (posixpath.join (cwd self) filename)); cbn [negb];
    [|reflexivity].
  unfold bind at 1, os.path_exists at 1, gets.
  destruct (os.exists_in w dest); cbn [negb]; [reflexivity|].
  unfold bind at 1. now destruct (os.makedirs dest w) as [[[]|e] w1].
Qed.

(** The attempt, for a regular file and a directory without that name. *)
Lemma move_attempt_into (self : t) (filename dest : string) (w : world)
    (st sd sf st0 : stat) (es des es0 : list (string * node)) (data : string) :
  NoDup (names es) ->
  os.node_of w (cwd self) = inr (Dir st es) ->
  valid_name filename = true ->
  lookup filename es = Some (File sf data) ->
  os.node_of w dest = inr (Dir sd des) ->
  lookup filename des = None ->
  get_node (root w) (pcwd w) = Some (Dir st0 es0) ->
  exists self' w',
    move_attempt self filename dest w = (Ok self', w')
    /\ os.node_of w' (posixpath.join dest filename) = inr (File sf data)
    /\ os.exists_in w' (posixpath.join (cwd self) filename) = false
    /\ os.listdir_in w' dest = Ok (names des ++ [filename])%list
    /\ os.listdir_in w' (cwd self) = Ok (names (remove_entry filename es))
    /\ os.listdir_in w' "." = Ok (files self')
    /\ stdout w'
       = (stdout w
          ++ [("File " ++ filename ++ " moved to " ++ dest ++ " successfully.")%string])%list
    /\ cwd self' = cwd self
    /\ pcwd w' = pcwd w.
Proof.
  intros Hnd N V L Nd Ld G0.
  destruct (node_of_inv _ _ _ N) as (cs & R & G).
  destruct (node_of_inv _ _ _ Nd) as (ds & Rd & Gd).
  unfold move_attempt, try_except.
  unfold bind at 1.
  rewrite (shutil_move_file_into w (cwd self) dest filename cs ds st sd sf es des
             data R G Rd Gd V L Ld).
  set (r2 := update_dir (update_dir (root w) cs (remove_entry filename)) ds
               (set_entry filename (File sf data))).
  pose proof (moved_dirs (root w) cs ds st sd sf es des filename data G Gd L Ld) as K.
  fold r2 in K.
  destruct (K (pcwd w) st0 es0 G0) as (es0' & G0').
  pose proof (listdir_here (with_root w r2) st0 es0' G0') as Lh.
  unfold bind at 1. rewrite Lh. unfold bind at 1. unfold print at 1.
  unfold ret.
  destruct (moved_target (root w) cs ds st sd sf es des filename data G Gd L Ld)
    as (des2 & Gd2 & Ld2 & Nd2).
  destruct (moved_source (root w) cs ds st sd sf es des filename data G Gd L Ld Hnd)
    as (es2 & Gs2 & Ls2 & Ns2).
  fold r2 in Gd2, Gs2.
  assert (Rd2 : resolve r2 (pcwd w) dest = inr ds)
    by exact (resolve_kept _ _ _ _ _ _ _ K Rd Gd).
  assert (Rs2 : resolve r2 (pcwd w) (cwd self) = inr cs)
    by exact (resolve_kept _ _ _ _ _ _ _ K R G).
  set (w2 := with_stdout (with_root w r2) _).
  assert (Nd2' : os.node_of w2 dest = inr (Dir sd des2)).
  { unfold os.node_of, node_at. cbn [root pcwd w2 with_stdout with_root].
    now rewrite Rd2, Gd2. }
  assert (Ns2' : os.node_of w2 (cwd self) = inr (Dir st es2)).
  { unfold os.node_of, node_at. cbn [root pcwd w2 with_stdout with_root].
    now rewrite Rs2, Gs2. }
  exists (set_files self (names es0')), w2.
  split; [reflexivity|].
  split.
  { unfold os.node_of. now rewrite (node_at_join _ _ _ _ sd des2 Nd2' V), Ld2. }
  split.
  { unfold os.exists_in, os.node_of.
    now rewrite (node_at_join _ _ _ _ st es2 Ns2' V), Ls2. }
  split. { unfold os.listdir_in. now rewrite Nd2', Nd2. }
  split. { unfold os.listdir_in. now rewrite Ns2', Ns2. }
  split.
  { pose proof (listdir_here w2 st0 es0' G0') as Lh2.
    unfold os.listdir0, os.listdir in Lh2. now injection Lh2. }
  split; [reflexivity|]. split; reflexivity.
Qed.

(** X15.  [move_file] of a regular file of the folder [self.cwd] into a
    directory that exists and has no entry of that name: the file is found
    in the destination under the same name, with its content and status;
    its old path no longer exists and its name leaves the listing of
    [self.cwd], where the other names stay; the destination lists it
    besides the names it had; [files] is refreshed from the working
    directory of the process and one line reports the success. *)
Theorem move_file_into_folder (self : t) (filename dest : string) (w : world)
    (st sd sf st0 : stat) (es des es0 : list (string * node)) (data : string) :
  wf (root w) ->
  os.node_of w (cwd self) = inr (Dir st es) ->
  valid_name filename = true ->
  lookup filename es = Some (File sf data) ->
  os.node_of w dest = inr (Dir sd des) ->
  lookup filename des = None ->
  get_node (root w) (pcwd w) = Some (Dir st0 es0) ->
  exists self' w',
    move_file self filename dest w = (Ok self', w')
    /\ os.node_of w' (posixpath.join dest filename) = inr (File sf data)
    /\ os.exists_in w' (posixpath.join (cwd self) filename) = false
    /\ (exists listing,
          os.listdir_in w' dest = Ok listing
          /\ forall c, In c listing <-> In c (names des) \/ c = filename)
    /\ (exists listing,
          os.listdir_in w' (cwd self) = Ok listing
          /\ forall c, In c listing <-> In c (names es) /\ c <> filename)
    /\ os.listdir_in w' "." = Ok (files self')
    /\ stdout w'
       = (stdout w
          ++ [("File " ++ filename ++ " moved to " ++ dest ++ " successfully.")%string])%list
    /\ cwd self' = cwd self
    /\ pcwd w' = pcwd w.
Proof.
  intros Hw N V L Nd Ld G0.
  assert (Hnd : NoDup (names es)).
  { pose proof (wf_node_at _ _ _ _ Hw N) as W. now inversion W. }
  rewrite move_file_eq.
  assert (X : os.exists_in w (posixpath.join (cwd self) filename) = true).
  { unfold os.exists_in, os.node_of.
    now rewrite (node_at_join _ _ _ _ st es N V), L. }
  assert (Xd : os.exists_in w dest = true).
  { unfold os.exists_in. now rewrite Nd. }
  rewrite X, Xd.
  destruct (move_attempt_into self filename dest w st sd sf st0 es des es0 data
              Hnd N V L Nd Ld G0)
    as (self' & w' & Hm & H1 & H2 & H3 & H4 & H5 & H6 & H7 & H8).
  exists self', w'. split; [exact Hm|]. split; [exact H1|]. split; [exact H2|].
  split.
  { eexists. split; [exact H3|]. intros c. rewrite in_app_iff. cbn [In].
    intuition congruence. }
  split.
  { eexists. split; [exact H4|]. intros c.
    rewrite (names_remove_entry filename es Hnd), filter_In.
    rewrite negb_true_iff, String.eqb_neq. reflexivity. }
  auto.
Qed.

Lemma move_file_into_folder_witness :
  exists self' w',
    move_file (Sample.fresh Sample.two_world) "notes.txt" "/srv/data" Sample.two_world
    = (Ok self', w')
    /\ os.node_of w' "/srv/data/notes.txt" = inr (Sample.file "n")
    /\ os.exists_in w' "/home/u/proj/notes.txt" = false
    /\ (exists listing,
          os.listdir_in w' "/srv/data" = Ok listing
          /\ forall c, In c listing <-> In c ["t.csv"] \/ c = "notes.txt")
    /\ (exists listing,
          os.listdir_in w' "/home/u/proj" = Ok listing
          /\ forall c, In c listing <-> In c ["notes.txt"] /\ c <> "notes.txt")
    /\ os.listdir_in w' "." = Ok (files self')
    /\ stdout w' = ["File notes.txt moved to /srv/data successfully."]
    /\ cwd self' = "/home/u/proj"
    /\ pcwd w' = ["home"; "u"; "proj"].
Proof.
  apply (move_file_into_folder (Sample.fresh Sample.two_world) "notes.txt" "/srv/data"
           Sample.two_world Sample.dstat Sample.dstat (Sample.fstat "n") Sample.dstat
           [("notes.txt", Sample.file "n")] [("t.csv", Sample.file "1,2")]
           [("notes.txt", Sample.file "n")] "n").
  - unfold Sample.two_world, Sample.world_of, Sample.two_root. cbn [root]. wf_tree.
  - reflexivity.
  - reflexivity.
  - reflexivity.
  - reflexivity.
  - reflexivity.
  - reflexivity.
Defined.

(** X16.  [move_file] of a regular file into a directory that already has
    an entry of that name, the folder of the file itself included: nothing
    is moved and nothing is raised; [shutil.move] refuses, and the refusal
    is printed. *)
Theorem move_file_name_taken (self : t) (filename dest : string) (w : world)
    (st sd sf : stat) (es des : list (string * node)) (data : string) (m : node) :
  os.node_of w (cwd self) = inr (Dir st es) ->
  valid_name filename = true ->
  lookup filename es = Some (File sf data) ->
  os.node_of w dest = inr (Dir sd des) ->
  lookup filename des = Some m ->
  move_file self filename dest w
  = (Ok self,
     with_stdout w
       (stdout w
        ++ [("Error moving file " ++ filename ++ " to " ++ dest
             ++ ": Destination path '" ++ posixpath.join dest filename
             ++ "' already exists")%string])%list).
Proof.
  intros N V L Nd Ld.
  destruct (node_of_inv _ _ _ N) as (cs & R & G).
  destruct (node_of_inv _ _ _ Nd) as (ds & Rd & Gd).
  rewrite move_file_eq.
  assert (X : os.exists_in w (posixpath.join (cwd self) filename) = true).
  { unfold os.exists_in, os.node_of.
    now rewrite (node_at_join _ _ _ _ st es N V), L. }
  assert (Xd : os.exists_in w dest = true).
  { unfold os.exists_in. now rewrite Nd. }
  rewrite X, Xd.
  unfold move_attempt, try_except, bind at 1.
  unfold shutil.move, bind at 1, os.path_isdir, gets.
  unfold os.isdir_in. rewrite Nd. cbn [is_dir].
  assert (Rs : resolve (root w) (pcwd w) (posixpath.join (cwd self) filename)
               = inr (cs ++ [filename])%list).
  { rewrite (resolve_join _ _ _ _ _ R V), (step_child _ _ _ _ filename G V).
    now rewrite L. }
  assert (S : shutil.samefile_in w (posixpath.join (cwd self) filename) dest = false).
  { unfold shutil.samefile_in. rewrite Rs, Rd.
    destruct (os.comps_eqb (cs ++ [filename]) ds) eqn:E; [|reflexivity].
    apply comps_eqb_eq in E. exfalso.
    rewrite <- E, (get_node_child _ _ _ _ filename G), L in Gd. discriminate. }
  unfold bind at 1. rewrite S.
  rewrite (shutil_basename_join (cwd self) filename V).
  assert (Xr : os.exists_in w (posixpath.join dest filename) = true).
  { unfold os.exists_in, os.node_of.
    now rewrite (node_at_join _ _ _ _ sd des Nd V), Ld. }
  unfold bind at 1, os.path_exists, gets. rewrite Xr.
  unfold raise. cbn [is_Exception]. unfold bind, print, ret. reflexivity.
Qed.

Lemma move_file_name_taken_witness :
  move_file (Sample.fresh Sample.two_world) "notes.txt" "." Sample.two_world
  = (Ok (Sample.fresh Sample.two_world),
     with_stdout Sample.two_world
       ["Error moving file notes.txt to .: Destination path './notes.txt' already exists"]).
Proof.
  exact (move_file_name_taken (Sample.fresh Sample.two_world) "notes.txt" "."
           Sample.two_world Sample.dstat Sample.dstat (Sample.fstat "n")
           [("notes.txt", Sample.file "n")] [("notes.txt", Sample.file "n")] "n"
           (Sample.file "n") eq_refl eq_refl eq_refl eq_refl eq_refl).
Defined.

End MovingFiles.

Section MovingToNewFolder.
Import Py FS directories.

Lemma NoDup_snoc {A} (l : list A) (a : A) :
  NoDup l -> ~ In a l -> NoDup (l ++ [a]).
Proof.
  induction l as [|x l IH]; intros Hn Ha; cbn [app].
  - constructor; [intros []|constructor].
  - apply NoDup_cons_iff in Hn as [Hx Hn]. constructor.
    + rewrite in_app_iff. intros [H|[H|[]]]; [contradiction|].
      apply Ha. now left.
    + apply IH; [exact Hn|]. intros H. apply Ha. now right.
Qed.

(** X17.  [move_file] with a destination that does not exist, a plain
    name: the destination is made as a directory in the working directory
    of the process, and the file is put inside it under its own name.  The
    destination is never taken as the new name of the file. *)
Theorem move_file_makes_destination (self : t) (filename dest : string) (w : world)
    (st sf st0 : stat) (es es0 : list (string * node)) (data : string) :
  wf (root w) ->
  os.node_of w (cwd self) = inr (Dir st es) ->
  valid_name filename = true ->
  lookup filename es = Some (File sf data) ->
  get_node (root w) (pcwd w) = Some (Dir st0 es0) ->
  valid_name dest = true ->
  lookup dest es0 = None ->
  exists self' w',
    move_file self filename dest w = (Ok self', w')
    /\ os.isdir_in w' dest = true
    /\ os.listdir_in w' dest = Ok [filename]
    /\ os.node_of w' (posixpath.join dest filename) = inr (File sf data)
    /\ os.exists_in w' (posixpath.join (cwd self) filename) = false
    /\ stdout w'
       = (stdout w
          ++ [("File " ++ filename ++ " moved to " ++ dest ++ " successfully.")%string])%list.
Proof.
  intros Hw N V L G0 Vd Ld.
  destruct (node_of_inv _ _ _ N) as (cs & R & G).
  assert (Hnd : NoDup (names es)).
  { pose proof (wf_node_at _ _ _ _ Hw N) as W. now inversion W. }
  rewrite move_file_eq.
  assert (X : os.exists_in w (posixpath.join (cwd self) filename) = true).
  { unfold os.exists_in, os.node_of.
    now rewrite (node_at_join _ _ _ _ st es N V), L. }
  rewrite X, (exists_name w dest st0 es0 G0 Vd), Ld.
  rewrite (makedirs_name w dest Vd), (mkdir_name w dest st0 es0 G0 Vd), Ld.
  set (r1 := update_dir (root w) (pcwd w) (set_entry dest (made w))).
  assert (D : forall c st' es', lookup c es0 = Some (Dir st' es') ->
                lookup c (set_entry dest (made w) es0) = Some (Dir st' es')).
  { intros c st' es' Lc. rewrite lookup_set_entry.
    destruct (String.eqb_spec dest c) as [->|]; [congruence|exact Lc]. }
  pose proof (update_dir_dirs (set_entry dest (made w)) (pcwd w) (root w) st0 es0
                G0 D) as K. fold r1 in K.
  assert (K' : forall cs' st' es', get_node (root w) cs' = Some (Dir st' es') ->
                 exists es'', get_node r1 cs' = Some (Dir st' es'')).
  { intros cs' st' es' H. destruct (K cs' st' es' H) as (es'' & H' & _). eauto. }
  destruct (K cs st es G) as (es1 & G1 & Hne & Heq).
  assert (G01 : get_node r1 (pcwd w) = Some (Dir st0 (es0 ++ [(dest, made w)]))).
  { unfold r1. rewrite (get_node_update_dir _ _ _ _ _ G0).
    now rewrite (set_entry_new dest (made w) es0 Ld). }
  assert (F1 : get_node r1 (cs ++ [filename]) = Some (File sf data)).
  { apply (update_dir_files _ (pcwd w) (root w) st0 es0 G0 D).
    - now rewrite (get_node_child _ _ _ _ filename G).
    - intros c E. apply app_inj_tail in E as [E <-]. subst cs.
      assert (E0 : es0 = es) by (rewrite G0 in G; now injection G). subst es0.
      rewrite lookup_set_entry.
      destruct (String.eqb_spec dest filename) as [->|]; [congruence|exact L]. }
  assert (L1 : lookup filename es1 = Some (File sf data)).
  { now rewrite <- (get_node_child _ _ _ _ filename G1). }
  assert (Hnd1 : NoDup (names es1)).
  { destruct (list_eq_dec string_dec cs (pcwd w)) as [E|E].
    - rewrite (Heq E). subst cs. assert (E0 : es0 = es) by (rewrite G0 in G; now injection G). subst es0.
      rewrite (set_entry_new dest (made w) es Ld). unfold names. rewrite map_app.
      apply NoDup_snoc; [exact Hnd|].
      intros I. apply (proj2 (lookup_In dest es)) in I. now apply I.
    - now rewrite (Hne E). }
  set (w1 := with_root w r1).
  assert (N1 : os.node_of w1 (cwd self) = inr (Dir st es1)).
  { unfold os.node_of, node_at. cbn [root pcwd w1 with_root].
    now rewrite (resolve_kept _ _ _ _ _ _ _ K' R G), G1. }
  assert (Nd1 : os.node_of w1 dest = inr (made w)).
  { rewrite (node_of_name w1 dest st0 _ G01 Vd).
    now rewrite lookup_app_new, Ld, String.eqb_refl. }
  destruct (move_attempt_into self filename dest w1 st (os.new_dir_stat w) sf st0
              es1 [] (es0 ++ [(dest, made w)]) data Hnd1 N1 V L1 Nd1 eq_refl G01)
    as (self' & w' & Hm & Hn & Hx & Hl & _ & _ & Ho & _).
  exists self', w'. split; [exact Hm|].
  split.
  { unfold os.isdir_in. unfold os.listdir_in in Hl.
    destruct (os.node_of w' dest) as [e|[sx dx|sx ex]]; try discriminate.
    reflexivity. }
  split; [exact Hl|]. split; [exact Hn|]. split; [exact Hx|]. exact Ho.
Qed.

Lemma move_file_makes_destination_witness :
  exists self' w',
    move_file (Sample.fresh Sample.nested_world) "a.txt" "archive" Sample.nested_world
    = (Ok self', w')
    /\ os.isdir_in w' "archive" = true
    /\ os.listdir_in w' "archive" = Ok ["a.txt"]
    /\ os.node_of w' "archive/a.txt" = inr (Sample.file "1")
    /\ os.exists_in w' "/proj/a.txt" = false
    /\ stdout w' = ["File a.txt moved to archive successfully."].
Proof.
  apply (move_file_makes_destination (Sample.fresh Sample.nested_world) "a.txt"
           "archive" Sample.nested_world Sample.dstat (Sample.fstat "1") Sample.dstat
           [("a.txt", Sample.file "1");
            ("sub", Sample.dir [("b.txt", Sample.file "22"); ("c.md", Sample.file "3")])]
           [("a.txt", Sample.file "1");
            ("sub", Sample.dir [("b.txt", Sample.file "22"); ("c.md", Sample.file "3")])]
           "1").
  - unfold Sample.nested_world, Sample.world_of, Sample.nested_root. cbn [root].
    wf_tree.
  - reflexivity.
  - reflexivity.
  - reflexivity.
  - reflexivity.
  - reflexivity.
  - reflexivity.
Defined.

End MovingToNewFolder.

(** ** Persistence: folders that are not there *)

Section MissingFolder.
Import Py FS.

(** The parent of [a/name] cannot be found when the components of [a] do
    not lead to a directory. *)
Lemma resolve_parent_no_folder (r : node) (cwd : list string) (a name : string) :
  valid_name name = true ->
  (forall cs st es,
     fold_left (step r) (PyStr.split PyStr.sep a)
       (inr (start cwd (a ++ String PyStr.sep ""))) = inr cs ->
     get_node r cs <> Some (Dir st es)) ->
  exists e, resolve_parent r cwd (a ++ String PyStr.sep name) = inl e.
Proof.
  intros V H. pose proof (valid_name_facts name V) as (_ & _ & _ & C).
  unfold resolve_parent. rewrite truthy_app_cons. cbn [negb].
  rewrite split_app_sep, (split_without PyStr.sep name C), removelast_last.
  unfold start in *. change "/" with (String PyStr.sep "") in *.
  rewrite (startswith_app_cons a name "").
  destruct (fold_left (step r) (PyStr.split PyStr.sep a)
              (inr (if PyStr.startswith (a ++ String PyStr.sep "")
                         (String PyStr.sep "") then [] else cwd)))
    as [e|cs] eqn:F; [eauto|].
  destruct (get_node r cs) as [[sf d|st es]|] eqn:G; eauto.
  exfalso. exact (H cs st es eq_refl G).
Qed.

Lemma resolve_parent_slash_fails (w : world) (folder name : string) :
  os.isdir_in w folder = false ->
  PyStr.truthy folder = true ->
  valid_name name = true ->
  exists e, resolve_parent (root w) (pcwd w) (folder ++ "/" ++ name) = inl e.
Proof.
  intros I T V. apply (resolve_parent_no_folder _ _ folder name V).
  intros cs st es F G.
  unfold os.isdir_in, os.node_of, node_at, resolve in I. rewrite T in I.
  cbn [negb] in I. unfold start in *.
  change "/" with (String PyStr.sep "") in *.
  rewrite (startswith_app folder (String PyStr.sep "") PyStr.sep T) in F.
  rewrite F, G in I. discriminate.
Qed.

Lemma resolve_parent_join_fails (w : world) (folder name : string) :
  os.isdir_in w folder = false ->
  PyStr.truthy folder = true ->
  valid_name name = true ->
  exists e, resolve_parent (root w) (pcwd w) (posixpath.join folder name) = inl e.
Proof.
  intros I T V. unfold posixpath.join.
  rewrite (valid_name_not_abs name V), T. cbn [negb orb].
  destruct (PyStr.endswith folder "/") eqn:E;
    [|now apply resolve_parent_slash_fails].
  apply endswith_sep in E as [a' ->]. rewrite append_assoc'.
  apply (resolve_parent_no_folder _ _ a' name V).
  intros cs st es F G.
  unfold os.isdir_in, os.node_of, node_at, resolve in I.
  change (a' ++ "/") with (a' ++ String PyStr.sep "") in I.
  rewrite truthy_app_cons in I. cbn [negb] in I.
  rewrite split_app_sep, fold_left_app, F in I.
  cbn [PyStr.split fold_left] in I. unfold step in I.
  rewrite G in I. cbn [String.eqb orb] in I. rewrite G in I. discriminate.
Qed.

Lemma trailing_slash_join (a name : string) :
  valid_name name = true -> io.trailing_slash (posixpath.join a name) = false.
Proof.
  intros V. pose proof (valid_name_facts name V) as (T & _ & _ & C).
  pose proof (valid_name_not_abs name V) as A.
  assert (Hn : String.eqb name "" = false) by (now destruct name).
  unfold io.trailing_slash, posixpath.join. rewrite A.
  destruct (PyStr.truthy a) eqn:Ta; cbn [negb orb].
  - destruct (PyStr.endswith a "/") eqn:E.
    + apply endswith_sep in E as [a' ->]. rewrite append_assoc'.
      change ("/" ++ name) with (String PyStr.sep name).
      now rewrite split_app_sep, (split_without PyStr.sep name C), last_last.
    + exact (not_trailing_slash a name V).
  - destruct a; [|discriminate]. cbn [append].
    now rewrite (split_without PyStr.sep name C).
Qed.

(** Nothing is written below what is not a directory. *)
Lemma write_file_no_folder (w : world) (folder name data : string) :
  os.isdir_in w folder = false ->
  PyStr.truthy folder = true ->
  valid_name name = true ->
  exists e, io.write_file (posixpath.join folder name) data w = (Raise (OSError e), w).
Proof.
  intros I T V. unfold io.write_file. rewrite (trailing_slash_join folder name V).
  destruct (resolve_parent_join_fails w folder name I T V) as [e ->]. eauto.
Qed.

Lemma write_in_no_folder (w : world) (folder name data : string) :
  os.isdir_in w folder = false ->
  PyStr.truthy folder = true ->
  valid_name name = true ->
  exists e,
    io.write_file (directories.in_folder folder name) data w = (Raise (OSError e), w).
Proof.
  intros I T V. unfold io.write_file. rewrite (not_trailing_slash folder name V).
  unfold directories.in_folder.
  destruct (resolve_parent_slash_fails w folder name I T V) as [e ->]. eauto.
Qed.

End MissingFolder.

Section SavingNowhere.
Import Py directories.
Context {codecs : Serializers}.

(** X18.  No saver makes the folder it writes to.  When [self.cwd] is not
    a directory (it was removed, or never was one), [save_json],
    [save_pickle], [save_dict_of_dfs_pickle] and [save_dict_of_dfs_hdf5]
    all raise the [OSError] of opening the file, whatever they are given
    to save, and write nothing. *)
Theorem savers_need_the_folder (self : t) (filename : string) (w : world) :
  os.isdir_in w (cwd self) = false ->
  PyStr.truthy (cwd self) = true ->
  FS.valid_name filename = true ->
  exists e,
    (forall x, save_json self x filename w = (Raise (OSError e), w))
    /\ (forall x, save_pickle self x filename w = (Raise (OSError e), w))
    /\ (forall dfs,
          save_dict_of_dfs_pickle self dfs filename w = (Raise (OSError e), w))
    /\ (forall dfs,
          save_dict_of_dfs_hdf5 self dfs filename w = (Raise (OSError e), w)).
Proof.
  intros I T V.
  destruct (write_file_no_folder w (cwd self) filename "" I T V) as [e He].
  exists e.
  unfold save_json, save_pickle, save_dict_of_dfs_pickle, save_dict_of_dfs_hdf5.
  unfold io.dump_to, io.open_w, bind.
  repeat split; intros; now rewrite He.
Qed.

(** X19.  [save_dict_of_dfs_csv] does not make its folder either: with a
    folder that is not a directory the first table raises an [OSError] and
    nothing is written; with no table at all the call reports success,
    whatever the folder is. *)
Theorem save_csv_needs_the_folder (self : t) (folder : string) (w : world) :
  (forall k df rest,
      os.isdir_in w folder = false ->
      PyStr.truthy folder = true ->
      PyStr.contains "/" k = false ->
      exists e,
        save_dict_of_dfs_csv self ((k, df) :: rest) folder w = (Raise (OSError e), w))
  /\ save_dict_of_dfs_csv self [] folder w
     = (Ok tt,
        with_stdout w
          (stdout w
           ++ [("DataFrames saved as CSV files to " ++ folder ++ " successfully.")%string])%list).
Proof.
  split; [|reflexivity].
  intros k df rest I T C.
  destruct (write_in_no_folder w folder (k ++ ".csv") (to_csv df) I T
              (valid_csv_name k C)) as [e He].
  exists e. unfold save_dict_of_dfs_csv. cbn [save_csv_loop]. unfold bind.
  now rewrite He.
Qed.

End SavingNowhere.

Section SavingNowhereOnSamples.
Import Py directories.

Lemma savers_need_the_folder_witness :
  exists e,
    (forall x, save_json (codecs:=Sample.text_codecs) Sample.gone x "v.json"
                 Sample.down_world = (Raise (OSError e), Sample.down_world))
    /\ (forall x, save_pickle (codecs:=Sample.text_codecs) Sample.gone x "v.json"
                    Sample.down_world = (Raise (OSError e), Sample.down_world))
    /\ (forall dfs,
          save_dict_of_dfs_pickle (codecs:=Sample.text_codecs) Sample.gone dfs "v.json"
            Sample.down_world = (Raise (OSError e), Sample.down_world))
    /\ (forall dfs,
          save_dict_of_dfs_hdf5 (codecs:=Sample.text_codecs) Sample.gone dfs "v.json"
            Sample.down_world = (Raise (OSError e), Sample.down_world)).
Proof.
  exact (savers_need_the_folder (codecs:=Sample.text_codecs) Sample.gone "v.json"
           Sample.down_world eq_refl eq_refl eq_refl).
Defined.

Lemma save_csv_needs_the_folder_witness :
  exists e,
    save_dict_of_dfs_csv (codecs:=Sample.text_codecs)
      (Sample.fresh Sample.down_world) [("t", "a,b")] "missing" Sample.down_world
    = (Raise (OSError e), Sample.down_world).
Proof.
  exact (proj1 (save_csv_needs_the_folder (codecs:=Sample.text_codecs)
                  (Sample.fresh Sample.down_world) "missing" Sample.down_world)
           "t" "a,b" [] eq_refl eq_refl eq_refl).
Defined.

End SavingNowhereOnSamples.

(** ** Persistence and search: the edges *)

Section LoadingWhatIsThere.
Import Py directories.
Context {codecs : Serializers}.

(** X20.  [load_json], [load_pickle] and [load_dict_of_dfs_pickle], by
    what their path names: nothing there gives [None]; a regular file is
    parsed, and a failure of the parser is raised, not turned into [None];
    a directory passes the existence test and then makes [open] raise
    [IsADirectoryError].  Nothing is changed, but for the line
    [load_dict_of_dfs_pickle] prints when it succeeds. *)
Theorem load_by_what_is_there (self : t) (filename : string) (w : world) :
  load_json self filename w
  = match os.node_of w (posixpath.join (cwd self) filename) with
    | inl _ => (Ok None, w)
    | inr (FS.Dir _ _) => (Raise (OSError FS.EISDIR), w)
    | inr (FS.File _ data) =>
        (match json_loads data with Ok v => Ok (Some v) | Raise e => Raise e end, w)
    end
  /\ load_pickle self filename w
     = match os.node_of w (posixpath.join (cwd self) filename) with
       | inl _ => (Ok None, w)
       | inr (FS.Dir _ _) => (Raise (OSError FS.EISDIR), w)
       | inr (FS.File _ data) =>
           (match pickle_loads data with Ok v => Ok (Some v) | Raise e => Raise e end,
            w)
       end
  /\ load_dict_of_dfs_pickle self filename w
     = match os.node_of w (posixpath.join (cwd self) filename) with
       | inl _ => (Ok None, w)
       | inr (FS.Dir _ _) => (Raise (OSError FS.EISDIR), w)
       | inr (FS.File _ data) =>
           match pickle_loads_dfs data with
           | Ok dfs =>
               (Ok (Some dfs),
                with_stdout w
                  (stdout w
                   ++ [("DataFrames loaded from pickle object " ++ filename
                        ++ " successfully.")%string])%list)
           | Raise e => (Raise e, w)
           end
       end.
Proof.
  unfold load_json, load_pickle, load_dict_of_dfs_pickle, bind, os.path_exists,
    gets, os.exists_in, io.load_from, io.read_file, bind, print, ret.
  destruct (os.node_of w (posixpath.join (cwd self) filename)) as [e|[sf d|sd es]]
    eqn:N; rewrite ?N.
  - repeat split; reflexivity.
  - split; [now destruct (json_loads d)|].
    split; [now destruct (pickle_loads d)|now destruct (pickle_loads_dfs d)].
  - repeat split; reflexivity.
Qed.

(** X21.  After [save_json], [give_file_info] of the same name reports
    the length of the text [json.dump] wrote as [size], and the time of
    the call as [last_modified]. *)
Theorem saved_file_info (self : t) (x : PyObj) (filename : string) (w w1 : world) :
  save_json self x filename w = (Ok tt, w1) ->
  exists s info,
    json_dumps x = Ok s
    /\ give_file_info self filename w1 = (Ok (Some info), w1)
    /\ directories.filename info = filename
    /\ size info = N.of_nat (String.length s)
    /\ last_modified info = clock w.
Proof.
  unfold save_json. intros H.
  apply dump_to_ok in H as (s & w0 & E & W & S).
  apply write_then_node in W as [N _].
  exists s. eexists. split; [exact E|].
  rewrite give_file_info_eq, N. split; [reflexivity|].
  unfold io.written. cbn [FS.stat_of]. rewrite S.
  repeat split; reflexivity.
Qed.

(** X22.  [save_dict_of_dfs_csv] adds to what the folder holds: the folder
    then lists the names it had and one [<key>.csv] for every key, and
    nothing else; every name that is not [<key>.csv] for a key names what
    it named before; so a CSV file that was there before stays, and a
    [load_dict_of_dfs_csv] that follows returns a table for it too, under
    the key its name gives. *)
Theorem csv_load_returns_older_tables (self : t) (dfs : PyDict.dict DataFrame)
    (folder : string) (w : world) (st : FS.stat) (es : list (string * FS.node)) :
  os.node_of w folder = inr (FS.Dir st es) ->
  (forall k, In k (PyDict.keys dfs) -> PyStr.contains "/" k = false) ->
  (forall k st' es', In k (PyDict.keys dfs) ->
     FS.lookup (k ++ ".csv") es <> Some (FS.Dir st' es')) ->
  exists w1,
    save_dict_of_dfs_csv self dfs folder w = (Ok tt, w1)
    /\ (exists listing,
          os.listdir_in w1 folder = Ok listing
          /\ forall name,
               In name listing
               <-> In name (FS.names es)
                   \/ exists k, In k (PyDict.keys dfs) /\ name = k ++ ".csv")
    /\ (forall name,
          FS.valid_name name = true ->
          (forall k, In k (PyDict.keys dfs) -> name <> k ++ ".csv") ->
          os.node_of w1 (folder ++ "/" ++ name) = os.node_of w (folder ++ "/" ++ name))
    /\ (forall dfs' w2,
          load_dict_of_dfs_csv self folder w1 = (Ok dfs', w2) ->
          forall name, In name (FS.names es) ->
            PyStr.endswith name ".csv" = true ->
            In (PyStr.split_first PyStr.dot name) (PyDict.keys dfs')).
Proof.
  intros N P D. destruct (node_of_inv _ _ _ N) as (fc & R & G).
  destruct (save_csv_loop_ok folder fc st dfs w es R G) as (r1 & S & R1 & G1 & _).
  - intros k I. apply valid_csv_name, P, I.
  - intros k st' es' I. now apply D.
  - eexists. split.
    { unfold save_dict_of_dfs_csv, bind. rewrite S. unfold print. reflexivity. }
    assert (N1 : os.node_of
                   (with_stdout (with_root w r1)
                      (stdout (with_root w r1)
                       ++ ["DataFrames saved as CSV files to " ++ folder
                           ++ " successfully."]))
                   folder
                 = inr (FS.Dir st (csv_entries w dfs es))).
    { unfold os.node_of, FS.node_at. cbn [root pcwd with_stdout with_root].
      now rewrite R1, G1. }
    split.
    { exists (FS.names (csv_entries w dfs es)). split.
      - unfold os.listdir_in. now rewrite N1.
      - intros name. apply csv_entries_names. }
    split.
    { intros name Vn Hn. unfold os.node_of at 1.
      rewrite (node_at_slash _ _ _ _ _ _ N1 Vn).
      unfold os.node_of. rewrite (node_at_slash _ _ _ _ _ _ N Vn).
      now rewrite csv_entries_other. }
    intros dfs' w2 Hl name Hin He.
    apply load_csv_keys in Hl as (listing & Hls & Hk).
    unfold os.listdir_in in Hls. rewrite N1 in Hls. injection Hls as <-.
    apply Hk. exists name. split; [|auto].
    apply csv_entries_names. now left.
Qed.

End LoadingWhatIsThere.

Section LoadingOnSamples.
Import Py directories.

Lemma saved_file_info_witness :
  fst (give_file_info (Sample.fresh Sample.out_world) "v.json"
         (snd (save_json (codecs:=Sample.text_codecs) (Sample.fresh Sample.out_world)
                 "[1, 2]" "v.json" Sample.out_world)))
  = Ok (Some (mkInfo "v.json" 6 1000 "644"))
  /\ exists s info,
       json_dumps (Serializers:=Sample.text_codecs) "[1, 2]" = Ok s
       /\ give_file_info (Sample.fresh Sample.out_world) "v.json"
            (snd (save_json (codecs:=Sample.text_codecs)
                    (Sample.fresh Sample.out_world) "[1, 2]" "v.json"
                    Sample.out_world))
          = (Ok (Some info),
             snd (save_json (codecs:=Sample.text_codecs)
                    (Sample.fresh Sample.out_world) "[1, 2]" "v.json"
                    Sample.out_world))
       /\ directories.filename info = "v.json"
       /\ size info = N.of_nat (String.length s)
       /\ last_modified info = clock Sample.out_world.
Proof.
  split; [reflexivity|].
  exact (saved_file_info (codecs:=Sample.text_codecs) (Sample.fresh Sample.out_world)
           "[1, 2]" "v.json" Sample.out_world
           (snd (save_json (codecs:=Sample.text_codecs) (Sample.fresh Sample.out_world)
                   "[1, 2]" "v.json" Sample.out_world))
           eq_refl).
Defined.

Lemma csv_load_returns_older_tables_witness :
  fst (load_dict_of_dfs_csv (codecs:=Sample.text_codecs)
         (Sample.fresh Sample.old_world) "out"
         (snd (save_dict_of_dfs_csv (codecs:=Sample.text_codecs)
                 (Sample.fresh Sample.old_world) Sample.plain_tables "out"
                 Sample.old_world)))
  = Ok [("old", "0"); ("sales", "a,b"); ("stock", "c")]
  /\ exists w1,
       save_dict_of_dfs_csv (codecs:=Sample.text_codecs)
         (Sample.fresh Sample.old_world) Sample.plain_tables "out" Sample.old_world
       = (Ok tt, w1)
       /\ (exists listing,
             os.listdir_in w1 "out" = Ok listing
             /\ forall name,
                  In name listing
                  <-> In name ["old.csv"]
                      \/ exists k, In k ["sales"; "stock"] /\ name = k ++ ".csv")
       /\ (forall name,
             FS.valid_name name = true ->
             (forall k, In k ["sales"; "stock"] -> name <> k ++ ".csv") ->
             os.node_of w1 ("out" ++ "/" ++ name)
             = os.node_of Sample.old_world ("out" ++ "/" ++ name))
       /\ (forall dfs' w2,
             load_dict_of_dfs_csv (codecs:=Sample.text_codecs)
               (Sample.fresh Sample.old_world) "out" w1 = (Ok dfs', w2) ->
             forall name, In name ["old.csv"] ->
               PyStr.endswith name ".csv" = true ->
               In (PyStr.split_first PyStr.dot name) (PyDict.keys dfs')).
Proof.
  split; [reflexivity|].
  apply (csv_load_returns_older_tables (codecs:=Sample.text_codecs)
           (Sample.fresh Sample.old_world) Sample.plain_tables "out" Sample.old_world
           Sample.dstat [("old.csv", Sample.file "0")]).
  - reflexivity.
  - intros k [<-|[<-|[]]]; reflexivity.
  - intros k st' es' [<-|[<-|[]]]; discriminate.
Defined.

End LoadingOnSamples.

Section EdgesOfTheSearches.
Import Py directories.

Lemma contains_empty (s : string) : PyStr.contains "" s = true.
Proof. now destruct s. Qed.

Lemma append_empty (s : string) : s ++ "" = s.
Proof. induction s as [|a s IH]; [reflexivity|]. cbn. now rewrite IH. Qed.

Lemma isdir_join_empty (w : world) (a : string) (st : FS.stat)
    (es : list (string * FS.node)) :
  os.node_of w a = inr (FS.Dir st es) ->
  os.node_of w (posixpath.join a "") = inr (FS.Dir st es).
Proof.
  intros N. destruct (node_of_inv _ _ _ N) as (cs & R & G).
  pose proof (resolve_some_truthy _ _ _ _ R) as T.
  unfold posixpath.join. change (PyStr.startswith "" "/") with false. cbv iota.
  rewrite T. cbn [negb orb].
  destruct (PyStr.endswith a "/"); [now rewrite append_empty|].
  unfold os.node_of, FS.node_at.
  assert (R' : FS.resolve (root w) (pcwd w) (a ++ "/" ++ "") = inr cs).
  { apply resolve_truthy in R as [_ F]. unfold FS.resolve.
    rewrite truthy_app by assumption. cbn [negb].
    change (a ++ "/" ++ "") with (a ++ String PyStr.sep "").
    rewrite split_app_sep, fold_left_app. unfold FS.start in *.
    change "/" with (String PyStr.sep "") in *.
    rewrite startswith_app by assumption. rewrite F.
    cbn [PyStr.split fold_left]. unfold FS.step. rewrite G. reflexivity. }
  now rewrite R', G.
Qed.

Lemma subdirs_nil (es : list (string * FS.node)) :
  os.subdirs es = [] -> filter (fun e => FS.is_dir (snd e)) es = [].
Proof.
  unfold os.subdirs, FS.names.
  destruct (filter (fun e => FS.is_dir (snd e)) es); [reflexivity|discriminate].
Qed.

(** X23.  With the empty keyword both searches answer at once, since
    every name contains the empty string: the upward search returns
    [self.cwd] itself, as [os.path.join] writes it with an empty last
    component, and the downward search returns the first sub-directory of
    [self.cwd], or [None] when it has none.  Nothing is printed. *)
Theorem empty_keyword_matches_at_once (self : t) (w : world) (st : FS.stat)
    (es : list (string * FS.node)) (fuel : nat) :
  os.node_of w (cwd self) = inr (FS.Dir st es) ->
  find_closest_kw_folder_up (S fuel) self "" w
  = Some (Some (posixpath.join (cwd self) ""), w)
  /\ find_closest_kw_folder_down self "" w
     = (Ok (match os.subdirs es with
            | d :: _ => Some (posixpath.join (cwd self) d)
            | [] => None
            end), w).
Proof.
  intros N. split.
  - unfold find_closest_kw_folder_up. rewrite up_loop_S.
    unfold os.isdir_in. now rewrite (isdir_join_empty w (cwd self) st es N).
  - unfold find_closest_kw_folder_down, bind, os.walk, gets, os.walk_in.
    rewrite N, walk_node_dir. cbn [scan_walk]. unfold bind.
    destruct (os.subdirs es) as [|d ds] eqn:S.
    + cbn [scan_dirs]. unfold ret. rewrite (subdirs_nil es S). reflexivity.
    + cbn [scan_dirs]. rewrite contains_empty. reflexivity.
Qed.

Lemma empty_keyword_matches_at_once_witness :
  find_closest_kw_folder_up 1 (Sample.fresh Sample.down_world) "" Sample.down_world
  = Some (Some "/proj/", Sample.down_world)
  /\ find_closest_kw_folder_down (Sample.fresh Sample.down_world) "" Sample.down_world
     = (Ok (Some "/proj/a"), Sample.down_world).
Proof.
  exact (empty_keyword_matches_at_once (Sample.fresh Sample.down_world)
           Sample.down_world Sample.dstat _ 0 eq_refl).
Defined.

(** X24.  When [self.cwd] is not a directory, [os.walk] yields nothing and
    raises nothing: [find_closest_kw_folder_down] answers [None] and
    [search_files] the empty list, for every keyword and pattern, where
    [list_files] of the same path raises. *)
Theorem searches_find_nothing_without_folder (self : t) (w : world) :
  os.isdir_in w (cwd self) = false ->
  (forall kw, find_closest_kw_folder_down self kw w = (Ok None, w))
  /\ (forall pattern, search_files self pattern w = (Ok [], w))
  /\ (exists e, list_files self (cwd self) w = (Raise (OSError e), w)).
Proof.
  intros I.
  assert (W : os.walk_in w (cwd self) = []).
  { unfold os.walk_in. unfold os.isdir_in in I.
    destruct (os.node_of w (cwd self)) as [e|[sf d|sd es]];
      [reflexivity|reflexivity|discriminate]. }
  split; [|split].
  - intros kw. unfold find_closest_kw_folder_down, bind, os.walk, gets.
    now rewrite W.
  - intros pattern. unfold search_files, bind, os.walk, gets. now rewrite W.
  - unfold list_files, os.listdir, os.listdir_in. unfold os.isdir_in in I.
    destruct (os.node_of w (cwd self)) as [e|[sf d|sd es]]; eauto. discriminate.
Qed.

Lemma searches_find_nothing_without_folder_witness :
  (forall kw, find_closest_kw_folder_down Sample.gone kw Sample.down_world
              = (Ok None, Sample.down_world))
  /\ (forall pattern, search_files Sample.gone pattern Sample.down_world
                      = (Ok [], Sample.down_world))
  /\ (exists e, list_files Sample.gone (cwd Sample.gone) Sample.down_world
                = (Raise (OSError e), Sample.down_world)).
Proof.
  exact (searches_find_nothing_without_folder Sample.gone Sample.down_world eq_refl).
Defined.

End EdgesOfTheSearches.

(** ** Persistence, navigation: orders and round trips *)

Section SameKey.
Import Py directories.
Context {codecs : Serializers}.

Lemma get_fold_load (es : list (string * FS.node)) (k : string)
    (names : list string) : forall (d : PyDict.dict DataFrame),
  PyDict.get k (fold_left (load_step es) names d)
  = fold_left
      (fun acc name =>
         if PyStr.endswith name ".csv"
            && String.eqb (PyStr.split_first PyStr.dot name) k
         then match csv_table es name with Some df => Some df | None => acc end
         else acc)
      names (PyDict.get k d).
Proof.
  induction names as [|name r IH]; intros d; [reflexivity|].
  cbn [fold_left]. rewrite IH. f_equal.
  unfold load_step. destruct (PyStr.endswith name ".csv"); cbn [andb]; [|reflexivity].
  destruct (csv_table es name) as [df|].
  - rewrite get_set. now destruct (String.eqb (PyStr.split_first PyStr.dot name) k).
  - now destruct (String.eqb (PyStr.split_first PyStr.dot name) k).
Qed.

Lemma last_table_tail (es : list (string * FS.node)) (k : string)
    (l : list string) : forall (acc : option DataFrame),
  (forall n, In n l -> PyStr.endswith n ".csv" = true ->
             PyStr.split_first PyStr.dot n <> k) ->
  fold_left
    (fun acc name =>
       if PyStr.endswith name ".csv"
          && String.eqb (PyStr.split_first PyStr.dot name) k
       then match csv_table es name with Some df => Some df | None => acc end
       else acc)
    l acc = acc.
Proof.
  induction l as [|n l IH]; intros acc H; [reflexivity|].
  cbn [fold_left].
  destruct (PyStr.endswith n ".csv") eqn:E; cbn [andb].
  - pose proof (H n (or_introl eq_refl) E) as Hn.
    apply String.eqb_neq in Hn. rewrite Hn.
    apply IH. intros m I. apply H. now right.
  - apply IH. intros m I. apply H. now right.
Qed.

(** X25.  When several CSV files of the folder give the same key,
    [load_dict_of_dfs_csv] keeps one table for it: that of the file listed
    last.  Every key of the result holds the table of the last listed CSV
    file whose name, cut at its first dot, is that key. *)
Theorem load_csv_last_file_wins (self : t) (folder : string) (w : world)
    (st : FS.stat) (es : list (string * FS.node)) :
  FS.wf (root w) ->
  os.node_of w folder = inr (FS.Dir st es) ->
  (forall name, In name (FS.names es) -> PyStr.endswith name ".csv" = true ->
                csv_table es name <> None) ->
  exists dfs' out,
    load_dict_of_dfs_csv self folder w = (Ok dfs', with_stdout w (stdout w ++ out))
    /\ (forall k, PyDict.get k dfs' = last_table es k (FS.names es))
    /\ (forall before name after,
          FS.names es = (before ++ name :: after)%list ->
          PyStr.endswith name ".csv" = true ->
          (forall n, In n after -> PyStr.endswith n ".csv" = true ->
                     PyStr.split_first PyStr.dot n
                     <> PyStr.split_first PyStr.dot name) ->
          PyDict.get (PyStr.split_first PyStr.dot name) dfs' = csv_table es name).
Proof.
  intros Hw N T.
  pose proof (wf_node_at _ _ _ _ Hw N) as Wd.
  destruct (load_csv_folder self folder w st es N) as [out Hl].
  - intros name I E. split; [|now apply T].
    exact (wf_entries_valid st es name Wd I).
  - exists (fold_left (load_step es) (FS.names es) []), out.
    split; [exact Hl|]. split; [intros k; apply get_fold_load|].
    intros before name after Hn E Hafter.
    rewrite get_fold_load, Hn, fold_left_app. cbn [fold_left PyDict.get].
    rewrite E, String.eqb_refl. cbn [andb].
    assert (I : In name (FS.names es)).
    { rewrite Hn. apply in_or_app. right. now left. }
    destruct (csv_table es name) as [df|] eqn:C; [|now apply T in C].
    now apply last_table_tail.
Qed.

End SameKey.

Section SameKeyOnSamples.
Import Py directories.

Lemma load_csv_last_file_wins_witness :
  fst (load_dict_of_dfs_csv (codecs:=Sample.text_codecs)
         (Sample.fresh Sample.stems_world) "out" Sample.stems_world)
  = Ok [("a", "2")]
  /\ exists dfs' out,
       load_dict_of_dfs_csv (codecs:=Sample.text_codecs)
         (Sample.fresh Sample.stems_world) "out" Sample.stems_world
       = (Ok dfs', with_stdout Sample.stems_world (stdout Sample.stems_world ++ out))
       /\ (forall k,
             PyDict.get k dfs'
             = last_table (codecs:=Sample.text_codecs)
                 [("a.csv", Sample.file "1"); ("notes.txt", Sample.file "n");
                  ("a.b.csv", Sample.file "2")]
                 k ["a.csv"; "notes.txt"; "a.b.csv"])
       /\ (forall before name after,
             ["a.csv"; "notes.txt"; "a.b.csv"] = (before ++ name :: after)%list ->
             PyStr.endswith name ".csv" = true ->
             (forall n, In n after -> PyStr.endswith n ".csv" = true ->
                        PyStr.split_first PyStr.dot n
                        <> PyStr.split_first PyStr.dot name) ->
             PyDict.get (PyStr.split_first PyStr.dot name) dfs'
             = csv_table (codecs:=Sample.text_codecs)
                 [("a.csv", Sample.file "1"); ("notes.txt", Sample.file "n");
                  ("a.b.csv", Sample.file "2")] name).
Proof.
  split; [reflexivity|].
  apply (load_csv_last_file_wins (codecs:=Sample.text_codecs)
           (Sample.fresh Sample.stems_world) "out" Sample.stems_world Sample.dstat
           [("a.csv", Sample.file "1"); ("notes.txt", Sample.file "n");
            ("a.b.csv", Sample.file "2")]).
  - unfold Sample.stems_world, Sample.world_of, Sample.stems_root. cbn [root]. wf_tree.
  - reflexivity.
  - intros name [<-|[<-|[<-|[]]]] E; discriminate.
Defined.

End SameKeyOnSamples.

Section ThereAndBack.
Import Py directories.

Lemma with_pcwd_back (w : world) (cs : list string) :
  with_pcwd (with_pcwd w cs) (pcwd w) = w.
Proof. now destruct w. Qed.

(** X26.  [shift_dir] there and back: on an instance fresh from
    [__init__], a [shift_dir] followed by a [shift_dir] to the [cwd] it had
    brings back the very same instance, and the process where it was. *)
Theorem shift_dir_there_and_back (self self1 : t) (new_dir : string) (w w1 : world) :
  FS.wf (root w) ->
  __init__ w = (Ok self, w) ->
  shift_dir self new_dir w = (Ok self1, w1) ->
  shift_dir self1 (cwd self) w1 = (Ok self, w).
Proof.
  intros Hw Hi Hs.
  destruct (init_inv _ _ _ Hi) as (st & es & G & Hself & _).
  rewrite shift_dir_eq in Hs.
  destruct (FS.resolve (root w) (pcwd w) new_dir) as [e|cs]; [discriminate|].
  destruct (FS.get_node (root w) cs) as [[st1 d|st1 es1]|] eqn:G1; try discriminate.
  injection Hs as <- <-.
  rewrite shift_dir_eq. cbn [root pcwd with_pcwd parent_dir home_dir].
  rewrite Hself at 1. cbn [cwd].
  rewrite (getcwd_path_resolves (root w) (pcwd w) cs st es Hw G), G.
  rewrite with_pcwd_back. now rewrite Hself.
Qed.

Lemma shift_dir_there_and_back_witness :
  exists self1 w1,
    shift_dir (Sample.fresh Sample.two_world) "/srv/data" Sample.two_world
    = (Ok self1, w1)
    /\ shift_dir self1 (cwd (Sample.fresh Sample.two_world)) w1
       = (Ok (Sample.fresh Sample.two_world), Sample.two_world).
Proof.
  eexists. eexists. split; [reflexivity|].
  apply (shift_dir_there_and_back (Sample.fresh Sample.two_world) _ "/srv/data"
           Sample.two_world).
  - unfold Sample.two_world, Sample.world_of, Sample.two_root. cbn [root]. wf_tree.
  - reflexivity.
  - reflexivity.
Defined.

End ThereAndBack.

Section TwoUpwardSearches.
Import Py directories.

(** X27.  The two upward searches agree where both apply: a directory
    that [find_closest_data_folder] returns is also what
    [find_closest_kw_folder_up] returns for the keyword [data], after one
    progress line for each level it climbed. *)
Theorem data_folder_agrees_with_upward_search (self : t) (w : world) (fuel : nat)
    (p : string) :
  find_closest_data_folder fuel self w = Some (Some p, w) ->
  os.isdir_in w p = true ->
  exists k,
    find_closest_kw_folder_up fuel self "data" w
    = Some (Some p, printed_up k "data" w).
Proof.
  intros H D. apply data_loop_sound in H as (_ & k & Hk & Hj & _ & -> & _).
  exists k. apply up_loop_finds; [exact Hk| |exact D].
  intros j Hlt. destruct (Hj j Hlt) as [Hn Hx]. split; [|exact Hn].
  unfold no_match.
  destruct (os.isdir_in w (posixpath.join (ancestor j (cwd self)) "data")) eqn:E;
    [|reflexivity].
  apply isdir_exists in E. congruence.
Qed.

Lemma data_folder_agrees_with_upward_search_witness :
  exists k,
    find_closest_kw_folder_up 2
      (Sample.fresh (Sample.world_of Sample.xy_root ["proj"; "y"])) "data"
      (Sample.world_of Sample.xy_root ["proj"; "y"])
    = Some (Some "/proj/y/data",
            printed_up k "data" (Sample.world_of Sample.xy_root ["proj"; "y"])).
Proof.
  exact (data_folder_agrees_with_upward_search
           (Sample.fresh (Sample.world_of Sample.xy_root ["proj"; "y"]))
           (Sample.world_of Sample.xy_root ["proj"; "y"]) 2 "/proj/y/data"
           eq_refl eq_refl).
Defined.

End TwoUpwardSearches.

(** ** Moving: what [move_file] raises *)

Section WhatMoveFileRaises.
Import Py directories.

(** Whatever happens inside the [try] statement is caught and printed. *)
Lemma move_attempt_returns (self : t) (filename dest : string) (w : world) :
  exists self' w', move_attempt self filename dest w = (Ok self', w').
Proof.
  unfold move_attempt, try_except.
  destruct ((shutil.move (posixpath.join (cwd self) filename) dest;;;
             fs <- os.listdir0;;
             print ("File " ++ filename ++ " moved to " ++ dest ++ " successfully.");;;
             ret (set_files self fs)) w) as [[s|e] w0].
  - eauto.
  - cbn [is_Exception]. unfold bind, print, ret. eauto.
Qed.

(** X28.  [move_file] raises in one case only: the source exists, the
    destination does not, and [os.makedirs] fails to make it, which stands
    outside the [try] statement; the exception is the [OSError] of
    [os.makedirs].  Every failure of the move itself is caught and
    printed. *)
Theorem move_file_raises_only_from_makedirs (self : t) (filename dest : string)
    (w w' : world) (e : exn) :
  move_file self filename dest w = (Raise e, w') ->
  os.exists_in w (posixpath.join (cwd self) filename) = true
  /\ os.exists_in w dest = false
  /\ os.makedirs dest w = (Raise e, w')
  /\ is_OSError e = true.
Proof.
  rewrite move_file_eq.
  destruct (os.exists_in w (posixpath.join (cwd self) filename)); [|discriminate].
  destruct (os.exists_in w dest).
  - destruct (move_attempt_returns self filename dest w) as (s & w0 & ->).
    discriminate.
  - destruct (os.makedirs dest w) as [[[]|e0] w1] eqn:M.
    + destruct (move_attempt_returns self filename dest w1) as (s & w0 & ->).
      discriminate.
    + intros [= -> ->]. repeat split.
      apply (makedirs_rec_raises_OSError (S (String.length dest)) dest w e).
      * lia.
      * unfold os.makedirs in M. now rewrite M.
Qed.

Lemma move_file_raises_only_from_makedirs_witness :
  os.exists_in Sample.down_world
    (posixpath.join (cwd (Sample.fresh Sample.down_world)) "n.txt") = true
  /\ os.exists_in Sample.down_world "n.txt/old" = false
  /\ os.makedirs "n.txt/old" Sample.down_world
     = (Raise (OSError FS.ENOTDIR), Sample.down_world)
  /\ is_OSError (OSError FS.ENOTDIR) = true.
Proof.
  exact (move_file_raises_only_from_makedirs (Sample.fresh Sample.down_world)
           "n.txt" "n.txt/old" Sample.down_world Sample.down_world
           (OSError FS.ENOTDIR) eq_refl).
Defined.

End WhatMoveFileRaises.
